(** * Client tun setup for Windows: adapter configuration and teardown

    A shallow embedding of [openvpn/tun/win/client/tunsetup.hpp]
    (class [openvpn::TunWin::Setup], with both variants of [adapter_config]:
    Vista and higher, and pre-Vista in module [Legacy]) together with the
    properties of the create and destroy action lists that the design
    document of the component states, and further properties of the code.

    Conventions of the embedding:
    - [std::string] is [string]; [operator+] on strings is [^^];
    - [int], [size_t] and [DWORD] values are [Z];
    - a nullable [const RouteAddress*] is an [option];
    - [ActionList& create], [ActionList& destroy] and [std::ostream& os] are
      threaded through [adapter_config] as an explicit state, which survives
      a [throw] (the lists are owned by the caller);
    - a C++ exception is the outcome [Throw]; dereferencing a null pointer is
      the separate outcome [NullDeref]. *)

From Stdlib Require Import ZArith List String Ascii Bool Lia.
From Stdlib Require Import DecimalString.
Import ListNotations.

Local Open Scope string_scope.
Local Open Scope Z_scope.
Local Open Scope list_scope.

Infix "^^" := String.append (at level 60, right associativity).

(** ** Strings *)

(** [openvpn::to_string] on an integer: its decimal representation. *)
Definition to_string (n : Z) : string := NilZero.string_of_int (Z.to_int n).

(** The double-quote character (ASCII 34) as a one-character string. *)
Definition dquote : string := String (ascii_of_nat 34) EmptyString.

(** [std::string::empty()]. *)
Definition empty (s : string) : bool :=
  match s with
  | EmptyString => true
  | String _ _ => false
  end.

(** ** The pulled configuration ([TunBuilderCapture]) *)

Module RouteAddress.
Record t := mk {
  address : string;
  prefix_length : Z;
  gateway : string;
  net30 : bool
}.
End RouteAddress.

Module Route.
Record t := mk {
  address : string;
  prefix_length : Z;
  ipv6 : bool
}.
End Route.

Module RerouteGW.
Record t := mk {
  ipv4 : bool;
  ipv6 : bool
}.
End RerouteGW.

Module RemoteAddress.
Record t := mk {
  address : string;
  ipv6 : bool
}.
End RemoteAddress.

Module DNSServer.
Record t := mk {
  address : string;
  ipv6 : bool
}.
End DNSServer.

Module SearchDomain.
Record t := mk {
  domain : string
}.
End SearchDomain.

Module WINSServer.
Record t := mk {
  address : string
}.
End WINSServer.

Module TunBuilderCapture.
Record t := mk {
  vpn_ipv4 : option RouteAddress.t;
  vpn_ipv6 : option RouteAddress.t;
  block_ipv6 : bool;
  add_routes : list Route.t;
  exclude_routes : list Route.t;
  reroute_gw : RerouteGW.t;
  remote_address : RemoteAddress.t;
  dns_servers : list DNSServer.t;
  search_domains : list SearchDomain.t;
  wins_servers : list WINSServer.t
}.
End TunBuilderCapture.

(** ** Collaborators from [openvpn/tun/win/tunutil.hpp] *)

Module TapNameGuidPair.
Record t := mk {
  name : string;
  guid : string;
  index : Z
}.
End TapNameGuidPair.

Module DefaultGateway.
Record t := mk {
  interface_index : Z;
  gateway_address : string
}.
End DefaultGateway.

Definition HANDLE := Z.

(** Direct device controls issued on the TAP handle (not queued). *)
Inductive TapIoctl : Type :=
| tap_set_media_status (th : HANDLE) (media_status : bool)
| tap_configure_topology_net30 (th : HANDLE) (localaddr : string) (prefix_len : Z)
| tap_configure_topology_subnet (th : HANDLE) (localaddr : string) (prefix_len : Z).

(** ** Actions *)

Inductive Action : Type :=
| ActionDeleteAllRoutesOnInterface (iface_index : Z)
| WinCmd (cmd : string)
| NRPT_ActionCreate (dsfx : list string) (dserv : list string)
| NRPT_ActionDelete
| ActionWFP (openvpn_app_path : string) (iface_index : Z) (enable : bool).

(** ** The environment of a call

    Everything [establish] and [adapter_config] read from the host: the
    result of [Util::tap_open], the default gateway, the Windows version
    predicates, the text of the collaborators' [to_string] methods.  The
    netmask table ([IPv4::Addr::netmask_from_prefix_len]) and
    [TapNameGuidPair::index_or_name] are declared outside this file of the
    repository and are taken as parameters.  [action_ok h a] tells whether
    executing the action [a] succeeds on a host where the actions [h] have
    been executed so far. *)

Record Env := mkEnv {
  gw : option DefaultGateway.t;
  IsWindowsVistaOrGreater : bool;
  IsWindows7OrGreater : bool;
  IsWindows8OrGreater : bool;
  netmask_from_prefix_len : Z -> string;
  index_or_name : TapNameGuidPair.t -> string;
  tap_open_th : option HANDLE;
  tap_open_path : string;
  tap_open_tap : TapNameGuidPair.t;
  guids_to_string : string;
  version_to_string : string;
  action_ok : list Action -> Action -> bool
}.

(** ** Exceptions and outcomes *)

Inductive exn : Type :=
| tun_win_setup (msg : string)
| ErrorCode_TUN_IFACE_CREATE (fatal : bool) (msg : string)
| action_failure (a : Action).

Inductive outcome (A : Type) : Type :=
| Ret (a : A)
| Throw (e : exn)
| NullDeref.

Arguments Ret {A} a.
Arguments Throw {A} e.
Arguments NullDeref {A}.

(** ** The state threaded through [adapter_config] *)

Module Lists.
Record t := mk {
  create : list Action;
  destroy : list Action;
  os : list string;
  tap_io : list TapIoctl
}.
End Lists.

Definition M (A : Type) : Type := Lists.t -> outcome A * Lists.t.

Definition ret {A : Type} (a : A) : M A := fun st => (Ret a, st).

Definition bind {A B : Type} (m : M A) (f : A -> M B) : M B :=
  fun st =>
    match m st with
    | (Ret a, st') => f a st'
    | (Throw e, st') => (Throw e, st')
    | (NullDeref, st') => (NullDeref, st')
    end.

Notation "x <- m ;; k" := (bind m (fun x => k))
  (at level 61, m at next level, right associativity).
Notation "m ;; k" := (bind m (fun _ => k))
  (at level 61, right associativity).

Definition throw {A : Type} (e : exn) : M A := fun st => (Throw e, st).

(** [p->field] on a possibly null pointer. *)
Definition deref {A : Type} (p : option A) : M A :=
  fun st =>
    match p with
    | Some a => (Ret a, st)
    | None => (NullDeref, st)
    end.

(** [create.add(a)] *)
Definition create_add (a : Action) : M unit :=
  fun st => (Ret tt, Lists.mk (Lists.create st ++ [a]) (Lists.destroy st) (Lists.os st) (Lists.tap_io st)).

(** [destroy.add(a)] *)
Definition destroy_add (a : Action) : M unit :=
  fun st => (Ret tt, Lists.mk (Lists.create st) (Lists.destroy st ++ [a]) (Lists.os st) (Lists.tap_io st)).

(** [os << line << std::endl] *)
Definition os_line (line : string) : M unit :=
  fun st => (Ret tt, Lists.mk (Lists.create st) (Lists.destroy st) (Lists.os st ++ [line]) (Lists.tap_io st)).

Definition ioctl (c : TapIoctl) : M unit :=
  fun st => (Ret tt, Lists.mk (Lists.create st) (Lists.destroy st) (Lists.os st) (Lists.tap_io st ++ [c])).

Definition when (b : bool) (m : M unit) : M unit :=
  if b then m else ret tt.

(** A range-based [for] whose body may throw. *)
Fixpoint for_each {A : Type} (body : A -> M unit) (l : list A) : M unit :=
  match l with
  | [] => ret tt
  | x :: l' => body x ;; for_each body l'
  end.

(** A loop that carries local variables of type [S]. *)
Fixpoint for_each_with {A S : Type} (body : S -> A -> M S) (l : list A) (s : S) : M S :=
  match l with
  | [] => ret s
  | x :: l' => s' <- body s x ;; for_each_with body l' s'
  end.

(** ** [Setup::adapter_config] (Vista and higher)

    One definition per block of the function, in source order. *)

Import TunBuilderCapture.

(** special IPv6 next-hop recognized by TAP driver *)
Definition ipv6_next_hop : string := "fe80::8".

Definition block_ipv6_net : list string := ["2000::/4"; "3000::/4"; "fc00::/7"].

(** [dom[0] == '.'] on a non-empty string. *)
Definition begins_with_dot (dom : string) : bool :=
  match dom with
  | String c _ => Ascii.eqb c "."%char
  | EmptyString => false
  end.

(** The body of the loop over [pull.search_domains]: each DNS suffix must
    begin with a dot; empty domains are dropped. *)
Definition push_search_domain (dsfx : list string) (sd : SearchDomain.t) : list string :=
  let dom := SearchDomain.domain sd in
  if negb (empty dom) then
    let dom := if negb (begins_with_dot dom) then "." ^^ dom else dom in
    dsfx ++ [dom]
  else dsfx.

(** The domain suffix list handed to [NRPT::ActionCreate]. *)
Definition dns_suffix_list (redir_dns4 redir_dns6 : bool)
    (search_domains : list SearchDomain.t) : list string :=
  let dsfx :=
    if negb redir_dns4 && negb redir_dns6
    then fold_left push_search_domain search_domains []
    else [] in
  match dsfx with
  | [] => ["."]
  | _ :: _ => dsfx
  end.

Section AdapterConfig.

Variable env : Env.
Variable th : HANDLE.
Variable openvpn_app_path : string.
Variable tap : TapNameGuidPair.t.
Variable pull : TunBuilderCapture.t.

(** Windows interface index *)
Definition tap_index_name : string := index_or_name env tap.

(** set TAP media status to CONNECTED *)
Definition set_media_status : M unit :=
  ioctl (tap_set_media_status th true).

(** try to delete any stale routes on interface left over from previous session *)
Definition delete_stale_routes : M unit :=
  create_add (ActionDeleteAllRoutesOnInterface (TapNameGuidPair.index tap)).

(** Set IPv4 Interface *)
Definition set_ipv4_interface : M unit :=
  match vpn_ipv4 pull with
  | Some local4 =>
      let netmask := netmask_from_prefix_len env (RouteAddress.prefix_length local4) in
      let localaddr := RouteAddress.address local4 in
      (if RouteAddress.net30 local4
       then ioctl (tap_configure_topology_net30 th localaddr (RouteAddress.prefix_length local4))
       else ioctl (tap_configure_topology_subnet th localaddr (RouteAddress.prefix_length local4))) ;;
      create_add (WinCmd ("netsh interface ip set address " ^^ tap_index_name ^^ " static "
                          ^^ RouteAddress.address local4 ^^ " " ^^ netmask
                          ^^ " gateway=" ^^ RouteAddress.gateway local4 ^^ " store=active")) ;;
      destroy_add (WinCmd ("netsh interface ip delete address " ^^ tap_index_name ^^ " "
                           ^^ RouteAddress.address local4 ^^ " gateway=all store=active"))
  | None => ret tt
  end.

(** Should we block IPv6? *)
Definition block_ipv6_routes : M unit :=
  when (block_ipv6 pull)
    (for_each
       (fun net =>
          create_add (WinCmd ("netsh interface ipv6 add route " ^^ net ^^ " interface=1 store=active")) ;;
          destroy_add (WinCmd ("netsh interface ipv6 delete route " ^^ net ^^ " interface=1 store=active")))
       block_ipv6_net).

(** Set IPv6 Interface *)
Definition set_ipv6_interface : M unit :=
  match vpn_ipv6 pull with
  | Some local6 =>
      when (negb (block_ipv6 pull))
        (create_add (WinCmd ("netsh interface ipv6 set address " ^^ tap_index_name ^^ " "
                             ^^ RouteAddress.address local6 ^^ " store=active")) ;;
         destroy_add (WinCmd ("netsh interface ipv6 delete address " ^^ tap_index_name ^^ " "
                              ^^ RouteAddress.address local6 ^^ " store=active")) ;;
         create_add (WinCmd ("netsh interface ipv6 add route " ^^ RouteAddress.gateway local6 ^^ "/"
                             ^^ to_string (RouteAddress.prefix_length local6) ^^ " " ^^ tap_index_name
                             ^^ " " ^^ ipv6_next_hop ^^ " store=active")) ;;
         destroy_add (WinCmd ("netsh interface ipv6 delete route " ^^ RouteAddress.gateway local6 ^^ "/"
                              ^^ to_string (RouteAddress.prefix_length local6) ^^ " " ^^ tap_index_name
                              ^^ " " ^^ ipv6_next_hop ^^ " store=active")))
  | None => ret tt
  end.

(** Process Routes: the body of the loop over [pull.add_routes] *)
Definition add_route (route : Route.t) : M unit :=
  if Route.ipv6 route then
    when (negb (block_ipv6 pull))
      (create_add (WinCmd ("netsh interface ipv6 add route " ^^ Route.address route ^^ "/"
                           ^^ to_string (Route.prefix_length route) ^^ " " ^^ tap_index_name
                           ^^ " " ^^ ipv6_next_hop ^^ " store=active")) ;;
       destroy_add (WinCmd ("netsh interface ipv6 delete route " ^^ Route.address route ^^ "/"
                            ^^ to_string (Route.prefix_length route) ^^ " " ^^ tap_index_name
                            ^^ " " ^^ ipv6_next_hop ^^ " store=active")))
  else
    match vpn_ipv4 pull with
    | Some local4 =>
        create_add (WinCmd ("netsh interface ip add route " ^^ Route.address route ^^ "/"
                            ^^ to_string (Route.prefix_length route) ^^ " " ^^ tap_index_name
                            ^^ " " ^^ RouteAddress.gateway local4 ^^ " store=active")) ;;
        destroy_add (WinCmd ("netsh interface ip delete route " ^^ Route.address route ^^ "/"
                             ^^ to_string (Route.prefix_length route) ^^ " " ^^ tap_index_name
                             ^^ " " ^^ RouteAddress.gateway local4 ^^ " store=active"))
    | None => throw (tun_win_setup "IPv4 routes pushed without IPv4 ifconfig")
    end.

Definition process_routes : M unit :=
  for_each add_route (add_routes pull).

(** Process exclude routes: the body of the loop, [ipv6_error] is its local flag *)
Definition exclude_route (g : DefaultGateway.t) (ipv6_error : bool) (route : Route.t) : M bool :=
  if Route.ipv6 route then ret true
  else
    create_add (WinCmd ("netsh interface ip add route " ^^ Route.address route ^^ "/"
                        ^^ to_string (Route.prefix_length route) ^^ " "
                        ^^ to_string (DefaultGateway.interface_index g) ^^ " "
                        ^^ DefaultGateway.gateway_address g ^^ " store=active")) ;;
    destroy_add (WinCmd ("netsh interface ip delete route " ^^ Route.address route ^^ "/"
                         ^^ to_string (Route.prefix_length route) ^^ " "
                         ^^ to_string (DefaultGateway.interface_index g) ^^ " "
                         ^^ DefaultGateway.gateway_address g ^^ " store=active")) ;;
    ret ipv6_error.

Definition process_exclude_routes : M unit :=
  match exclude_routes pull with
  | [] => ret tt
  | _ :: _ =>
      match gw env with
      | Some g =>
          ipv6_error <- for_each_with (exclude_route g) (exclude_routes pull) false ;;
          when ipv6_error (os_line "NOTE: exclude IPv6 routes not currently supported")
      | None => os_line "NOTE: exclude routes error: cannot detect default gateway"
      end
  end.

(** Process IPv4 redirect-gateway *)
Definition redirect_gateway_ipv4 : M unit :=
  when (RerouteGW.ipv4 (reroute_gw pull))
    ((* add server bypass route *)
     match gw env with
     | Some g =>
         when (negb (RemoteAddress.ipv6 (remote_address pull)))
           (create_add (WinCmd ("netsh interface ip add route "
                                ^^ RemoteAddress.address (remote_address pull) ^^ "/32 "
                                ^^ to_string (DefaultGateway.interface_index g) ^^ " "
                                ^^ DefaultGateway.gateway_address g ^^ " store=active")) ;;
            destroy_add (WinCmd ("netsh interface ip delete route "
                                 ^^ RemoteAddress.address (remote_address pull) ^^ "/32 "
                                 ^^ to_string (DefaultGateway.interface_index g) ^^ " "
                                 ^^ DefaultGateway.gateway_address g ^^ " store=active")))
     | None => throw (tun_win_setup "redirect-gateway error: cannot detect default gateway")
     end ;;
     local4 <- deref (vpn_ipv4 pull) ;;
     create_add (WinCmd ("netsh interface ip add route 0.0.0.0/1 " ^^ tap_index_name ^^ " "
                         ^^ RouteAddress.gateway local4 ^^ " store=active")) ;;
     local4 <- deref (vpn_ipv4 pull) ;;
     create_add (WinCmd ("netsh interface ip add route 128.0.0.0/1 " ^^ tap_index_name ^^ " "
                         ^^ RouteAddress.gateway local4 ^^ " store=active")) ;;
     local4 <- deref (vpn_ipv4 pull) ;;
     destroy_add (WinCmd ("netsh interface ip delete route 0.0.0.0/1 " ^^ tap_index_name ^^ " "
                          ^^ RouteAddress.gateway local4 ^^ " store=active")) ;;
     local4 <- deref (vpn_ipv4 pull) ;;
     destroy_add (WinCmd ("netsh interface ip delete route 128.0.0.0/1 " ^^ tap_index_name ^^ " "
                          ^^ RouteAddress.gateway local4 ^^ " store=active"))).

(** Process IPv6 redirect-gateway *)
Definition redirect_gateway_ipv6 : M unit :=
  when (RerouteGW.ipv6 (reroute_gw pull) && negb (block_ipv6 pull))
    (create_add (WinCmd ("netsh interface ipv6 add route 0::/1 " ^^ tap_index_name ^^ " "
                         ^^ ipv6_next_hop ^^ " store=active")) ;;
     create_add (WinCmd ("netsh interface ipv6 add route 8000::/1 " ^^ tap_index_name ^^ " "
                         ^^ ipv6_next_hop ^^ " store=active")) ;;
     destroy_add (WinCmd ("netsh interface ipv6 delete route 0::/1 " ^^ tap_index_name ^^ " "
                          ^^ ipv6_next_hop ^^ " store=active")) ;;
     destroy_add (WinCmd ("netsh interface ipv6 delete route 8000::/1 " ^^ tap_index_name ^^ " "
                          ^^ ipv6_next_hop ^^ " store=active"))).

(** Process DNS Servers *)

(** fix for vista and dnsserver vs win7+ dnsservers *)
Definition vista_only : bool :=
  IsWindowsVistaOrGreater env && negb (IsWindows7OrGreater env).

Definition dns_servers_cmd : string :=
  if vista_only then "dnsserver" else "dnsservers".

Definition validate_cmd : string :=
  if vista_only then EmptyString else " validate=no".

(** normal production setting *)
Definition use_nrpt : bool := IsWindows8OrGreater env.
Definition add_netsh_rules : bool := true.

(** The body of the loop over [pull.dns_servers]; [indices] are the DNS
    server counters for IPv4 (first component) and IPv6 (second). *)
Definition dns_server (indices : Z * Z) (ds : DNSServer.t) : M (Z * Z) :=
  if DNSServer.ipv6 ds && block_ipv6 pull then ret indices
  else
    let proto : string := if DNSServer.ipv6 ds then "ipv6" else "ip" in
    let idx := if DNSServer.ipv6 ds then snd indices else fst indices in
    let indices' :=
      if DNSServer.ipv6 ds
      then (fst indices, snd indices + 1)
      else (fst indices + 1, snd indices) in
    when add_netsh_rules
      (if negb (idx =? 0) then
         create_add (WinCmd ("netsh interface " ^^ proto ^^ " add " ^^ dns_servers_cmd ^^ " "
                             ^^ tap_index_name ^^ " " ^^ DNSServer.address ds ^^ " "
                             ^^ to_string (idx + 1) ^^ validate_cmd))
       else
         create_add (WinCmd ("netsh interface " ^^ proto ^^ " set " ^^ dns_servers_cmd ^^ " "
                             ^^ tap_index_name ^^ " static " ^^ DNSServer.address ds
                             ^^ " register=primary" ^^ validate_cmd)) ;;
         destroy_add (WinCmd ("netsh interface " ^^ proto ^^ " delete " ^^ dns_servers_cmd ^^ " "
                              ^^ tap_index_name ^^ " all" ^^ validate_cmd))) ;;
    ret indices'.

(** If NRPT enabled and at least one IPv4 or IPv6 DNS server was added,
    add NRPT registry entries to route DNS through the tunnel. *)
Definition nrpt_rules (indices : Z * Z) : M unit :=
  when (use_nrpt && (negb (fst indices =? 0) || negb (snd indices =? 0)))
    (let redir_dns4 := RerouteGW.ipv4 (reroute_gw pull) && negb (fst indices =? 0) in
     let redir_dns6 := RerouteGW.ipv6 (reroute_gw pull) && negb (snd indices =? 0) in
     let dsfx := dns_suffix_list redir_dns4 redir_dns6 (search_domains pull) in
     let dserv := map DNSServer.address (dns_servers pull) in
     create_add (NRPT_ActionCreate dsfx dserv) ;;
     destroy_add NRPT_ActionDelete).

(** Use WFP for DNS leak protection: if we added DNS servers, block DNS on
    all interfaces except the TAP adapter.  (Both actions share the
    [WFPContext] member of the object, which is left out.) *)
Definition wfp_block (indices : Z * Z) : M unit :=
  when (IsWindows8OrGreater env && negb (empty openvpn_app_path)
        && (negb (fst indices =? 0) || negb (snd indices =? 0)))
    (create_add (ActionWFP openvpn_app_path (TapNameGuidPair.index tap) true) ;;
     destroy_add (ActionWFP openvpn_app_path (TapNameGuidPair.index tap) false)).

Definition process_dns_servers : M unit :=
  indices <- for_each_with dns_server (dns_servers pull) (0, 0) ;;
  nrpt_rules indices ;;
  wfp_block indices.

(** Process WINS Servers: the body of the loop, [i] is the loop index *)
Definition wins_server (i : Z) (ws : WINSServer.t) : M Z :=
  (if negb (i =? 0) then
     create_add (WinCmd ("netsh interface ip add winsservers " ^^ tap_index_name ^^ " "
                         ^^ WINSServer.address ws ^^ " " ^^ to_string (i + 1)))
   else
     create_add (WinCmd ("netsh interface ip set winsservers " ^^ tap_index_name ^^ " static "
                         ^^ WINSServer.address ws)) ;;
     destroy_add (WinCmd ("netsh interface ip delete winsservers " ^^ tap_index_name ^^ " all"))) ;;
  ret (i + 1).

Definition process_wins_servers : M unit :=
  _ <- for_each_with wins_server (wins_servers pull) 0 ;; ret tt.

(** flush DNS cache *)
Definition flush_dns : M unit :=
  create_add (WinCmd "ipconfig /flushdns") ;;
  destroy_add (WinCmd "ipconfig /flushdns").

Definition adapter_config : M unit :=
  set_media_status ;;
  delete_stale_routes ;;
  set_ipv4_interface ;;
  block_ipv6_routes ;;
  set_ipv6_interface ;;
  process_routes ;;
  process_exclude_routes ;;
  redirect_gateway_ipv4 ;;
  redirect_gateway_ipv6 ;;
  process_dns_servers ;;
  process_wins_servers ;;
  flush_dns.

End AdapterConfig.

(** ** [ActionList] ([openvpn/common/action.hpp])

    The state of the host is represented by the sequence of actions executed
    on it so far, failed attempts included.  The lines that an executed
    action reports on the stream it is handed are decided by the action
    classes and are not represented: nothing below says what a stream holds
    after actions have been executed. *)

Module ActionList.

Record t := mk {
  actions : list Action;
  enable_destroy_ : bool
}.

(** Modelled from the spec: [ActionList::execute], declared in
    [openvpn/common/action.hpp], which is not part of this file.  The design
    document says of it: executes actions strictly in insertion order; stops
    and returns the triggering error on first failure.  The result is the
    failing action, if any, and the host afterwards. *)
Fixpoint execute (ok : list Action -> Action -> bool) (l : list Action)
    (host : list Action) : option Action * list Action :=
  match l with
  | [] => (None, host)
  | a :: l' =>
      if ok host a then execute ok l' (host ++ [a])
      else (Some a, host ++ [a])
  end.

(** Modelled from the spec: the undo pass of [ActionList::destroy]:
    executes every action in the sequence's own order and continues past
    individual failures, collecting them.  The result is the list of
    failed actions and the host afterwards. *)
Fixpoint undo_all (ok : list Action -> Action -> bool) (l : list Action)
    (host : list Action) : list Action * list Action :=
  match l with
  | [] => ([], host)
  | a :: l' =>
      let '(failed, host') := undo_all ok l' (host ++ [a]) in
      (if ok host a then failed else a :: failed, host')
  end.

(** Modelled from the spec: [ActionList::destroy] only has effect if the
    sequence is armed; after execution the sequence is disarmed. *)
Definition destroy (ok : list Action -> Action -> bool) (al : t)
    (host : list Action) : t * list Action * list Action :=
  if enable_destroy_ al then
    let '(failed, host') := undo_all ok (actions al) host in
    (mk (actions al) false, failed, host')
  else (al, [], host).

(** Modelled from the spec: [ActionList::enable_destroy] arms the sequence. *)
Definition enable_destroy (state : bool) (al : t) : t :=
  mk (actions al) state.

End ActionList.

(** ** The world outside the [Setup] object: the host's executed actions, the
    caller's output stream, the device controls issued on TAP handles.

    Of the output stream, [out] holds the lines that [establish] writes
    itself and those of [adapter_config]; the reports of the actions that
    [execute] and [destroy] run are not represented. *)

Record World := mkWorld {
  executed : list Action;
  out : list string;
  tap_dev : list TapIoctl
}.

(** ** [class Setup] *)

Module Setup.

(** The data member [ActionList::Ptr remove_cmds]. *)
Record t := mk {
  remove_cmds : option ActionList.t
}.

(** A freshly constructed object. *)
Definition init : t := mk None.

(** [virtual void destroy(std::ostream& os)] *)
Definition destroy (env : Env) (self : t) (w : World) : t * World :=
  match remove_cmds self with
  | Some al =>
      let '(_, _, host') := ActionList.destroy (action_ok env) al (executed w) in
      (mk None, mkWorld host' (out w) (tap_dev w))
  | None => (self, w)
  end.

(** [virtual ~Setup()]: [destroy] on a stream of its own, which is dropped. *)
Definition dtor (env : Env) (self : t) (w : World) : World :=
  let '(_, w') := destroy env self (mkWorld (executed w) [] (tap_dev w)) in
  mkWorld (executed w') (out w) (tap_dev w').

(** [virtual HANDLE establish(pull, openvpn_app_path, stop, os)] *)
Definition establish (env : Env) (pull : TunBuilderCapture.t)
    (openvpn_app_path : string) (self : t) (w : World)
    : outcome HANDLE * t * World :=
  (* close out old remove cmds, if they exist *)
  let '(self1, w1) := destroy env self w in
  (* enumerate available TAP adapters *)
  let os1 := out w1 ++ ["TAP ADAPTERS:"; guids_to_string env] in
  (* open TAP device handle *)
  let tap := tap_open_tap env in
  let msg := "Open TAP device " ^^ dquote ^^ TapNameGuidPair.name tap ^^ dquote
             ^^ " PATH=" ^^ dquote ^^ tap_open_path env ^^ dquote in
  match tap_open_th env with
  | None =>
      (Throw (ErrorCode_TUN_IFACE_CREATE true "cannot acquire TAP handle"),
       self1,
       mkWorld (executed w1) (os1 ++ [msg ^^ " FAILED"]) (tap_dev w1))
  | Some th =>
      let os2 := os1 ++ [msg ^^ " SUCCEEDED"; version_to_string env] in
      (* create ActionLists for setting up and removing adapter properties;
         populate add/remove lists with actions *)
      let '(r, l) :=
        adapter_config env th openvpn_app_path tap pull
          (Lists.mk [] [] os2 (tap_dev w1)) in
      let remove := ActionList.mk (Lists.destroy l) false in
      match r with
      | Ret _ =>
          (* execute the add actions *)
          match ActionList.execute (action_ok env) (Lists.create l) (executed w1) with
          | (None, host') =>
              (* now that the add actions have succeeded, enable the remove actions *)
              (Ret th,
               mk (Some (ActionList.enable_destroy true remove)),
               mkWorld host' (Lists.os l) (Lists.tap_io l))
          | (Some a, host') =>
              (Throw (action_failure a),
               mk (Some remove),
               mkWorld host' (Lists.os l) (Lists.tap_io l))
          end
      | Throw e =>
          (Throw e, mk (Some remove), mkWorld (executed w1) (Lists.os l) (Lists.tap_io l))
      | NullDeref =>
          (NullDeref, mk (Some remove), mkWorld (executed w1) (Lists.os l) (Lists.tap_io l))
      end
  end.

End Setup.

(** ** What a computation queues on its own

    [adapter_config] only ever appends to the two action lists, the stream
    and the device.  [run m] is [m] started on empty lists; a computation is
    [framed] when started on any lists it yields the same outcome and appends
    what [run m] holds. *)

Definition lists_nil : Lists.t := Lists.mk [] [] [] [].

Definition lists_app (a b : Lists.t) : Lists.t :=
  Lists.mk (Lists.create a ++ Lists.create b)
           (Lists.destroy a ++ Lists.destroy b)
           (Lists.os a ++ Lists.os b)
           (Lists.tap_io a ++ Lists.tap_io b).

Infix "+++" := lists_app (at level 60, right associativity).

Definition run {A : Type} (m : M A) : outcome A * Lists.t := m lists_nil.

(** What a computation queues on its own. *)
Definition queued {A : Type} (m : M A) : Lists.t := snd (run m).

Definition framed {A : Type} (m : M A) : Prop :=
  forall st, m st = (fst (run m), st +++ snd (run m)).

(** The outcome of a block of statements [m1; m2]. *)
Definition seq_outcome (o1 o2 : outcome unit) : outcome unit :=
  match o1 with
  | Ret _ => o2
  | Throw e => Throw e
  | NullDeref => NullDeref
  end.

Definition is_ret {A : Type} (o : outcome A) : bool :=
  match o with
  | Ret _ => true
  | _ => false
  end.

(** ** Classification of the queued actions *)

(** A [netsh interface ipv6 ...] command: an IPv6 address, route or DNS
    server action. *)
Definition is_netsh_ipv6 (a : Action) : bool :=
  match a with
  | WinCmd cmd => prefix "netsh interface ipv6 " cmd
  | _ => false
  end.

(** The leak-protection filter actions. *)
Definition is_wfp (a : Action) : bool :=
  match a with
  | ActionWFP _ _ _ => true
  | _ => false
  end.



(** ** Counting DNS and WINS servers *)

(** A DNS server of the family [v6] that the loop over [pull.dns_servers]
    does not skip. *)
Definition dns_added_in (block v6 : bool) (ds : DNSServer.t) : bool :=
  Bool.eqb (DNSServer.ipv6 ds) v6 && negb (DNSServer.ipv6 ds && block).

Definition count_dns (block v6 : bool) (l : list DNSServer.t) : nat :=
  List.length (filter (dns_added_in block v6) l).

Definition dns_count (pull : TunBuilderCapture.t) (v6 : bool) : nat :=
  count_dns (block_ipv6 pull) v6 (dns_servers pull).

(** The DNS server counters after the loop over [pull.dns_servers]. *)
Definition dns_indices (pull : TunBuilderCapture.t) : Z * Z :=
  (Z.of_nat (dns_count pull false), Z.of_nat (dns_count pull true)).

(** One for the first server of a family, which is queued together with a
    destroy action, when the loop starts at the counter [idx]. *)
Definition primary (idx : Z) (count : nat) : Z :=
  if (idx =? 0) && negb (Nat.eqb count 0) then 1 else 0.

(** The NRPT rule. *)
Definition is_nrpt_create (a : Action) : bool :=
  match a with
  | NRPT_ActionCreate _ _ => true
  | _ => false
  end.

(** How many more actions the create list holds than the destroy list. *)
Definition surplus (q : Lists.t) : Z :=
  Z.of_nat (List.length (Lists.create q)) - Z.of_nat (List.length (Lists.destroy q)).

(** Nothing that satisfies [p] is queued. *)
Definition quiet (p : Action -> bool) (q : Lists.t) : Prop :=
  filter p (Lists.create q) = [] /\ filter p (Lists.destroy q) = [].

(** A framed computation that queues nothing that satisfies [p], whatever
    its outcome. *)
Definition well (p : Action -> bool) {A : Type} (m : M A) : Prop :=
  framed m /\ quiet p (queued m).

(** The servers that are added by index after the primary one of their
    family: they are queued without a destroy action of their own. *)
Definition secondary_dns (pull : TunBuilderCapture.t) : nat :=
  (Nat.pred (dns_count pull false) + Nat.pred (dns_count pull true))%nat.

Definition secondary_wins (pull : TunBuilderCapture.t) : nat :=
  Nat.pred (List.length (wins_servers pull)).

(** An IPv4 entry of [pull.add_routes]. *)
Definition has_ipv4_route (routes : list Route.t) : bool :=
  existsb (fun route => negb (Route.ipv6 route)) routes.

(** The conditions of the two [if]s that guard the NRPT and WFP blocks. *)
Definition dns_added (pull : TunBuilderCapture.t) : bool :=
  negb (Nat.eqb (dns_count pull false) 0) || negb (Nat.eqb (dns_count pull true) 0).

(** ** Outcomes of the two blocks of [adapter_config] that can fail *)

Definition missing_ifconfig : exn :=
  tun_win_setup "IPv4 routes pushed without IPv4 ifconfig".

Definition gateway_detection : exn :=
  tun_win_setup "redirect-gateway error: cannot detect default gateway".

(** The loop over [pull.add_routes] throws at the first IPv4 route when no
    IPv4 route configuration was pulled. *)
Definition routes_outcome (pull : TunBuilderCapture.t) : outcome unit :=
  match vpn_ipv4 pull with
  | Some _ => Ret tt
  | None => if has_ipv4_route (add_routes pull) then Throw missing_ifconfig else Ret tt
  end.

(** The IPv4 redirect-gateway block throws without a default gateway and
    otherwise reads the gateway of [local4]. *)
Definition redirect_outcome (env : Env) (pull : TunBuilderCapture.t) : outcome unit :=
  if RerouteGW.ipv4 (reroute_gw pull) then
    match gw env with
    | None => Throw gateway_detection
    | Some _ =>
        match vpn_ipv4 pull with
        | None => NullDeref
        | Some _ => Ret tt
        end
    end
  else Ret tt.

Section Queued.

Variable env : Env.
Variable th : HANDLE.
Variable openvpn_app_path : string.
Variable tap : TapNameGuidPair.t.
Variable pull : TunBuilderCapture.t.

(** Everything queued up to and including the loop over [pull.add_routes]. *)
Definition queued_to_routes : Lists.t :=
  queued (set_media_status th) +++ queued (delete_stale_routes tap)
  +++ queued (set_ipv4_interface env th tap pull)
  +++ queued (block_ipv6_routes pull)
  +++ queued (set_ipv6_interface env tap pull)
  +++ queued (process_routes env tap pull).

(** The exclude routes and the IPv4 redirect-gateway block. *)
Definition queued_redirect : Lists.t :=
  queued (process_exclude_routes env pull)
  +++ queued (redirect_gateway_ipv4 env tap pull).

(** Everything queued after the IPv4 redirect-gateway block. *)
Definition queued_rest : Lists.t :=
  queued (redirect_gateway_ipv6 env tap pull)
  +++ queued (process_dns_servers env openvpn_app_path tap pull)
  +++ queued (process_wins_servers env tap pull)
  +++ queued flush_dns.

End Queued.

(** ** The actions of the IPv4 redirect-gateway block *)

Section RedirectActions.

Variable env : Env.
Variable tap : TapNameGuidPair.t.
Variable pull : TunBuilderCapture.t.

(** The server bypass route and its deletion. *)
Definition bypass_route (g : DefaultGateway.t) (add_or_delete : string) : Action :=
  WinCmd ("netsh interface ip " ^^ add_or_delete ^^ " route "
          ^^ RemoteAddress.address (remote_address pull) ^^ "/32 "
          ^^ to_string (DefaultGateway.interface_index g) ^^ " "
          ^^ DefaultGateway.gateway_address g ^^ " store=active").

(** One half of the IPv4 space routed through the tunnel, and its deletion. *)
Definition split_route (local4 : RouteAddress.t) (add_or_delete half : string) : Action :=
  WinCmd ("netsh interface ip " ^^ add_or_delete ^^ " route " ^^ half ^^ "/1 "
          ^^ index_or_name env tap ^^ " " ^^ RouteAddress.gateway local4
          ^^ " store=active").

End RedirectActions.

(** ** Concrete inputs used to exercise the statements below *)

(** The standard netmask table at the prefix lengths used below. *)
Definition example_netmask (prefix_len : Z) : string :=
  if prefix_len =? 24 then "255.255.255.0"
  else if prefix_len =? 30 then "255.255.255.252"
  else if prefix_len =? 0 then "0.0.0.0"
  else "255.255.255.255".

Definition example_tap : TapNameGuidPair.t :=
  TapNameGuidPair.mk "Ethernet 2" "{4D36E972-E325-11CE-BFC1-08002BE10318}" 12.

Definition example_gw : DefaultGateway.t :=
  DefaultGateway.mk 5 "192.168.1.1".

(** A Windows 8 host with a default gateway, a TAP adapter that opens, and
    on which every action succeeds. *)
Definition example_env : Env :=
  mkEnv (Some example_gw) true true true example_netmask
        (fun tap => to_string (TapNameGuidPair.index tap))
        (Some 7) "\\.\Global\tap.tap" example_tap
        "Ethernet 2" "TAP-Windows Driver Version 9.21"
        (fun _ _ => true).

(** The same host without a detectable default gateway. *)
Definition example_env_no_gw : Env :=
  mkEnv None true true true example_netmask
        (fun tap => to_string (TapNameGuidPair.index tap))
        (Some 7) "\\.\Global\tap.tap" example_tap
        "Ethernet 2" "TAP-Windows Driver Version 9.21"
        (fun _ _ => true).

Definition example_remote : RemoteAddress.t := RemoteAddress.mk "203.0.113.10" false.

Definition example_remote6 : RemoteAddress.t := RemoteAddress.mk "2001:db8::10" true.

Definition example_local4 : RouteAddress.t :=
  RouteAddress.mk "10.8.0.2" 24 "10.8.0.1" false.

(** The pulled configuration of the end-to-end scenario: an IPv4 route
    configuration and one route to add, nothing else. *)
Definition pull_end_to_end (remote : RemoteAddress.t) : TunBuilderCapture.t :=
  TunBuilderCapture.mk (Some example_local4) None false
    [Route.mk "192.168.50.0" 24 false] []
    (RerouteGW.mk false false) remote [] [] [].

(** An IPv4 route pushed without any IPv4 route configuration. *)
Definition pull_route_no_ifconfig : TunBuilderCapture.t :=
  TunBuilderCapture.mk None None false
    [Route.mk "192.168.50.0" 24 false] []
    (RerouteGW.mk false false) example_remote [] [] [].

(** IPv4 redirect-gateway with an IPv4 route configuration. *)
Definition pull_redirect (remote : RemoteAddress.t) : TunBuilderCapture.t :=
  TunBuilderCapture.mk (Some example_local4) None false [] []
    (RerouteGW.mk true false) remote [] [] [].

(** IPv4 redirect-gateway without an IPv4 route configuration. *)
Definition pull_redirect_no_ifconfig : TunBuilderCapture.t :=
  TunBuilderCapture.mk None None false [] []
    (RerouteGW.mk true false) example_remote [] [] [].

(** The host of [example_env] on which adding the route 192.168.50.0/24
    fails. *)
Definition route_add_fails (host : list Action) (a : Action) : bool :=
  match a with
  | WinCmd cmd =>
      negb (String.eqb cmd "netsh interface ip add route 192.168.50.0/24 12 10.8.0.1 store=active")
  | _ => true
  end.

Definition example_env_failing : Env :=
  mkEnv (Some example_gw) true true true example_netmask
        (fun tap => to_string (TapNameGuidPair.index tap))
        (Some 7) "\\.\Global\tap.tap" example_tap
        "Ethernet 2" "TAP-Windows Driver Version 9.21"
        route_add_fails.

(** An armed remove list left by a previous session. *)
Definition example_armed : Setup.t :=
  Setup.mk (Some (ActionList.mk
                    [ WinCmd "netsh interface ip delete address 12 10.8.0.2 gateway=all store=active";
                      WinCmd "ipconfig /flushdns" ]
                    true)).

(** ** The suffix list in the words of the design document *)

(** A suffix normalized to begin with a dot. *)
Definition normalize_suffix (dom : string) : string :=
  if begins_with_dot dom then dom else "." ^^ dom.

(** The non-empty search domains, each normalized. *)
Definition normalized_search_domains (search_domains : list SearchDomain.t) : list string :=
  map normalize_suffix
      (filter (fun dom => negb (empty dom)) (map SearchDomain.domain search_domains)).

(** IPv4 redirect-gateway, IPv6 DNS servers only, one search domain. *)
Definition pull_redirect_dns6 : TunBuilderCapture.t :=
  TunBuilderCapture.mk (Some example_local4) None false [] []
    (RerouteGW.mk true false) example_remote
    [DNSServer.mk "2001:db8::53" true]
    [SearchDomain.mk "example.com"] [].

(** One IPv4 DNS server. *)
Definition pull_dns4 : TunBuilderCapture.t :=
  TunBuilderCapture.mk (Some example_local4) None false [] []
    (RerouteGW.mk false false) example_remote
    [DNSServer.mk "10.8.0.53" false] [] [].

(** Two WINS servers. *)
Definition pull_wins2 : TunBuilderCapture.t :=
  TunBuilderCapture.mk (Some example_local4) None false [] []
    (RerouteGW.mk false false) example_remote
    [] [] [WINSServer.mk "10.8.0.60"; WINSServer.mk "10.8.0.61"].

(** IPv6 blocked although an IPv6 route configuration, an IPv6 route, IPv6
    redirect-gateway and an IPv6 DNS server were pulled. *)
Definition pull_blocked : TunBuilderCapture.t :=
  TunBuilderCapture.mk (Some example_local4)
    (Some (RouteAddress.mk "fd00::2" 64 "fd00::1" false)) true
    [Route.mk "2001:db8:1::" 48 true; Route.mk "192.168.50.0" 24 false] []
    (RerouteGW.mk false true) example_remote
    [DNSServer.mk "2001:db8::53" true; DNSServer.mk "10.8.0.53" false] [] [].

(** Two DNS servers of each family and three WINS servers. *)
Definition pull_many_servers : TunBuilderCapture.t :=
  TunBuilderCapture.mk (Some example_local4) None false [] []
    (RerouteGW.mk false false) example_remote
    [DNSServer.mk "10.8.0.53" false; DNSServer.mk "2001:db8::53" true;
     DNSServer.mk "10.8.0.54" false; DNSServer.mk "2001:db8::54" true] []
    [WINSServer.mk "10.8.0.60"; WINSServer.mk "10.8.0.61"; WINSServer.mk "10.8.0.62"].

(** The configuration [pull_blocked] without [block_ipv6]. *)
Definition pull_not_blocked : TunBuilderCapture.t :=
  TunBuilderCapture.mk (Some example_local4)
    (Some (RouteAddress.mk "fd00::2" 64 "fd00::1" false)) false
    [Route.mk "2001:db8:1::" 48 true; Route.mk "192.168.50.0" 24 false] []
    (RerouteGW.mk false true) example_remote
    [DNSServer.mk "2001:db8::53" true; DNSServer.mk "10.8.0.53" false] [] [].

(** ** Auxiliary notions for the blocks of [adapter_config] *)

(** The route that keeps an excluded network on the default gateway, and its
    deletion. *)
Definition exclude_cmd (g : DefaultGateway.t) (add_or_delete : string)
    (route : Route.t) : Action :=
  WinCmd ("netsh interface ip " ^^ add_or_delete ^^ " route " ^^ Route.address route ^^ "/"
          ^^ to_string (Route.prefix_length route) ^^ " "
          ^^ to_string (DefaultGateway.interface_index g) ^^ " "
          ^^ DefaultGateway.gateway_address g ^^ " store=active").

(** The deletion of the NRPT rule. *)
Definition is_nrpt_delete (a : Action) : bool :=
  match a with
  | NRPT_ActionDelete => true
  | _ => false
  end.

(** A framed computation that leaves one component of the lists alone. *)
Definition mute {X A : Type} (proj : Lists.t -> list X) (m : M A) : Prop :=
  framed m /\ proj (queued m) = [].

(** The device control that sets the topology of the adapter. *)
Definition topology_ioctl (th : HANDLE) (local4 : RouteAddress.t) : TapIoctl :=
  if RouteAddress.net30 local4
  then tap_configure_topology_net30 th (RouteAddress.address local4)
         (RouteAddress.prefix_length local4)
  else tap_configure_topology_subnet th (RouteAddress.address local4)
         (RouteAddress.prefix_length local4).

(** The notes that the exclude-routes block writes to the stream. *)
Definition exclude_notes (env : Env) (pull : TunBuilderCapture.t) : list string :=
  match exclude_routes pull with
  | [] => []
  | _ :: _ =>
      match gw env with
      | Some _ =>
          if existsb Route.ipv6 (exclude_routes pull)
          then ["NOTE: exclude IPv6 routes not currently supported"]
          else []
      | None => ["NOTE: exclude routes error: cannot detect default gateway"]
      end
  end.

(** ** The lines that [establish] writes before it configures the adapter *)

Definition open_tap_msg (env : Env) : string :=
  "Open TAP device " ^^ dquote ^^ TapNameGuidPair.name (tap_open_tap env) ^^ dquote
  ^^ " PATH=" ^^ dquote ^^ tap_open_path env ^^ dquote.

(** A host without any TAP adapter that can be opened. *)
Definition example_env_no_tap : Env :=
  mkEnv (Some example_gw) true true true example_netmask
        (fun tap => to_string (TapNameGuidPair.index tap))
        None EmptyString (TapNameGuidPair.mk EmptyString EmptyString (-1))
        EmptyString EmptyString
        (fun _ _ => true).

(** ** [Setup::adapter_config] (pre-Vista)

    The variant of [adapter_config] that is compiled for hosts older than
    Vista.  It brings the adapter up through DHCP before it queues routes;
    IPv6 is not supported. *)

Module Legacy.

(** What the function reads from the adapters of the host:
    [IPAdaptersInfo::is_dhcp_enabled] for the TAP adapter, whether executing
    [Util::ActionEnableDHCP] succeeds, and [IPAdaptersInfo::is_up] for the TAP
    adapter and the VPN address at the [i]-th iteration of the wait loop. *)
Record Host := mkHost {
  is_dhcp_enabled : bool;
  enable_dhcp_ok : bool;
  is_up : Z -> bool
}.

(** What the function does to the host directly, in order. *)
Inductive Event : Type :=
| exec_enable_dhcp (tap : TapNameGuidPair.t)
| tap_ioctl (c : TapIoctl)
| dhcp_masquerade_ioctl (th : HANDLE)
| flush_arp (index : Z)
| dhcp_release (index : Z)
| dhcp_renew (index : Z)
| poll_adapter (i : Z)
| Sleep (ms : Z).

(** The function returns or throws as [outcome] says, or the list that holds
    [ActionEnableDHCP] fails to execute. *)
Inductive result : Type :=
| Done (o : outcome unit)
| EnableDHCPFailed.

(** Wait for TAP adapter to come up: the loop [for (int i = 1; i <= 30; ++i)],
    with [attempts] iterations left at [i].  The result is [succeed], the
    lines written and the events. *)
Fixpoint wait_for_dhcp (host : Host) (attempts : nat) (i : Z)
    : bool * list string * list Event :=
  match attempts with
  | O => (false, [], [])
  | S attempts' =>
      let line := "[" ^^ to_string i
                  ^^ "] waiting for TAP adapter to receive DHCP settings..." in
      if is_up host i then (true, [line], [poll_adapter i])
      else
        let '(succeed, lines, events) := wait_for_dhcp host attempts' (i + 1) in
        (succeed, line :: lines, poll_adapter i :: Sleep 1000 :: events)
  end.

Section Routes.

Variable env : Env.
Variable pull : TunBuilderCapture.t.

(** Process routes: the body of the loop over [pull.add_routes] *)
Definition add_route (route : Route.t) : M unit :=
  if negb (Route.ipv6 route) then
    match vpn_ipv4 pull with
    | Some local4 =>
        let netmask := netmask_from_prefix_len env (Route.prefix_length route) in
        create_add (WinCmd ("route ADD " ^^ Route.address route ^^ " MASK " ^^ netmask
                            ^^ " " ^^ RouteAddress.gateway local4)) ;;
        destroy_add (WinCmd ("route DELETE " ^^ Route.address route ^^ " MASK " ^^ netmask
                             ^^ " " ^^ RouteAddress.gateway local4))
    | None => throw (tun_win_setup "IPv4 routes pushed without IPv4 ifconfig")
    end
  else ret tt.

Definition process_routes : M unit :=
  for_each add_route (add_routes pull).

(** Process exclude routes: the body of the loop *)
Definition exclude_route (g : DefaultGateway.t) (route : Route.t) : M unit :=
  if negb (Route.ipv6 route) then
    let netmask := netmask_from_prefix_len env (Route.prefix_length route) in
    create_add (WinCmd ("route ADD " ^^ Route.address route ^^ " MASK " ^^ netmask
                        ^^ " " ^^ DefaultGateway.gateway_address g)) ;;
    destroy_add (WinCmd ("route DELETE " ^^ Route.address route ^^ " MASK " ^^ netmask
                         ^^ " " ^^ DefaultGateway.gateway_address g))
  else ret tt.

Definition process_exclude_routes : M unit :=
  match exclude_routes pull with
  | [] => ret tt
  | _ :: _ =>
      match gw env with
      | Some g => for_each (exclude_route g) (exclude_routes pull)
      | None => os_line "NOTE: exclude routes error: cannot detect default gateway"
      end
  end.

(** Process IPv4 redirect-gateway *)
Definition redirect_gateway_ipv4 : M unit :=
  when (RerouteGW.ipv4 (reroute_gw pull))
    ((* add server bypass route *)
     match gw env with
     | Some g =>
         when (negb (RemoteAddress.ipv6 (remote_address pull)))
           (create_add (WinCmd ("route ADD " ^^ RemoteAddress.address (remote_address pull)
                                ^^ " MASK 255.255.255.255 "
                                ^^ DefaultGateway.gateway_address g)) ;;
            destroy_add (WinCmd ("route DELETE " ^^ RemoteAddress.address (remote_address pull)
                                 ^^ " MASK 255.255.255.255 "
                                 ^^ DefaultGateway.gateway_address g)))
     | None => throw (tun_win_setup "redirect-gateway error: cannot detect default gateway")
     end ;;
     local4 <- deref (vpn_ipv4 pull) ;;
     create_add (WinCmd ("route ADD 0.0.0.0 MASK 128.0.0.0 " ^^ RouteAddress.gateway local4)) ;;
     local4 <- deref (vpn_ipv4 pull) ;;
     create_add (WinCmd ("route ADD 128.0.0.0 MASK 128.0.0.0 " ^^ RouteAddress.gateway local4)) ;;
     local4 <- deref (vpn_ipv4 pull) ;;
     destroy_add (WinCmd ("route DELETE 0.0.0.0 MASK 128.0.0.0 " ^^ RouteAddress.gateway local4)) ;;
     local4 <- deref (vpn_ipv4 pull) ;;
     destroy_add (WinCmd ("route DELETE 128.0.0.0 MASK 128.0.0.0 " ^^ RouteAddress.gateway local4))).

(** flush DNS cache *)
Definition flush_dns : M unit :=
  create_add (WinCmd "ipconfig /flushdns") ;;
  destroy_add (WinCmd "ipconfig /flushdns").

(** The statements after the settle delay. *)
Definition queue_routes : M unit :=
  process_routes ;;
  process_exclude_routes ;;
  redirect_gateway_ipv4 ;;
  flush_dns.

End Routes.

(** [os << line << std::endl] for several lines. *)
Definition write_lines (lines : list string) (st : Lists.t) : Lists.t :=
  Lists.mk (Lists.create st) (Lists.destroy st) (Lists.os st ++ lines) (Lists.tap_io st).

(** The stream component of the result holds the lines that the function
    writes itself; what the helpers that are handed the stream
    ([ActionList::execute], [flush_arp], [dhcp_release], [dhcp_renew])
    report on it is not represented. *)
Definition adapter_config (env : Env) (host : Host) (th : HANDLE)
    (tap : TapNameGuidPair.t) (pull : TunBuilderCapture.t) (st : Lists.t)
    : result * Lists.t * list Event :=
  (* Make sure the TAP adapter is set for DHCP *)
  let os_dhcp :=
    if is_dhcp_enabled host then []
    else ["TAP: DHCP is disabled, attempting to enable"] in
  let enable_dhcp :=
    if is_dhcp_enabled host then [] else [exec_enable_dhcp tap] in
  if negb (is_dhcp_enabled host) && negb (enable_dhcp_ok host) then
    (EnableDHCPFailed, write_lines os_dhcp st, enable_dhcp)
  else
    (* Set IPv4 Interface: process ifconfig and topology *)
    let topology :=
      match vpn_ipv4 pull with
      | Some local4 =>
          [tap_ioctl
             (if RouteAddress.net30 local4
              then tap_configure_topology_net30 th (RouteAddress.address local4)
                     (RouteAddress.prefix_length local4)
              else tap_configure_topology_subnet th (RouteAddress.address local4)
                     (RouteAddress.prefix_length local4))]
      | None => []
      end in
    (* DHCP masquerade; media status CONNECTED; ARP; DHCP release/renew *)
    let bring_up :=
      [dhcp_masquerade_ioctl th;
       tap_ioctl (tap_set_media_status th true);
       flush_arp (TapNameGuidPair.index tap);
       dhcp_release (TapNameGuidPair.index tap);
       dhcp_renew (TapNameGuidPair.index tap)] in
    (* Wait for TAP adapter to come up *)
    let '(succeed, os_wait, wait) := wait_for_dhcp host 30 1 in
    let os_up := os_dhcp ++ ["TAP: configure DHCP masquerade"] ++ os_wait in
    let events := enable_dhcp ++ topology ++ bring_up ++ wait in
    if negb succeed then
      (Done (Throw (tun_win_setup "TAP adapter DHCP handshake failed")),
       write_lines os_up st, events)
    else
      (* Process routes *)
      let '(o, st') :=
        queue_routes env pull
          (write_lines (os_up ++ ["Sleeping 5 seconds prior to adding routes..."]) st) in
      (Done o, st', events ++ [Sleep 5000]).

End Legacy.

(** ** Auxiliary notions for the pre-Vista variant *)

(** The line written at the beginning of an iteration of the wait loop. *)
Definition wait_line (i : Z) : string :=
  "[" ^^ to_string i ^^ "] waiting for TAP adapter to receive DHCP settings...".

(** An iteration of the wait loop that finds the adapter down. *)
Definition wait_down (i : Z) : list Legacy.Event :=
  [Legacy.poll_adapter i; Legacy.Sleep 1000].

Definition handshake_failed : exn :=
  tun_win_setup "TAP adapter DHCP handshake failed".

(** The iterations [first], [first + 1], ... of the wait loop. *)
Definition iterations (first : Z) (count : nat) : list Z :=
  map (fun k => first + Z.of_nat k) (seq 0 count).

Definition is_wait_event (e : Legacy.Event) : bool :=
  match e with
  | Legacy.poll_adapter _ => true
  | Legacy.Sleep _ => true
  | _ => false
  end.

(** The two lists hold [route ADD] and [route DELETE] commands with the same
    arguments in the same order. *)
Definition mirrored (q : Lists.t) : Prop :=
  exists args,
    Lists.create q = map (fun arg => WinCmd ("route ADD " ^^ arg)) args
    /\ Lists.destroy q = map (fun arg => WinCmd ("route DELETE " ^^ arg)) args.

(** A framed computation that keeps the two lists mirrored. *)
Definition mirroring {A : Type} (m : M A) : Prop :=
  framed m /\ mirrored (queued m).

(** A pre-Vista host with DHCP enabled whose adapter never comes up, and one
    whose adapter is up at the third look. *)
Definition example_host_down : Legacy.Host :=
  Legacy.mkHost true true (fun _ => false).

Definition example_host_up3 : Legacy.Host :=
  Legacy.mkHost false true (fun i => 3 <=? i).

(** ** The commands of the loops over [pull.add_routes] *)

(** Pre-Vista: the route command of an IPv4 entry. *)
Definition legacy_route_cmd (env : Env) (local4 : RouteAddress.t)
    (add_or_delete : string) (route : Route.t) : Action :=
  WinCmd ("route " ^^ add_or_delete ^^ " " ^^ Route.address route ^^ " MASK "
          ^^ netmask_from_prefix_len env (Route.prefix_length route)
          ^^ " " ^^ RouteAddress.gateway local4).

(** Vista and higher: the command of an entry, by family. *)
Definition route_cmd (env : Env) (tap : TapNameGuidPair.t) (local4 : RouteAddress.t)
    (add_or_delete : string) (route : Route.t) : Action :=
  if Route.ipv6 route then
    WinCmd ("netsh interface ipv6 " ^^ add_or_delete ^^ " route " ^^ Route.address route
            ^^ "/" ^^ to_string (Route.prefix_length route) ^^ " "
            ^^ index_or_name env tap ^^ " " ^^ ipv6_next_hop ^^ " store=active")
  else
    WinCmd ("netsh interface ip " ^^ add_or_delete ^^ " route " ^^ Route.address route
            ^^ "/" ^^ to_string (Route.prefix_length route) ^^ " "
            ^^ index_or_name env tap ^^ " " ^^ RouteAddress.gateway local4
            ^^ " store=active").

(** The entries that the loop of Vista and higher does not skip. *)
Definition route_kept (pull : TunBuilderCapture.t) (route : Route.t) : bool :=
  negb (Route.ipv6 route && block_ipv6 pull).

(** ** Create actions and the destroy actions that reverse them

    The pairs that [adapter_config] queues with [create.add] and
    [destroy.add], read off its blocks, and the create actions that it queues
    without a destroy action. *)

Definition dns_proto (v6 : bool) : string := if v6 then "ipv6" else "ip".

Definition dns_cmd_name (vista : bool) : string :=
  if vista then "dnsserver" else "dnsservers".

Definition dns_validate (vista : bool) : string :=
  if vista then EmptyString else " validate=no".

(** [reverses d c]: the destroy action [d] reverses the create action [c]. *)
Inductive reverses : Action -> Action -> Prop :=
| reverses_address4 (tap addr mask gw : string) :
    reverses
      (WinCmd ("netsh interface ip delete address " ^^ tap ^^ " " ^^ addr
               ^^ " gateway=all store=active"))
      (WinCmd ("netsh interface ip set address " ^^ tap ^^ " static " ^^ addr ^^ " "
               ^^ mask ^^ " gateway=" ^^ gw ^^ " store=active"))
| reverses_address6 (rest : string) :
    reverses (WinCmd ("netsh interface ipv6 delete address " ^^ rest))
             (WinCmd ("netsh interface ipv6 set address " ^^ rest))
| reverses_route4 (rest : string) :
    reverses (WinCmd ("netsh interface ip delete route " ^^ rest))
             (WinCmd ("netsh interface ip add route " ^^ rest))
| reverses_route6 (rest : string) :
    reverses (WinCmd ("netsh interface ipv6 delete route " ^^ rest))
             (WinCmd ("netsh interface ipv6 add route " ^^ rest))
| reverses_dns (v6 vista : bool) (tap addr : string) :
    reverses
      (WinCmd ("netsh interface " ^^ dns_proto v6 ^^ " delete " ^^ dns_cmd_name vista
               ^^ " " ^^ tap ^^ " all" ^^ dns_validate vista))
      (WinCmd ("netsh interface " ^^ dns_proto v6 ^^ " set " ^^ dns_cmd_name vista
               ^^ " " ^^ tap ^^ " static " ^^ addr ^^ " register=primary"
               ^^ dns_validate vista))
| reverses_nrpt (dsfx dserv : list string) :
    reverses NRPT_ActionDelete (NRPT_ActionCreate dsfx dserv)
| reverses_wfp (openvpn_app_path : string) (iface_index : Z) :
    reverses (ActionWFP openvpn_app_path iface_index false)
             (ActionWFP openvpn_app_path iface_index true)
| reverses_wins (tap addr : string) :
    reverses (WinCmd ("netsh interface ip delete winsservers " ^^ tap ^^ " all"))
             (WinCmd ("netsh interface ip set winsservers " ^^ tap ^^ " static " ^^ addr))
| reverses_flush :
    reverses (WinCmd "ipconfig /flushdns") (WinCmd "ipconfig /flushdns").

(** The create actions that are queued without a destroy action: the cleanup
    of stale routes, and the DNS and WINS servers that are added by index
    after the first one. *)
Inductive unreversed : Action -> Prop :=
| unreversed_cleanup (iface_index : Z) :
    unreversed (ActionDeleteAllRoutesOnInterface iface_index)
| unreversed_dns (v6 vista : bool) (tap addr : string) (idx : Z) :
    unreversed
      (WinCmd ("netsh interface " ^^ dns_proto v6 ^^ " add " ^^ dns_cmd_name vista
               ^^ " " ^^ tap ^^ " " ^^ addr ^^ " " ^^ to_string (idx + 1)
               ^^ dns_validate vista))
| unreversed_wins (tap addr : string) (i : Z) :
    unreversed
      (WinCmd ("netsh interface ip add winsservers " ^^ tap ^^ " " ^^ addr ^^ " "
               ^^ to_string (i + 1))).

(** [paired_lists create destroy]: the destroy list holds, in the order of
    the create list, exactly one action for each create action that is
    reversed, and nothing else. *)
Inductive paired_lists : list Action -> list Action -> Prop :=
| paired_nil : paired_lists [] []
| paired_both (c d : Action) (cs ds : list Action) :
    reverses d c -> paired_lists cs ds -> paired_lists (c :: cs) (d :: ds)
| paired_single (c : Action) (cs ds : list Action) :
    unreversed c -> paired_lists cs ds -> paired_lists (c :: cs) ds.

Definition paired (q : Lists.t) : Prop :=
  paired_lists (Lists.create q) (Lists.destroy q).

(** A framed computation whose create and destroy actions are paired,
    whatever its outcome. *)
Definition pairing {A : Type} (m : M A) : Prop :=
  framed m /\ paired (queued m).

(** * Properties *)

(** ** The frame property *)

Lemma lists_app_nil_l (d : Lists.t) : lists_nil +++ d = d.
Proof. destruct d; reflexivity. Qed.

Lemma lists_app_nil_r (d : Lists.t) : d +++ lists_nil = d.
Proof. destruct d; unfold lists_app; simpl; now rewrite !app_nil_r. Qed.

Lemma lists_app_assoc (a b c : Lists.t) : (a +++ b) +++ c = a +++ (b +++ c).
Proof. unfold lists_app; simpl; now rewrite <- !app_assoc. Qed.

Lemma framed_ret {A : Type} (a : A) : framed (ret a).
Proof. intros st; unfold run, ret; simpl; now rewrite lists_app_nil_r. Qed.

Lemma framed_throw {A : Type} (e : exn) : framed (@throw A e).
Proof. intros st; unfold run, throw; simpl; now rewrite lists_app_nil_r. Qed.

Lemma framed_deref {A : Type} (p : option A) : framed (deref p).
Proof. intros st; unfold run, deref; destruct p; simpl; now rewrite lists_app_nil_r. Qed.

Lemma framed_create_add (a : Action) : framed (create_add a).
Proof. intros st; unfold run, create_add, lists_app; simpl; now rewrite !app_nil_r. Qed.

Lemma framed_destroy_add (a : Action) : framed (destroy_add a).
Proof. intros st; unfold run, destroy_add, lists_app; simpl; now rewrite !app_nil_r. Qed.

Lemma framed_os_line (line : string) : framed (os_line line).
Proof. intros st; unfold run, os_line, lists_app; simpl; now rewrite !app_nil_r. Qed.

Lemma framed_ioctl (c : TapIoctl) : framed (ioctl c).
Proof. intros st; unfold run, ioctl, lists_app; simpl; now rewrite !app_nil_r. Qed.

(** What [m; f] queues, in terms of what [m] and [f] queue. *)
Lemma run_bind {A B : Type} (m : M A) (f : A -> M B) :
  framed m -> (forall a, framed (f a)) ->
  run (bind m f) =
    match fst (run m) with
    | Ret a => (fst (run (f a)), snd (run m) +++ snd (run (f a)))
    | Throw e => (Throw e, snd (run m))
    | NullDeref => (NullDeref, snd (run m))
    end.
Proof.
  intros Hm Hf. unfold run at 1. unfold bind. fold (run m).
  destruct (run m) as [[a | e |] d]; simpl; auto.
  apply Hf.
Qed.

Lemma framed_bind {A B : Type} (m : M A) (f : A -> M B) :
  framed m -> (forall a, framed (f a)) -> framed (bind m f).
Proof.
  intros Hm Hf st. rewrite (run_bind m f Hm Hf).
  unfold bind. rewrite (Hm st).
  destruct (fst (run m)) as [a | e |]; simpl; auto.
  rewrite (Hf a). now rewrite lists_app_assoc.
Qed.

Lemma framed_when (b : bool) (m : M unit) : framed m -> framed (when b m).
Proof. destruct b; simpl; auto using framed_ret. Qed.

Lemma framed_for_each {A : Type} (body : A -> M unit) (l : list A) :
  (forall x, framed (body x)) -> framed (for_each body l).
Proof.
  intros Hb. induction l as [| x l IH]; simpl.
  - apply framed_ret.
  - apply framed_bind; auto.
Qed.

Lemma framed_for_each_with {A S : Type} (body : S -> A -> M S) (l : list A) (s : S) :
  (forall s x, framed (body s x)) -> framed (for_each_with body l s).
Proof.
  intros Hb. revert s. induction l as [| x l IH]; intros s; simpl.
  - apply framed_ret.
  - apply framed_bind; auto.
Qed.

Create HintDb framed.

#[local] Hint Resolve framed_ret framed_throw framed_deref framed_create_add
  framed_destroy_add framed_os_line framed_ioctl framed_bind framed_when
  framed_for_each framed_for_each_with : framed.

(** Splits a [framed] goal along the structure of the program. *)
Ltac framed_tac :=
  repeat
    (intros;
     match goal with
     | |- framed (if ?b then _ else _) => destruct b
     | |- framed (match ?x with _ => _ end) => destruct x
     | |- framed _ => first
         [ apply framed_ret | apply framed_throw | apply framed_deref
         | apply framed_create_add | apply framed_destroy_add
         | apply framed_os_line | apply framed_ioctl
         | apply framed_bind | apply framed_when
         | apply framed_for_each | apply framed_for_each_with ]
     end).

Section FramedBlocks.

Variable env : Env.
Variable th : HANDLE.
Variable openvpn_app_path : string.
Variable tap : TapNameGuidPair.t.
Variable pull : TunBuilderCapture.t.

Lemma framed_set_media_status : framed (set_media_status th).
Proof. unfold set_media_status. framed_tac. Qed.

Lemma framed_delete_stale_routes : framed (delete_stale_routes tap).
Proof. unfold delete_stale_routes. framed_tac. Qed.

Lemma framed_set_ipv4_interface : framed (set_ipv4_interface env th tap pull).
Proof. unfold set_ipv4_interface. framed_tac. Qed.

Lemma framed_block_ipv6_routes : framed (block_ipv6_routes pull).
Proof. unfold block_ipv6_routes. framed_tac. Qed.

Lemma framed_set_ipv6_interface : framed (set_ipv6_interface env tap pull).
Proof. unfold set_ipv6_interface. framed_tac. Qed.

Lemma framed_add_route (route : Route.t) : framed (add_route env tap pull route).
Proof. unfold add_route. framed_tac. Qed.

Lemma framed_process_routes : framed (process_routes env tap pull).
Proof. unfold process_routes. apply framed_for_each, framed_add_route. Qed.

Lemma framed_exclude_route g e route : framed (exclude_route g e route).
Proof. unfold exclude_route. framed_tac. Qed.

Lemma framed_process_exclude_routes : framed (process_exclude_routes env pull).
Proof.
  unfold process_exclude_routes.
  destruct (exclude_routes pull); [apply framed_ret |].
  destruct (gw env); [| apply framed_os_line].
  apply framed_bind.
  - apply framed_for_each_with, framed_exclude_route.
  - intros; apply framed_when, framed_os_line.
Qed.

Lemma framed_redirect_gateway_ipv4 : framed (redirect_gateway_ipv4 env tap pull).
Proof. unfold redirect_gateway_ipv4. framed_tac. Qed.

Lemma framed_redirect_gateway_ipv6 : framed (redirect_gateway_ipv6 env tap pull).
Proof. unfold redirect_gateway_ipv6. framed_tac. Qed.

Lemma framed_dns_server indices ds : framed (dns_server env tap pull indices ds).
Proof. unfold dns_server. framed_tac. Qed.

Lemma framed_nrpt_rules indices : framed (nrpt_rules env pull indices).
Proof. unfold nrpt_rules. framed_tac. Qed.

Lemma framed_wfp_block indices : framed (wfp_block env openvpn_app_path tap indices).
Proof. unfold wfp_block. framed_tac. Qed.

Lemma framed_process_dns_servers :
  framed (process_dns_servers env openvpn_app_path tap pull).
Proof.
  unfold process_dns_servers.
  apply framed_bind; [apply framed_for_each_with, framed_dns_server |].
  intros; apply framed_bind; [apply framed_nrpt_rules |].
  intros; apply framed_wfp_block.
Qed.

Lemma framed_wins_server i ws : framed (wins_server env tap i ws).
Proof. unfold wins_server. framed_tac. Qed.

Lemma framed_process_wins_servers : framed (process_wins_servers env tap pull).
Proof.
  unfold process_wins_servers.
  apply framed_bind; [apply framed_for_each_with, framed_wins_server |].
  intros; apply framed_ret.
Qed.

Lemma framed_flush_dns : framed flush_dns.
Proof. unfold flush_dns. framed_tac. Qed.

End FramedBlocks.

#[local] Hint Resolve framed_set_media_status framed_delete_stale_routes
  framed_set_ipv4_interface framed_block_ipv6_routes framed_set_ipv6_interface
  framed_add_route framed_process_routes framed_exclude_route
  framed_process_exclude_routes framed_redirect_gateway_ipv4
  framed_redirect_gateway_ipv6 framed_dns_server framed_nrpt_rules
  framed_wfp_block framed_process_dns_servers framed_wins_server
  framed_process_wins_servers framed_flush_dns : framed.

(** ** Outcomes of the blocks *)

Lemma is_ret_unit (o : outcome unit) : is_ret o = true -> o = Ret tt.
Proof. destruct o as [[] | e |]; simpl; congruence. Qed.

Lemma is_ret_bind {A B : Type} (m : M A) (f : A -> M B) :
  framed m -> (forall a, framed (f a)) ->
  is_ret (fst (run m)) = true ->
  (forall a, is_ret (fst (run (f a))) = true) ->
  is_ret (fst (run (bind m f))) = true.
Proof.
  intros Hm Hf H1 H2. rewrite run_bind by assumption.
  destruct (fst (run m)); simpl in *; try discriminate. apply H2.
Qed.

Lemma is_ret_for_each_with {A S : Type} (body : S -> A -> M S) (l : list A) :
  (forall s x, framed (body s x)) ->
  (forall s x, is_ret (fst (run (body s x))) = true) ->
  forall s, is_ret (fst (run (for_each_with body l s))) = true.
Proof.
  intros Hf Hr. induction l as [| x l IH]; intros s; simpl.
  - reflexivity.
  - apply is_ret_bind; auto using framed_for_each_with.
Qed.

(** [m1; m2] for two framed blocks. *)
Lemma run_seq (m1 m2 : M unit) :
  framed m1 -> framed m2 ->
  run (m1 ;; m2) =
    match fst (run m1) with
    | Ret _ => (fst (run m2), queued m1 +++ queued m2)
    | Throw e => (Throw e, queued m1)
    | NullDeref => (NullDeref, queued m1)
    end.
Proof. intros H1 H2. now rewrite run_bind by auto. Qed.

Section Outcomes.

Variable env : Env.
Variable th : HANDLE.
Variable openvpn_app_path : string.
Variable tap : TapNameGuidPair.t.
Variable pull : TunBuilderCapture.t.

Lemma set_media_status_ret : fst (run (set_media_status th)) = Ret tt.
Proof. reflexivity. Qed.

Lemma delete_stale_routes_ret : fst (run (delete_stale_routes tap)) = Ret tt.
Proof. reflexivity. Qed.

Lemma set_ipv4_interface_ret : fst (run (set_ipv4_interface env th tap pull)) = Ret tt.
Proof.
  unfold set_ipv4_interface. destruct (vpn_ipv4 pull) as [l4 |]; [| reflexivity].
  destruct (RouteAddress.net30 l4); reflexivity.
Qed.

Lemma block_ipv6_routes_ret : fst (run (block_ipv6_routes pull)) = Ret tt.
Proof. unfold block_ipv6_routes. destruct (block_ipv6 pull); reflexivity. Qed.

Lemma set_ipv6_interface_ret : fst (run (set_ipv6_interface env tap pull)) = Ret tt.
Proof.
  unfold set_ipv6_interface. destruct (vpn_ipv6 pull); [| reflexivity].
  destruct (block_ipv6 pull); reflexivity.
Qed.

Lemma add_route_outcome (route : Route.t) :
  fst (run (add_route env tap pull route)) =
    if Route.ipv6 route then Ret tt
    else match vpn_ipv4 pull with
         | Some _ => Ret tt
         | None => Throw missing_ifconfig
         end.
Proof.
  unfold add_route. destruct (Route.ipv6 route).
  - destruct (block_ipv6 pull); reflexivity.
  - destruct (vpn_ipv4 pull); reflexivity.
Qed.

Lemma for_each_add_route_outcome (routes : list Route.t) :
  fst (run (for_each (add_route env tap pull) routes)) =
    match vpn_ipv4 pull with
    | Some _ => Ret tt
    | None => if has_ipv4_route routes then Throw missing_ifconfig else Ret tt
    end.
Proof.
  induction routes as [| route routes IH]; simpl for_each.
  - destruct (vpn_ipv4 pull); reflexivity.
  - rewrite run_bind by auto using framed_add_route, framed_for_each.
    rewrite add_route_outcome. simpl has_ipv4_route.
    destruct (Route.ipv6 route); simpl.
    + apply IH.
    + destruct (vpn_ipv4 pull); simpl; [apply IH | reflexivity].
Qed.

Lemma process_routes_outcome :
  fst (run (process_routes env tap pull)) = routes_outcome pull.
Proof. apply for_each_add_route_outcome. Qed.

Lemma exclude_route_ret g e route : is_ret (fst (run (exclude_route g e route))) = true.
Proof. unfold exclude_route. destruct (Route.ipv6 route); reflexivity. Qed.

Lemma process_exclude_routes_ret : fst (run (process_exclude_routes env pull)) = Ret tt.
Proof.
  apply is_ret_unit. unfold process_exclude_routes.
  destruct (exclude_routes pull); [reflexivity |].
  destruct (gw env); [| reflexivity].
  apply is_ret_bind.
  - apply framed_for_each_with, framed_exclude_route.
  - intros; apply framed_when, framed_os_line.
  - apply is_ret_for_each_with; auto using framed_exclude_route, exclude_route_ret.
  - intros []; reflexivity.
Qed.

Lemma redirect_gateway_ipv4_outcome :
  fst (run (redirect_gateway_ipv4 env tap pull)) = redirect_outcome env pull.
Proof.
  unfold redirect_gateway_ipv4, redirect_outcome.
  destruct (RerouteGW.ipv4 (reroute_gw pull)); [| reflexivity].
  destruct (gw env); [| reflexivity].
  destruct (RemoteAddress.ipv6 (remote_address pull));
    destruct (vpn_ipv4 pull); reflexivity.
Qed.

Lemma redirect_gateway_ipv6_ret : fst (run (redirect_gateway_ipv6 env tap pull)) = Ret tt.
Proof.
  unfold redirect_gateway_ipv6.
  destruct (RerouteGW.ipv6 (reroute_gw pull) && negb (block_ipv6 pull)); reflexivity.
Qed.

Lemma dns_server_ret indices ds :
  is_ret (fst (run (dns_server env tap pull indices ds))) = true.
Proof.
  unfold dns_server.
  destruct (DNSServer.ipv6 ds && block_ipv6 pull); [reflexivity |].
  destruct (DNSServer.ipv6 ds);
    match goal with |- context [negb (?i =? 0)] => destruct (i =? 0) end;
    reflexivity.
Qed.

Lemma nrpt_rules_ret indices : is_ret (fst (run (nrpt_rules env pull indices))) = true.
Proof.
  unfold nrpt_rules.
  match goal with |- context [when ?b _] => destruct b end; reflexivity.
Qed.

Lemma wfp_block_ret indices :
  is_ret (fst (run (wfp_block env openvpn_app_path tap indices))) = true.
Proof.
  unfold wfp_block.
  match goal with |- context [when ?b _] => destruct b end; reflexivity.
Qed.

Lemma process_dns_servers_ret :
  fst (run (process_dns_servers env openvpn_app_path tap pull)) = Ret tt.
Proof.
  apply is_ret_unit. unfold process_dns_servers.
  apply is_ret_bind; auto with framed.
  - apply is_ret_for_each_with; auto using framed_dns_server, dns_server_ret.
  - intros indices. apply is_ret_bind; auto using nrpt_rules_ret, wfp_block_ret with framed.
Qed.

Lemma wins_server_ret i ws : is_ret (fst (run (wins_server env tap i ws))) = true.
Proof. unfold wins_server. destruct (i =? 0); reflexivity. Qed.

Lemma process_wins_servers_ret : fst (run (process_wins_servers env tap pull)) = Ret tt.
Proof.
  apply is_ret_unit. unfold process_wins_servers.
  apply is_ret_bind; auto with framed.
  apply is_ret_for_each_with; auto using framed_wins_server, wins_server_ret.
Qed.

Lemma flush_dns_ret : fst (run flush_dns) = Ret tt.
Proof. reflexivity. Qed.

End Outcomes.

(** ** [adapter_config] as the sequence of its blocks *)

Lemma run_seq_ret (m1 m2 : M unit) :
  framed m1 -> framed m2 -> fst (run m1) = Ret tt ->
  run (m1 ;; m2) = (fst (run m2), queued m1 +++ queued m2).
Proof. intros H1 H2 Hr. rewrite run_seq by assumption. now rewrite Hr. Qed.

Lemma run_eta {A : Type} (m : M A) : run m = (fst (run m), queued m).
Proof. unfold queued. now destruct (run m). Qed.

Lemma seq_ret_split (m1 m2 : M unit) (o : outcome unit) (q : Lists.t) :
  framed m1 -> framed m2 -> fst (run m1) = Ret tt ->
  run m2 = (o, q) ->
  run (m1 ;; m2) = (o, queued m1 +++ q).
Proof.
  intros H1 H2 Hr Ht. rewrite run_seq_ret by assumption.
  unfold queued at 2. now rewrite Ht.
Qed.

Lemma seq_split (m1 m2 : M unit) (o : outcome unit) (q : Lists.t) :
  run m2 = (o, q) -> framed m1 -> framed m2 ->
  run (m1 ;; m2) =
    match fst (run m1) with
    | Ret _ => (o, queued m1 +++ q)
    | Throw e => (Throw e, queued m1)
    | NullDeref => (NullDeref, queued m1)
    end.
Proof.
  intros Ht H1 H2. rewrite run_seq by assumption.
  unfold queued at 2. now rewrite Ht.
Qed.

(** One step along a sequence of blocks whose head always returns. *)
Ltac seq_step lem :=
  match goal with
  | |- run (_ ;; _) = (_, _ +++ _) =>
      apply seq_ret_split;
      [auto 20 with framed | auto 20 with framed | first [apply lem | rewrite lem] |]
  end.

Section Blocks.

Variable env : Env.
Variable th : HANDLE.
Variable openvpn_app_path : string.
Variable tap : TapNameGuidPair.t.
Variable pull : TunBuilderCapture.t.

Lemma adapter_config_run :
  run (adapter_config env th openvpn_app_path tap pull) =
    match routes_outcome pull with
    | Ret _ =>
        match redirect_outcome env pull with
        | Ret _ => (Ret tt, (queued_to_routes env th tap pull) +++ (queued_redirect env tap pull) +++ (queued_rest env openvpn_app_path tap pull))
        | Throw e => (Throw e, (queued_to_routes env th tap pull) +++ (queued_redirect env tap pull))
        | NullDeref => (NullDeref, (queued_to_routes env th tap pull) +++ (queued_redirect env tap pull))
        end
    | Throw e => (Throw e, (queued_to_routes env th tap pull))
    | NullDeref => (NullDeref, (queued_to_routes env th tap pull))
    end.
Proof.
  assert (T9 : run (redirect_gateway_ipv6 env tap pull ;;
                    process_dns_servers env openvpn_app_path tap pull ;;
                    process_wins_servers env tap pull ;; flush_dns)
               = (Ret tt, (queued_rest env openvpn_app_path tap pull))).
  { unfold queued_rest.
    seq_step redirect_gateway_ipv6_ret.
    seq_step process_dns_servers_ret.
    seq_step process_wins_servers_ret.
    rewrite (run_eta flush_dns). now rewrite flush_dns_ret. }
  pose proof (seq_split (redirect_gateway_ipv4 env tap pull) _ _ _ T9
                ltac:(auto 20 with framed) ltac:(auto 20 with framed)) as T8.
  rewrite redirect_gateway_ipv4_outcome in T8.
  unfold adapter_config, queued_to_routes, queued_redirect.
  destruct (routes_outcome pull) as [[] | e |] eqn:E6.
  - destruct (redirect_outcome env pull) as [[] | e |];
      rewrite ?lists_app_assoc;
      seq_step set_media_status_ret;
      seq_step delete_stale_routes_ret;
      seq_step set_ipv4_interface_ret;
      seq_step block_ipv6_routes_ret;
      seq_step set_ipv6_interface_ret;
      (seq_step (process_routes_outcome env tap pull); [now rewrite E6 |]);
      seq_step process_exclude_routes_ret;
      exact T8.
  - seq_step set_media_status_ret.
    seq_step delete_stale_routes_ret.
    seq_step set_ipv4_interface_ret.
    seq_step block_ipv6_routes_ret.
    seq_step set_ipv6_interface_ret.
    rewrite run_seq by auto 20 with framed.
    now rewrite process_routes_outcome, E6.
  - seq_step set_media_status_ret.
    seq_step delete_stale_routes_ret.
    seq_step set_ipv4_interface_ret.
    seq_step block_ipv6_routes_ret.
    seq_step set_ipv6_interface_ret.
    rewrite run_seq by auto 20 with framed.
    now rewrite process_routes_outcome, E6.
Qed.

End Blocks.

Lemma framed_adapter_config env th app tap pull :
  framed (adapter_config env th app tap pull).
Proof. unfold adapter_config. auto 20 with framed. Qed.

(** ** [establish] when [adapter_config] does not return *)

Lemma establish_config_throws env pull app self w th e :
  tap_open_th env = Some th ->
  fst (run (adapter_config env th app (tap_open_tap env) pull)) = Throw e ->
  fst (fst (Setup.establish env pull app self w)) = Throw e
  /\ executed (snd (Setup.establish env pull app self w))
     = executed (snd (Setup.destroy env self w))
  /\ Setup.remove_cmds (snd (fst (Setup.establish env pull app self w)))
     = Some (ActionList.mk
               (Lists.destroy (queued (adapter_config env th app (tap_open_tap env) pull)))
               false).
Proof.
  intros Hth He. unfold Setup.establish.
  destruct (Setup.destroy env self w) as [self1 w1]. rewrite Hth.
  rewrite (framed_adapter_config env th app (tap_open_tap env) pull).
  rewrite He. simpl. auto.
Qed.

(** ** End-to-end scenario *)

(** C8.  For the pulled configuration that holds only the IPv4 route
    configuration 10.8.0.2/24 with gateway 10.8.0.1 (subnet topology) and one
    IPv4 route 192.168.50.0/24, [adapter_config] returns and has queued, in
    this order, the stale-route cleanup, the set-address command, the
    add-route command for 192.168.50.0/24 and the DNS cache flush in the
    create list, and the delete-address command, the delete-route command
    and a flush in the destroy list. *)
Theorem end_to_end_sequences (env : Env) (th : HANDLE) (app : string)
    (tap : TapNameGuidPair.t) (remote : RemoteAddress.t) :
  adapter_config env th app tap (pull_end_to_end remote) lists_nil =
    (Ret tt,
     Lists.mk
       [ ActionDeleteAllRoutesOnInterface (TapNameGuidPair.index tap);
         WinCmd ("netsh interface ip set address " ^^ index_or_name env tap
                 ^^ " static 10.8.0.2 " ^^ netmask_from_prefix_len env 24
                 ^^ " gateway=10.8.0.1 store=active");
         WinCmd ("netsh interface ip add route 192.168.50.0/24 "
                 ^^ index_or_name env tap ^^ " 10.8.0.1 store=active");
         WinCmd "ipconfig /flushdns" ]
       [ WinCmd ("netsh interface ip delete address " ^^ index_or_name env tap
                 ^^ " 10.8.0.2 gateway=all store=active");
         WinCmd ("netsh interface ip delete route 192.168.50.0/24 "
                 ^^ index_or_name env tap ^^ " 10.8.0.1 store=active");
         WinCmd "ipconfig /flushdns" ]
       []
       [ tap_set_media_status th true;
         tap_configure_topology_subnet th "10.8.0.2" 24 ]).
Proof.
  (* no DNS server is configured: the NRPT and WFP blocks are skipped on
     every Windows version *)
  destruct env as [g vista win7 win8 netmask name oth opath otap gs vs ok].
  destruct win8, app; reflexivity.
Qed.

(** ** IPv4 routes pushed without IPv4 ifconfig *)

Lemma has_ipv4_route_In (routes : list Route.t) :
  has_ipv4_route routes = true <->
  exists route, In route routes /\ Route.ipv6 route = false.
Proof.
  unfold has_ipv4_route. rewrite existsb_exists.
  split; intros [route [Hin H]]; exists route; split; auto.
  - now apply negb_true_iff.
  - now apply negb_true_iff.
Qed.

(** C2.  When the TAP adapter was opened, no IPv4 route configuration was
    pulled and [add_routes] holds an IPv4 entry, [establish] fails with the
    exception "IPv4 routes pushed without IPv4 ifconfig"; it is thrown while
    the lists are being populated: the only actions executed on the host are
    those of the preliminary [destroy] of a previous session (none at all
    when no remove list was held), and the remove list left behind is not
    enabled. *)
Theorem establish_missing_ifconfig (env : Env) (pull : TunBuilderCapture.t)
    (app : string) (self : Setup.t) (w : World) (th : HANDLE) (route : Route.t) :
  tap_open_th env = Some th ->
  vpn_ipv4 pull = None ->
  In route (add_routes pull) ->
  Route.ipv6 route = false ->
  fst (fst (Setup.establish env pull app self w)) = Throw missing_ifconfig
  /\ executed (snd (Setup.establish env pull app self w))
     = executed (snd (Setup.destroy env self w))
  /\ (Setup.remove_cmds self = None ->
      executed (snd (Setup.establish env pull app self w)) = executed w)
  /\ exists actions,
       Setup.remove_cmds (snd (fst (Setup.establish env pull app self w)))
       = Some (ActionList.mk actions false).
Proof.
  intros Hth H4 Hin H6.
  assert (Hr : has_ipv4_route (add_routes pull) = true)
    by (apply has_ipv4_route_In; eauto).
  assert (He : fst (run (adapter_config env th app (tap_open_tap env) pull))
               = Throw missing_ifconfig).
  { rewrite adapter_config_run. unfold routes_outcome. now rewrite H4, Hr. }
  destruct (establish_config_throws env pull app self w th _ Hth He) as [E1 [E2 E3]].
  repeat split; auto.
  - intros Hn. rewrite E2. unfold Setup.destroy. now rewrite Hn.
  - eauto.
Qed.

Lemma establish_missing_ifconfig_witness :
  fst (fst (Setup.establish example_env pull_route_no_ifconfig "C:\openvpn.exe"
              Setup.init (mkWorld [] [] [])))
  = Throw missing_ifconfig
  /\ executed (snd (Setup.establish example_env pull_route_no_ifconfig "C:\openvpn.exe"
                      Setup.init (mkWorld [] [] [])))
     = [].
Proof.
  pose proof (establish_missing_ifconfig example_env pull_route_no_ifconfig
                "C:\openvpn.exe" Setup.init (mkWorld [] [] []) 7
                (Route.mk "192.168.50.0" 24 false)
                eq_refl eq_refl (or_introl eq_refl) eq_refl) as [H1 [_ [H3 _]]].
  split; [exact H1 | exact (H3 eq_refl)].
Defined.

(** ** IPv4 redirect-gateway *)

Section RedirectGateway.

Variable env : Env.
Variable tap : TapNameGuidPair.t.
Variable pull : TunBuilderCapture.t.

Lemma redirect_gateway_ipv4_queued (g : DefaultGateway.t) (local4 : RouteAddress.t) :
  RerouteGW.ipv4 (reroute_gw pull) = true ->
  gw env = Some g ->
  vpn_ipv4 pull = Some local4 ->
  Lists.create (queued (redirect_gateway_ipv4 env tap pull))
  = (if RemoteAddress.ipv6 (remote_address pull) then [] else [bypass_route pull g "add"])
    ++ [split_route env tap local4 "add" "0.0.0.0"; split_route env tap local4 "add" "128.0.0.0"]
  /\ Lists.destroy (queued (redirect_gateway_ipv4 env tap pull))
     = (if RemoteAddress.ipv6 (remote_address pull) then [] else [bypass_route pull g "delete"])
       ++ [split_route env tap local4 "delete" "0.0.0.0"; split_route env tap local4 "delete" "128.0.0.0"].
Proof.
  intros Hr Hg H4. unfold queued, redirect_gateway_ipv4.
  rewrite Hr, Hg, H4.
  destruct (RemoteAddress.ipv6 (remote_address pull)); split; reflexivity.
Qed.

End RedirectGateway.

Lemma create_app (a b : Lists.t) :
  Lists.create (a +++ b) = Lists.create a ++ Lists.create b.
Proof. reflexivity. Qed.

Lemma destroy_app (a b : Lists.t) :
  Lists.destroy (a +++ b) = Lists.destroy a ++ Lists.destroy b.
Proof. reflexivity. Qed.

(** C3, as the code has it.  With [reroute_gw.ipv4] set:
    - without a default gateway, and when the loop over [add_routes] did not
      throw before (no IPv4 route without an IPv4 route configuration),
      [adapter_config] throws "redirect-gateway error: cannot detect default
      gateway", and so does [establish] once the TAP adapter is open;
    - with a default gateway and an IPv4 route configuration,
      [adapter_config] returns, and the redirect-gateway block queues exactly
      the two routes 0.0.0.0/1 and 128.0.0.0/1 through the tunnel, preceded by
      the /32 route to the server through the original gateway exactly when
      the server address is not IPv6 -- with the mirrored deletions in the
      destroy list; the lists of [adapter_config] are those of the blocks
      before, of this block, and of the blocks after, in this order. *)
Theorem redirect_gateway_ipv4_routes (env : Env) (th : HANDLE) (app : string)
    (tap : TapNameGuidPair.t) (pull : TunBuilderCapture.t) :
  RerouteGW.ipv4 (reroute_gw pull) = true ->
  (gw env = None ->
   (vpn_ipv4 pull = None -> has_ipv4_route (add_routes pull) = false) ->
   fst (run (adapter_config env th app tap pull)) = Throw gateway_detection
   /\ forall self w,
        tap_open_th env = Some th -> tap_open_tap env = tap ->
        fst (fst (Setup.establish env pull app self w)) = Throw gateway_detection)
  /\ (forall g local4,
        gw env = Some g ->
        vpn_ipv4 pull = Some local4 ->
        let redirect := queued (redirect_gateway_ipv4 env tap pull) in
        let all := queued (adapter_config env th app tap pull) in
        fst (run (adapter_config env th app tap pull)) = Ret tt
        /\ Lists.create redirect
           = (if RemoteAddress.ipv6 (remote_address pull) then []
              else [bypass_route pull g "add"])
             ++ [split_route env tap local4 "add" "0.0.0.0";
                 split_route env tap local4 "add" "128.0.0.0"]
        /\ Lists.destroy redirect
           = (if RemoteAddress.ipv6 (remote_address pull) then []
              else [bypass_route pull g "delete"])
             ++ [split_route env tap local4 "delete" "0.0.0.0";
                 split_route env tap local4 "delete" "128.0.0.0"]
        /\ Lists.create all
           = Lists.create (queued_to_routes env th tap pull)
             ++ Lists.create (queued (process_exclude_routes env pull))
             ++ Lists.create redirect
             ++ Lists.create (queued_rest env app tap pull)
        /\ Lists.destroy all
           = Lists.destroy (queued_to_routes env th tap pull)
             ++ Lists.destroy (queued (process_exclude_routes env pull))
             ++ Lists.destroy redirect
             ++ Lists.destroy (queued_rest env app tap pull)).
Proof.
  intros Hr. split.
  - intros Hg Hroutes.
    assert (He : fst (run (adapter_config env th app tap pull)) = Throw gateway_detection).
    { rewrite adapter_config_run. unfold routes_outcome, redirect_outcome.
      rewrite Hr, Hg. destruct (vpn_ipv4 pull); [reflexivity |].
      now rewrite Hroutes. }
    split; [exact He |].
    intros self w Hth Htap. subst tap.
    now apply (establish_config_throws env pull app self w th).
  - intros g local4 Hg H4 redirect all. subst redirect all.
    destruct (redirect_gateway_ipv4_queued env tap pull g local4 Hr Hg H4) as [Hc Hd].
    unfold queued at 3 6. rewrite adapter_config_run.
    unfold routes_outcome, redirect_outcome, queued_redirect.
    rewrite Hr, Hg, H4. simpl fst. simpl snd.
    rewrite !create_app, !destroy_app, Hc, Hd.
    rewrite <- !app_assoc.
    repeat split; reflexivity.
Qed.

Lemma redirect_gateway_ipv4_routes_witness :
  fst (fst (Setup.establish example_env_no_gw (pull_redirect example_remote)
              "C:\openvpn.exe" Setup.init (mkWorld [] [] [])))
  = Throw gateway_detection
  /\ Lists.create (queued (redirect_gateway_ipv4 example_env example_tap
                             (pull_redirect example_remote)))
     = [ WinCmd "netsh interface ip add route 203.0.113.10/32 5 192.168.1.1 store=active";
         WinCmd "netsh interface ip add route 0.0.0.0/1 12 10.8.0.1 store=active";
         WinCmd "netsh interface ip add route 128.0.0.0/1 12 10.8.0.1 store=active" ].
Proof.
  split.
  - destruct (redirect_gateway_ipv4_routes example_env_no_gw 7 "C:\openvpn.exe"
                example_tap (pull_redirect example_remote) eq_refl) as [Ha _].
    destruct (Ha eq_refl) as [_ He].
    + intros H; discriminate H.
    + apply He; reflexivity.
  - destruct (redirect_gateway_ipv4_routes example_env 7 "C:\openvpn.exe"
                example_tap (pull_redirect example_remote) eq_refl) as [_ Hb].
    destruct (Hb example_gw example_local4 eq_refl eq_refl) as [_ [Hc _]].
    exact Hc.
Defined.

(** With a default gateway and [reroute_gw.ipv4] set, no route that bypasses
    the VPN server is queued when the server address is an IPv6 address: the
    create list holds the two split routes only. *)
Lemma redirect_gateway_ipv6_server_no_bypass :
  RerouteGW.ipv4 (reroute_gw (pull_redirect example_remote6)) = true
  /\ gw example_env = Some example_gw
  /\ adapter_config example_env 7 "C:\openvpn.exe" example_tap
       (pull_redirect example_remote6) lists_nil
     = (Ret tt,
        Lists.mk
          [ ActionDeleteAllRoutesOnInterface 12;
            WinCmd "netsh interface ip set address 12 static 10.8.0.2 255.255.255.0 gateway=10.8.0.1 store=active";
            WinCmd "netsh interface ip add route 0.0.0.0/1 12 10.8.0.1 store=active";
            WinCmd "netsh interface ip add route 128.0.0.0/1 12 10.8.0.1 store=active";
            WinCmd "ipconfig /flushdns" ]
          [ WinCmd "netsh interface ip delete address 12 10.8.0.2 gateway=all store=active";
            WinCmd "netsh interface ip delete route 0.0.0.0/1 12 10.8.0.1 store=active";
            WinCmd "netsh interface ip delete route 128.0.0.0/1 12 10.8.0.1 store=active";
            WinCmd "ipconfig /flushdns" ]
          []
          [ tap_set_media_status 7 true;
            tap_configure_topology_subnet 7 "10.8.0.2" 24 ]).
Proof. repeat split. Qed.

(** ** The null [local4] in the IPv4 redirect-gateway block *)

(** With [reroute_gw.ipv4] set and no IPv4 route configuration, but without
    a default gateway, the block throws before it reads [local4->gateway]. *)
Lemma redirect_no_ifconfig_throws_first :
  RerouteGW.ipv4 (reroute_gw pull_redirect_no_ifconfig) = true
  /\ vpn_ipv4 pull_redirect_no_ifconfig = None
  /\ fst (run (adapter_config example_env_no_gw 7 "C:\openvpn.exe" example_tap
                 pull_redirect_no_ifconfig))
     = Throw gateway_detection
  /\ fst (run (adapter_config example_env_no_gw 7 "C:\openvpn.exe" example_tap
                 pull_redirect_no_ifconfig))
     <> NullDeref.
Proof. repeat split. discriminate. Qed.

(** C10, as the code has it.  [adapter_config] dereferences the null
    [local4] exactly when [reroute_gw.ipv4] is set, no IPv4 route
    configuration was pulled, a default gateway is detected and [add_routes]
    holds no IPv4 entry (otherwise one of the two exceptions is thrown
    first).  In particular the dereference cannot happen when
    [reroute_gw.ipv4] implies that the IPv4 route configuration is present. *)
Theorem null_local4_dereference (env : Env) (th : HANDLE) (app : string)
    (tap : TapNameGuidPair.t) (pull : TunBuilderCapture.t) :
  (fst (run (adapter_config env th app tap pull)) = NullDeref
   <-> RerouteGW.ipv4 (reroute_gw pull) = true
       /\ vpn_ipv4 pull = None
       /\ gw env <> None
       /\ has_ipv4_route (add_routes pull) = false)
  /\ ((RerouteGW.ipv4 (reroute_gw pull) = true -> vpn_ipv4 pull <> None) ->
      fst (run (adapter_config env th app tap pull)) <> NullDeref).
Proof.
  assert (Hiff : fst (run (adapter_config env th app tap pull)) = NullDeref
                 <-> RerouteGW.ipv4 (reroute_gw pull) = true
                     /\ vpn_ipv4 pull = None
                     /\ gw env <> None
                     /\ has_ipv4_route (add_routes pull) = false).
  { rewrite adapter_config_run. unfold routes_outcome, redirect_outcome.
    destruct (RerouteGW.ipv4 (reroute_gw pull)), (vpn_ipv4 pull), (gw env),
      (has_ipv4_route (add_routes pull)); simpl;
      (split;
       [ intros H; try discriminate H; repeat split; congruence
       | intros (H1 & H2 & H3 & H4); congruence ]). }
  split; [exact Hiff |].
  intros Hpre Hnull. apply Hiff in Hnull. destruct Hnull as [H1 [H2 _]].
  now apply Hpre.
Qed.

Lemma null_local4_dereference_witness :
  fst (run (adapter_config example_env 7 "C:\openvpn.exe" example_tap
              (pull_redirect example_remote)))
  <> NullDeref
  /\ fst (run (adapter_config example_env 7 "C:\openvpn.exe" example_tap
                 pull_redirect_no_ifconfig))
     = NullDeref.
Proof.
  split.
  - apply (proj2 (null_local4_dereference example_env 7 "C:\openvpn.exe" example_tap
                    (pull_redirect example_remote))).
    intros _ H. discriminate H.
  - apply (proj1 (null_local4_dereference example_env 7 "C:\openvpn.exe" example_tap
                    pull_redirect_no_ifconfig)).
    repeat split. discriminate.
Defined.

(** ** Teardown *)

Lemma undo_all_host ok (l host : list Action) :
  snd (ActionList.undo_all ok l host) = host ++ l.
Proof.
  revert host. induction l as [| a l IH]; intros host; simpl.
  - now rewrite app_nil_r.
  - specialize (IH (host ++ [a])).
    destruct (ActionList.undo_all ok l (host ++ [a])) as [failed host'].
    simpl in *. now rewrite IH, <- app_assoc.
Qed.

Lemma destroy_executed env self w :
  executed (snd (Setup.destroy env self w))
  = executed w ++
    match Setup.remove_cmds self with
    | Some al => if ActionList.enable_destroy_ al then ActionList.actions al else []
    | None => []
    end.
Proof.
  unfold Setup.destroy, ActionList.destroy.
  destruct (Setup.remove_cmds self) as [al |]; simpl.
  - destruct (ActionList.enable_destroy_ al); simpl.
    + pose proof (undo_all_host (action_ok env) (ActionList.actions al) (executed w)) as H.
      destruct (ActionList.undo_all (action_ok env) (ActionList.actions al) (executed w)).
      simpl in *. exact H.
    + now rewrite app_nil_r.
  - now rewrite app_nil_r.
Qed.

Lemma destroy_resets env self w :
  Setup.remove_cmds (fst (Setup.destroy env self w)) = None.
Proof.
  unfold Setup.destroy.
  destruct (Setup.remove_cmds self) as [al |] eqn:E; simpl; [| exact E].
  destruct (ActionList.destroy (action_ok env) al (executed w)) as [[al' failed] host'].
  reflexivity.
Qed.

(** C5.  [destroy] is idempotent.  Without a remove list it changes
    nothing; with a remove list that is not enabled it executes no action;
    with an enabled remove list it executes every queued action once, in
    order.  In every case the remove list is dropped afterwards, so that a
    second call -- and the destructor, which only calls [destroy] -- leaves
    the object and the world as they are and executes no action again. *)
Theorem destroy_idempotent (env : Env) (self : Setup.t) (w : World) :
  let self' := fst (Setup.destroy env self w) in
  let w' := snd (Setup.destroy env self w) in
  (Setup.remove_cmds self = None -> Setup.destroy env self w = (self, w))
  /\ (forall al, Setup.remove_cmds self = Some al ->
                 ActionList.enable_destroy_ al = false ->
                 executed w' = executed w)
  /\ (forall al, Setup.remove_cmds self = Some al ->
                 ActionList.enable_destroy_ al = true ->
                 executed w' = executed w ++ ActionList.actions al)
  /\ Setup.remove_cmds self' = None
  /\ Setup.destroy env self' w' = (self', w')
  /\ executed (Setup.dtor env self' w') = executed w'.
Proof.
  intros self' w'. subst self' w'.
  assert (Hnone : forall s v, Setup.remove_cmds s = None -> Setup.destroy env s v = (s, v)).
  { intros s v H. unfold Setup.destroy. now rewrite H. }
  pose proof (destroy_resets env self w) as Hreset.
  repeat split.
  - apply Hnone.
  - intros al Hal Hen. rewrite destroy_executed, Hal, Hen. apply app_nil_r.
  - intros al Hal Hen. now rewrite destroy_executed, Hal, Hen.
  - exact Hreset.
  - now apply Hnone.
  - unfold Setup.dtor. rewrite (Hnone _ _ Hreset). reflexivity.
Qed.

Lemma destroy_idempotent_witness :
  executed (snd (Setup.destroy example_env example_armed (mkWorld [] [] [])))
  = [ WinCmd "netsh interface ip delete address 12 10.8.0.2 gateway=all store=active";
      WinCmd "ipconfig /flushdns" ]
  /\ Setup.destroy example_env Setup.init (mkWorld [] [] []) = (Setup.init, mkWorld [] [] []).
Proof.
  destruct (destroy_idempotent example_env example_armed (mkWorld [] [] []))
    as [_ [_ [Harmed _]]].
  destruct (destroy_idempotent example_env Setup.init (mkWorld [] [] []))
    as [Hnone _].
  split.
  - exact (Harmed _ eq_refl eq_refl).
  - exact (Hnone eq_refl).
Defined.

(** ** A create action fails *)

Lemma execute_stops ok (pre : list Action) (a : Action) (post host : list Action) :
  ActionList.execute ok pre host = (None, host ++ pre) ->
  ok (host ++ pre) a = false ->
  ActionList.execute ok (pre ++ a :: post) host = (Some a, host ++ pre ++ [a]).
Proof.
  revert host. induction pre as [| b pre IH]; intros host Hpre Ha; simpl in *.
  - rewrite app_nil_r in Ha. now rewrite Ha.
  - destruct (ok host b) eqn:Hb.
    + replace (host ++ b :: pre) with ((host ++ [b]) ++ pre) in *
        by now rewrite <- app_assoc.
      rewrite (IH (host ++ [b]) Hpre Ha). now rewrite <- !app_assoc.
    + discriminate Hpre.
Qed.

(** C6.  Let the TAP adapter be open and [adapter_config] return with the
    create list [pre ++ a :: post], where the actions of [pre] succeed and
    [a] fails.  Then [establish] throws the failure of [a]; the host has
    executed the preliminary [destroy], then [pre] and the attempt of [a],
    and nothing else: no action of [post] and no action of the new destroy
    list; the destroy list is kept but not enabled, so that a later
    [destroy] executes none of its actions either. *)
Theorem establish_create_failure (env : Env) (pull : TunBuilderCapture.t)
    (app : string) (self : Setup.t) (w : World) (th : HANDLE)
    (q : Lists.t) (pre : list Action) (a : Action) (post : list Action) :
  let host := executed (snd (Setup.destroy env self w)) in
  let self' := snd (fst (Setup.establish env pull app self w)) in
  let w' := snd (Setup.establish env pull app self w) in
  tap_open_th env = Some th ->
  run (adapter_config env th app (tap_open_tap env) pull) = (Ret tt, q) ->
  Lists.create q = pre ++ a :: post ->
  ActionList.execute (action_ok env) pre host = (None, host ++ pre) ->
  action_ok env (host ++ pre) a = false ->
  fst (fst (Setup.establish env pull app self w)) = Throw (action_failure a)
  /\ executed w' = host ++ pre ++ [a]
  /\ Setup.remove_cmds self' = Some (ActionList.mk (Lists.destroy q) false)
  /\ executed (snd (Setup.destroy env self' w')) = executed w'.
Proof.
  intros host self' w' Hth Hrun Hc Hpre Ha. subst host self' w'.
  assert (He : Setup.establish env pull app self w
               = (Throw (action_failure a),
                  Setup.mk (Some (ActionList.mk (Lists.destroy q) false)),
                  mkWorld (executed (snd (Setup.destroy env self w)) ++ pre ++ [a])
                          (Lists.os (Lists.mk [] []
                                       ((out (snd (Setup.destroy env self w))
                                         ++ ["TAP ADAPTERS:"; guids_to_string env])
                                        ++ [("Open TAP device " ^^ dquote
                                             ^^ TapNameGuidPair.name (tap_open_tap env)
                                             ^^ dquote ^^ " PATH=" ^^ dquote
                                             ^^ tap_open_path env ^^ dquote)
                                            ^^ " SUCCEEDED"; version_to_string env])
                                       (tap_dev (snd (Setup.destroy env self w))) +++ q))
                          (Lists.tap_io (Lists.mk [] [] []
                                           (tap_dev (snd (Setup.destroy env self w))) +++ q)))).
  { unfold Setup.establish.
    destruct (Setup.destroy env self w) as [self1 w1]. rewrite Hth.
    rewrite (framed_adapter_config env th app (tap_open_tap env) pull).
    rewrite Hrun. simpl fst. simpl snd. cbv iota beta.
    simpl Lists.create. rewrite Hc.
    simpl in Hpre, Ha.
    now rewrite (execute_stops _ pre a post (executed w1) Hpre Ha). }
  rewrite He. simpl.
  repeat split.
Qed.

Lemma establish_create_failure_witness :
  fst (fst (Setup.establish example_env_failing (pull_end_to_end example_remote)
              "C:\openvpn.exe" Setup.init (mkWorld [] [] [])))
  = Throw (action_failure
             (WinCmd "netsh interface ip add route 192.168.50.0/24 12 10.8.0.1 store=active"))
  /\ executed (snd (Setup.establish example_env_failing (pull_end_to_end example_remote)
                      "C:\openvpn.exe" Setup.init (mkWorld [] [] [])))
     = [ ActionDeleteAllRoutesOnInterface 12;
         WinCmd "netsh interface ip set address 12 static 10.8.0.2 255.255.255.0 gateway=10.8.0.1 store=active";
         WinCmd "netsh interface ip add route 192.168.50.0/24 12 10.8.0.1 store=active" ].
Proof.
  destruct (establish_create_failure example_env_failing (pull_end_to_end example_remote)
              "C:\openvpn.exe" Setup.init (mkWorld [] [] []) 7
              (snd (run (adapter_config example_env_failing 7 "C:\openvpn.exe" example_tap
                          (pull_end_to_end example_remote))))
              [ ActionDeleteAllRoutesOnInterface 12;
                WinCmd "netsh interface ip set address 12 static 10.8.0.2 255.255.255.0 gateway=10.8.0.1 store=active" ]
              (WinCmd "netsh interface ip add route 192.168.50.0/24 12 10.8.0.1 store=active")
              [ WinCmd "ipconfig /flushdns" ]
              eq_refl eq_refl eq_refl eq_refl eq_refl) as [H1 [H2 _]].
  split; [exact H1 | exact H2].
Defined.

(** ** Blocks that queue no action of a given kind *)

Lemma queued_bind {A B : Type} (m : M A) (f : A -> M B) :
  framed m -> (forall a, framed (f a)) ->
  queued (bind m f) =
    match fst (run m) with
    | Ret a => queued m +++ queued (f a)
    | _ => queued m
    end.
Proof.
  intros Hm Hf. unfold queued at 1. rewrite run_bind by assumption.
  destruct (fst (run m)); reflexivity.
Qed.

Lemma quiet_app p (a b : Lists.t) : quiet p a -> quiet p b -> quiet p (a +++ b).
Proof.
  intros [Ha1 Ha2] [Hb1 Hb2]. unfold quiet.
  rewrite create_app, destroy_app, !filter_app, Ha1, Ha2, Hb1, Hb2. auto.
Qed.

Section Well.

Variable p : Action -> bool.

Lemma well_ret {A : Type} (a : A) : well p (ret a).
Proof. split; [apply framed_ret | split; reflexivity]. Qed.

Lemma well_throw {A : Type} (e : exn) : well p (@throw A e).
Proof. split; [apply framed_throw | split; reflexivity]. Qed.

Lemma well_deref {A : Type} (o : option A) : well p (deref o).
Proof. split; [apply framed_deref | destruct o; split; reflexivity]. Qed.

Lemma well_os_line (line : string) : well p (os_line line).
Proof. split; [apply framed_os_line | split; reflexivity]. Qed.

Lemma well_ioctl (c : TapIoctl) : well p (ioctl c).
Proof. split; [apply framed_ioctl | split; reflexivity]. Qed.

Lemma well_create_add (a : Action) : p a = false -> well p (create_add a).
Proof.
  intros H. split; [apply framed_create_add |].
  split; simpl; [now rewrite H | reflexivity].
Qed.

Lemma well_destroy_add (a : Action) : p a = false -> well p (destroy_add a).
Proof.
  intros H. split; [apply framed_destroy_add |].
  split; simpl; [reflexivity | now rewrite H].
Qed.

Lemma well_bind {A B : Type} (m : M A) (f : A -> M B) :
  well p m -> (forall a, well p (f a)) -> well p (bind m f).
Proof.
  intros [Fm Qm] Hf. split.
  - apply framed_bind; [assumption | intros a; apply Hf].
  - rewrite queued_bind; [| assumption | intros a; apply Hf].
    destruct (fst (run m)) as [a | e |]; auto.
    apply quiet_app; [assumption | apply Hf].
Qed.

Lemma well_when (b : bool) (m : M unit) : well p m -> well p (when b m).
Proof. destruct b; simpl; auto using well_ret. Qed.

Lemma well_for_each {A : Type} (body : A -> M unit) (l : list A) :
  (forall x, well p (body x)) -> well p (for_each body l).
Proof.
  intros Hb. induction l as [| x l IH]; simpl.
  - apply well_ret.
  - apply well_bind; auto.
Qed.

Lemma well_for_each_with {A S : Type} (body : S -> A -> M S) (l : list A) (s : S) :
  (forall s x, well p (body s x)) -> well p (for_each_with body l s).
Proof.
  intros Hb. revert s. induction l as [| x l IH]; intros s; simpl.
  - apply well_ret.
  - apply well_bind; auto.
Qed.

End Well.

Lemma well_quiet p {A : Type} (m : M A) : well p m -> quiet p (queued m).
Proof. now intros [_ H]. Qed.

(** Splits a [well] goal along the structure of the program; what is left
    are the actions that must not satisfy the predicate. *)
Ltac well_tac :=
  repeat
    (intros;
     match goal with
     | |- well _ (if ?b then _ else _) => destruct b
     | |- well _ (match ?x with _ => _ end) => destruct x
     | |- well _ _ => first
         [ apply well_ret | apply well_throw | apply well_deref
         | apply well_os_line | apply well_ioctl
         | apply well_bind | apply well_when
         | apply well_for_each | apply well_for_each_with
         | apply well_create_add | apply well_destroy_add ]
     end).

(** *** Predicates that no [WinCmd] and no route cleanup satisfies *)

Section NoCommand.

Variable p : Action -> bool.
Hypothesis p_WinCmd : forall cmd, p (WinCmd cmd) = false.
Hypothesis p_cleanup : forall i, p (ActionDeleteAllRoutesOnInterface i) = false.

Variable env : Env.
Variable th : HANDLE.
Variable tap : TapNameGuidPair.t.
Variable pull : TunBuilderCapture.t.

Lemma nocmd_to_routes : quiet p (queued_to_routes env th tap pull).
Proof.
  unfold queued_to_routes.
  repeat apply quiet_app; apply well_quiet.
  - apply well_ioctl.
  - apply well_create_add, p_cleanup.
  - unfold set_ipv4_interface. well_tac; apply p_WinCmd.
  - unfold block_ipv6_routes. well_tac; apply p_WinCmd.
  - unfold set_ipv6_interface. well_tac; apply p_WinCmd.
  - unfold process_routes, add_route. well_tac; apply p_WinCmd.
Qed.

Lemma nocmd_redirect : quiet p (queued_redirect env tap pull).
Proof.
  unfold queued_redirect. apply quiet_app; apply well_quiet.
  - unfold process_exclude_routes, exclude_route. well_tac; apply p_WinCmd.
  - unfold redirect_gateway_ipv4. well_tac; apply p_WinCmd.
Qed.

Lemma nocmd_redirect_gateway_ipv6 : quiet p (queued (redirect_gateway_ipv6 env tap pull)).
Proof. apply well_quiet. unfold redirect_gateway_ipv6. well_tac; apply p_WinCmd. Qed.

Lemma nocmd_dns_server indices ds : well p (dns_server env tap pull indices ds).
Proof. unfold dns_server, add_netsh_rules. well_tac; apply p_WinCmd. Qed.

Lemma nocmd_process_wins_servers : quiet p (queued (process_wins_servers env tap pull)).
Proof. apply well_quiet. unfold process_wins_servers, wins_server. well_tac; apply p_WinCmd. Qed.

Lemma nocmd_flush_dns : quiet p (queued flush_dns).
Proof. apply well_quiet. unfold flush_dns. well_tac; apply p_WinCmd. Qed.

End NoCommand.

(** ** The DNS server counters *)

Lemma of_nat_eqb_0 (n : nat) : (Z.of_nat n =? 0) = Nat.eqb n 0.
Proof. destruct n; reflexivity. Qed.

Section DnsLoop.

Variable env : Env.
Variable app : string.
Variable tap : TapNameGuidPair.t.
Variable pull : TunBuilderCapture.t.

Lemma dns_server_outcome (i4 i6 : Z) (ds : DNSServer.t) :
  fst (run (dns_server env tap pull (i4, i6) ds)) =
    Ret (if DNSServer.ipv6 ds && block_ipv6 pull then (i4, i6)
         else if DNSServer.ipv6 ds then (i4, i6 + 1) else (i4 + 1, i6)).
Proof.
  unfold dns_server.
  destruct (DNSServer.ipv6 ds && block_ipv6 pull); [reflexivity |].
  destruct (DNSServer.ipv6 ds); simpl fst; simpl snd;
    match goal with |- context [negb (?i =? 0)] => destruct (i =? 0) end;
    reflexivity.
Qed.

Lemma dns_loop_indices (l : list DNSServer.t) (i4 i6 : Z) :
  fst (run (for_each_with (dns_server env tap pull) l (i4, i6))) =
    Ret (i4 + Z.of_nat (count_dns (block_ipv6 pull) false l),
         i6 + Z.of_nat (count_dns (block_ipv6 pull) true l)).
Proof.
  revert i4 i6. induction l as [| ds l IH]; intros i4 i6.
  - simpl. unfold count_dns. simpl. now rewrite !Z.add_0_r.
  - simpl for_each_with.
    rewrite run_bind by auto using framed_dns_server, framed_for_each_with.
    rewrite dns_server_outcome. simpl fst.
    unfold count_dns, dns_added_in in *. simpl filter.
    destruct (DNSServer.ipv6 ds), (block_ipv6 pull); simpl;
      rewrite IH; f_equal; f_equal; lia.
Qed.

Lemma dns_indices_added :
  negb (fst (dns_indices pull) =? 0) || negb (snd (dns_indices pull) =? 0) = dns_added pull.
Proof. unfold dns_indices, dns_added. simpl. now rewrite !of_nat_eqb_0. Qed.

Lemma process_dns_servers_queued :
  queued (process_dns_servers env app tap pull) =
    queued (for_each_with (dns_server env tap pull) (dns_servers pull) (0, 0))
    +++ queued (nrpt_rules env pull (dns_indices pull))
    +++ queued (wfp_block env app tap (dns_indices pull)).
Proof.
  unfold process_dns_servers.
  rewrite queued_bind by auto 10 with framed.
  rewrite dns_loop_indices. fold (dns_count pull false) (dns_count pull true).
  rewrite !Z.add_0_l. fold (dns_indices pull).
  rewrite queued_bind by auto 10 with framed.
  pose proof (nrpt_rules_ret env pull (dns_indices pull)) as H.
  apply is_ret_unit in H. now rewrite H.
Qed.

End DnsLoop.

(** ** The NRPT and WFP actions of [adapter_config] *)

Section NoCommandWhole.

Variable p : Action -> bool.
Hypothesis p_WinCmd : forall cmd, p (WinCmd cmd) = false.
Hypothesis p_cleanup : forall i, p (ActionDeleteAllRoutesOnInterface i) = false.

Variable env : Env.
Variable th : HANDLE.
Variable app : string.
Variable tap : TapNameGuidPair.t.
Variable pull : TunBuilderCapture.t.

(** Actions that are neither commands nor the route cleanup are queued by
    the NRPT and WFP blocks only, which are reached when no exception is
    thrown before. *)
Lemma nocmd_adapter_config :
  let all := queued (adapter_config env th app tap pull) in
  let nrpt := queued (nrpt_rules env pull (dns_indices pull)) in
  let wfp := queued (wfp_block env app tap (dns_indices pull)) in
  filter p (Lists.create all)
  = (if is_ret (fst (run (adapter_config env th app tap pull)))
     then filter p (Lists.create nrpt) ++ filter p (Lists.create wfp) else [])
  /\ filter p (Lists.destroy all)
     = (if is_ret (fst (run (adapter_config env th app tap pull)))
        then filter p (Lists.destroy nrpt) ++ filter p (Lists.destroy wfp) else []).
Proof.
  intros all nrpt wfp. subst all nrpt wfp.
  destruct (nocmd_to_routes p p_WinCmd p_cleanup env th tap pull) as [Rc Rd].
  destruct (nocmd_redirect p p_WinCmd env tap pull) as [Xc Xd].
  destruct (nocmd_redirect_gateway_ipv6 p p_WinCmd env tap pull) as [Sc Sd].
  destruct (nocmd_process_wins_servers p p_WinCmd env tap pull) as [Wc Wd].
  destruct (nocmd_flush_dns p p_WinCmd) as [Fc Fd].
  assert (L : quiet p (queued (for_each_with (dns_server env tap pull)
                                 (dns_servers pull) (0, 0)))).
  { apply well_quiet, well_for_each_with. intros; now apply nocmd_dns_server. }
  destruct L as [Lc Ld].
  unfold queued at 1 4. rewrite adapter_config_run.
  destruct (routes_outcome pull) as [[] | e |]; cbn [fst snd is_ret];
    [destruct (redirect_outcome env pull) as [[] | e |]; cbn [fst snd is_ret] |..];
    rewrite ?create_app, ?destroy_app, ?filter_app, ?Rc, ?Rd, ?Xc, ?Xd; auto.
  unfold queued_rest. rewrite process_dns_servers_queued.
  rewrite !create_app, !destroy_app, !filter_app.
  rewrite Sc, Sd, Wc, Wd, Fc, Fd, Lc, Ld. cbn [List.app].
  now rewrite !app_nil_r.
Qed.

End NoCommandWhole.

(** C9, as the code has it.  [adapter_config] queues a leak-protection
    filter exactly when it runs to its end, the host is Windows 8 or greater,
    the application path is not empty and at least one DNS server was added
    (IPv6 servers are not added under [block_ipv6]).  Then the create list
    holds exactly one [ActionWFP], which blocks on the adapter's interface
    index for the application path, and the destroy list exactly one, which
    unblocks; otherwise neither list holds any. *)
Theorem leak_protection_filter (env : Env) (th : HANDLE) (app : string)
    (tap : TapNameGuidPair.t) (pull : TunBuilderCapture.t) :
  let all := queued (adapter_config env th app tap pull) in
  let queues_filter :=
    is_ret (fst (run (adapter_config env th app tap pull)))
    && (IsWindows8OrGreater env && negb (empty app) && dns_added pull) in
  filter is_wfp (Lists.create all)
  = (if queues_filter then [ActionWFP app (TapNameGuidPair.index tap) true] else [])
  /\ filter is_wfp (Lists.destroy all)
     = (if queues_filter then [ActionWFP app (TapNameGuidPair.index tap) false] else []).
Proof.
  intros all queues_filter. subst all queues_filter.
  destruct (nocmd_adapter_config is_wfp (fun _ => eq_refl) (fun _ => eq_refl)
              env th app tap pull) as [Hc Hd].
  rewrite Hc, Hd.
  destruct (is_ret (fst (run (adapter_config env th app tap pull)))); simpl; auto.
  unfold nrpt_rules, wfp_block. rewrite !dns_indices_added.
  destruct (use_nrpt env && dns_added pull);
    destruct (IsWindows8OrGreater env && negb (empty app) && dns_added pull);
    split; reflexivity.
Qed.

(** On Windows 8 with one DNS server configured but an empty application
    path, no leak-protection filter is queued. *)
Lemma no_filter_without_app_path :
  IsWindows8OrGreater example_env = true
  /\ dns_servers pull_dns4 = [DNSServer.mk "10.8.0.53" false]
  /\ adapter_config example_env 7 EmptyString example_tap pull_dns4 lists_nil
     = (Ret tt,
        Lists.mk
          [ ActionDeleteAllRoutesOnInterface 12;
            WinCmd "netsh interface ip set address 12 static 10.8.0.2 255.255.255.0 gateway=10.8.0.1 store=active";
            WinCmd "netsh interface ip set dnsservers 12 static 10.8.0.53 register=primary validate=no";
            NRPT_ActionCreate ["."] ["10.8.0.53"];
            WinCmd "ipconfig /flushdns" ]
          [ WinCmd "netsh interface ip delete address 12 10.8.0.2 gateway=all store=active";
            WinCmd "netsh interface ip delete dnsservers 12 all validate=no";
            NRPT_ActionDelete;
            WinCmd "ipconfig /flushdns" ]
          []
          [ tap_set_media_status 7 true;
            tap_configure_topology_subnet 7 "10.8.0.2" 24 ])
  /\ filter is_wfp
       (Lists.create (queued (adapter_config example_env 7 EmptyString example_tap pull_dns4)))
     = [].
Proof. repeat split. Qed.

(** ** The DNS suffix list *)

Lemma fold_push_search_domain (sds : list SearchDomain.t) (dsfx : list string) :
  fold_left push_search_domain sds dsfx = dsfx ++ normalized_search_domains sds.
Proof.
  revert dsfx. induction sds as [| sd sds IH]; intros dsfx.
  - simpl. now rewrite app_nil_r.
  - simpl fold_left. rewrite IH.
    unfold normalized_search_domains, push_search_domain. simpl map.
    destruct sd as [dom]. simpl SearchDomain.domain. simpl filter.
    unfold normalize_suffix.
    destruct (empty dom); simpl negb; cbn iota.
    + reflexivity.
    + rewrite <- app_assoc. simpl map.
      destruct (begins_with_dot dom); reflexivity.
Qed.

Lemma dns_suffix_list_eq (redir_dns4 redir_dns6 : bool) (sds : list SearchDomain.t) :
  dns_suffix_list redir_dns4 redir_dns6 sds =
    if redir_dns4 || redir_dns6 then ["."]
    else match normalized_search_domains sds with
         | [] => ["."]
         | dsfx => dsfx
         end.
Proof.
  unfold dns_suffix_list. rewrite fold_push_search_domain.
  destruct redir_dns4, redir_dns6; simpl; try reflexivity.
  destruct (normalized_search_domains sds); reflexivity.
Qed.

(** C7, as the code has it.  The NRPT rule is queued when [adapter_config]
    runs to its end on Windows 8 or greater with at least one DNS server
    added.  Its suffix list is the wildcard list when redirect-gateway is
    set for a family for which a DNS server was added; otherwise it is the
    list of the non-empty search domains, each normalized to begin with a
    dot, or the wildcard list when that list is empty.  For the search
    domain "example.com" it is [".example.com"], and without any search
    domain it is ["."]. *)
Theorem nrpt_suffix_list (env : Env) (th : HANDLE) (app : string)
    (tap : TapNameGuidPair.t) (pull : TunBuilderCapture.t) :
  let redir_dns4 :=
    RerouteGW.ipv4 (reroute_gw pull) && negb (Nat.eqb (dns_count pull false) 0) in
  let redir_dns6 :=
    RerouteGW.ipv6 (reroute_gw pull) && negb (Nat.eqb (dns_count pull true) 0) in
  let dsfx :=
    if redir_dns4 || redir_dns6 then ["."]
    else match normalized_search_domains (search_domains pull) with
         | [] => ["."]
         | dsfx => dsfx
         end in
  filter is_nrpt_create (Lists.create (queued (adapter_config env th app tap pull)))
  = (if is_ret (fst (run (adapter_config env th app tap pull)))
        && (IsWindows8OrGreater env && dns_added pull)
     then [NRPT_ActionCreate dsfx (map DNSServer.address (dns_servers pull))]
     else [])
  /\ dns_suffix_list false false [] = ["."]
  /\ dns_suffix_list false false [SearchDomain.mk "example.com"] = [".example.com"].
Proof.
  intros redir_dns4 redir_dns6 dsfx. subst redir_dns4 redir_dns6 dsfx.
  split; [| split; reflexivity].
  destruct (nocmd_adapter_config is_nrpt_create (fun _ => eq_refl) (fun _ => eq_refl)
              env th app tap pull) as [Hc _].
  rewrite Hc.
  destruct (is_ret (fst (run (adapter_config env th app tap pull)))); simpl; auto.
  unfold nrpt_rules, wfp_block, use_nrpt. rewrite !dns_indices_added.
  rewrite dns_suffix_list_eq. unfold dns_indices. simpl fst. simpl snd.
  rewrite !of_nat_eqb_0.
  destruct (IsWindows8OrGreater env && dns_added pull);
    destruct (IsWindows8OrGreater env && negb (empty app) && dns_added pull);
    reflexivity.
Qed.

(** With redirect-gateway set for IPv4 and only an IPv6 DNS server
    configured, the NRPT rule carries the search domain, not the wildcard. *)
Lemma redirect_ipv4_with_ipv6_dns_keeps_domains :
  RerouteGW.ipv4 (reroute_gw pull_redirect_dns6) = true
  /\ search_domains pull_redirect_dns6 = [SearchDomain.mk "example.com"]
  /\ Lists.create (queued (adapter_config example_env 7 "C:\openvpn.exe" example_tap
                             pull_redirect_dns6))
     = [ ActionDeleteAllRoutesOnInterface 12;
         WinCmd "netsh interface ip set address 12 static 10.8.0.2 255.255.255.0 gateway=10.8.0.1 store=active";
         WinCmd "netsh interface ip add route 203.0.113.10/32 5 192.168.1.1 store=active";
         WinCmd "netsh interface ip add route 0.0.0.0/1 12 10.8.0.1 store=active";
         WinCmd "netsh interface ip add route 128.0.0.0/1 12 10.8.0.1 store=active";
         WinCmd "netsh interface ipv6 set dnsservers 12 static 2001:db8::53 register=primary validate=no";
         NRPT_ActionCreate [".example.com"] ["2001:db8::53"];
         ActionWFP "C:\openvpn.exe" 12 true;
         WinCmd "ipconfig /flushdns" ]
  /\ ~ In (NRPT_ActionCreate ["."] ["2001:db8::53"])
          (Lists.create (queued (adapter_config example_env 7 "C:\openvpn.exe" example_tap
                                   pull_redirect_dns6))).
Proof.
  repeat split.
  intros H. vm_compute in H.
  repeat (destruct H as [H | H]; [discriminate H |]). exact H.
Qed.

(** ** Blocking IPv6 *)

Section BlockIPv6.

Variable env : Env.
Variable th : HANDLE.
Variable app : string.
Variable tap : TapNameGuidPair.t.
Variable pull : TunBuilderCapture.t.
Hypothesis blocked : block_ipv6 pull = true.










End BlockIPv6.





(** For contrast: the same pulled configuration without [block_ipv6] queues
    the IPv6 address, routes and DNS server of the tunnel. *)
Example ipv6_commands_when_not_blocked :
  filter is_netsh_ipv6
    (Lists.create (queued (adapter_config example_env 7 "C:\openvpn.exe" example_tap
                             pull_not_blocked)))
  = [ WinCmd "netsh interface ipv6 set address 12 fd00::2 store=active";
      WinCmd "netsh interface ipv6 add route fd00::1/64 12 fe80::8 store=active";
      WinCmd "netsh interface ipv6 add route 2001:db8:1::/48 12 fe80::8 store=active";
      WinCmd "netsh interface ipv6 add route 0::/1 12 fe80::8 store=active";
      WinCmd "netsh interface ipv6 add route 8000::/1 12 fe80::8 store=active";
      WinCmd "netsh interface ipv6 set dnsservers 12 static 2001:db8::53 register=primary validate=no" ].
Proof. reflexivity. Qed.

(** ** Counting create and destroy actions *)

Lemma surplus_app (a b : Lists.t) : surplus (a +++ b) = surplus a + surplus b.
Proof.
  unfold surplus. rewrite create_app, destroy_app, !length_app. lia.
Qed.

Lemma surplus_for_each {A : Type} (body : A -> M unit) (l : list A) :
  (forall x, framed (body x)) ->
  (forall x, surplus (queued (body x)) = 0) ->
  surplus (queued (for_each body l)) = 0.
Proof.
  intros Hf Hb. induction l as [| x l IH]; simpl for_each.
  - reflexivity.
  - rewrite queued_bind by auto using framed_for_each.
    destruct (fst (run (body x))); rewrite ?surplus_app, ?Hb, ?IH; auto.
Qed.

Lemma surplus_for_each_with {A S : Type} (body : S -> A -> M S) (l : list A) :
  (forall s x, framed (body s x)) ->
  (forall s x, surplus (queued (body s x)) = 0) ->
  forall s, surplus (queued (for_each_with body l s)) = 0.
Proof.
  intros Hf Hb. induction l as [| x l IH]; intros s; simpl for_each_with.
  - reflexivity.
  - rewrite queued_bind by auto using framed_for_each_with.
    destruct (fst (run (body s x))); rewrite ?surplus_app, ?Hb, ?IH; auto.
Qed.

Section Surplus.

Variable env : Env.
Variable th : HANDLE.
Variable app : string.
Variable tap : TapNameGuidPair.t.
Variable pull : TunBuilderCapture.t.

Lemma surplus_to_routes : surplus (queued_to_routes env th tap pull) = 1.
Proof.
  unfold queued_to_routes. rewrite !surplus_app.
  replace (surplus (queued (set_media_status th))) with 0 by reflexivity.
  replace (surplus (queued (delete_stale_routes tap))) with 1 by reflexivity.
  replace (surplus (queued (set_ipv4_interface env th tap pull))) with 0.
  2:{ unfold set_ipv4_interface. destruct (vpn_ipv4 pull) as [l4 |]; [| reflexivity].
      destruct (RouteAddress.net30 l4); reflexivity. }
  replace (surplus (queued (block_ipv6_routes pull))) with 0.
  2:{ unfold block_ipv6_routes. destruct (block_ipv6 pull); reflexivity. }
  replace (surplus (queued (set_ipv6_interface env tap pull))) with 0.
  2:{ unfold set_ipv6_interface. destruct (vpn_ipv6 pull); [| reflexivity].
      destruct (block_ipv6 pull); reflexivity. }
  replace (surplus (queued (process_routes env tap pull))) with 0; [reflexivity |].
  symmetry. apply surplus_for_each; [apply framed_add_route |].
  intros route. unfold add_route.
  destruct (Route.ipv6 route), (block_ipv6 pull), (vpn_ipv4 pull); reflexivity.
Qed.

Lemma surplus_redirect : surplus (queued_redirect env tap pull) = 0.
Proof.
  unfold queued_redirect. rewrite surplus_app.
  replace (surplus (queued (redirect_gateway_ipv4 env tap pull))) with 0.
  2:{ unfold redirect_gateway_ipv4.
      destruct (RerouteGW.ipv4 (reroute_gw pull)), (gw env),
        (RemoteAddress.ipv6 (remote_address pull)), (vpn_ipv4 pull); reflexivity. }
  rewrite Z.add_0_r.
  unfold process_exclude_routes.
  destruct (exclude_routes pull) as [| r l]; [reflexivity |].
  destruct (gw env) as [g |]; [| reflexivity].
  rewrite queued_bind.
  2:{ apply framed_for_each_with, framed_exclude_route. }
  2:{ intros; apply framed_when, framed_os_line. }
  assert (H : surplus (queued (for_each_with (exclude_route g) (r :: l) false)) = 0).
  { apply surplus_for_each_with; [apply framed_exclude_route |].
    intros s x. unfold exclude_route. destruct (Route.ipv6 x); reflexivity. }
  destruct (fst (run (for_each_with (exclude_route g) (r :: l) false))) as [[] | e |];
    rewrite ?surplus_app, H; reflexivity.
Qed.

Lemma surplus_dns_server (i4 i6 : Z) (ds : DNSServer.t) :
  surplus (queued (dns_server env tap pull (i4, i6) ds)) =
    if DNSServer.ipv6 ds && block_ipv6 pull then 0
    else if (if DNSServer.ipv6 ds then i6 else i4) =? 0 then 0 else 1.
Proof.
  unfold dns_server.
  destruct (DNSServer.ipv6 ds && block_ipv6 pull); [reflexivity |].
  destruct (DNSServer.ipv6 ds); simpl fst; simpl snd;
    match goal with |- context [negb (?i =? 0)] => destruct (i =? 0) end;
    reflexivity.
Qed.

Lemma surplus_dns_loop (l : list DNSServer.t) (i4 i6 : Z) :
  0 <= i4 -> 0 <= i6 ->
  surplus (queued (for_each_with (dns_server env tap pull) l (i4, i6))) =
    Z.of_nat (count_dns (block_ipv6 pull) false l) - primary i4 (count_dns (block_ipv6 pull) false l)
    + (Z.of_nat (count_dns (block_ipv6 pull) true l) - primary i6 (count_dns (block_ipv6 pull) true l)).
Proof.
  revert i4 i6. induction l as [| ds l IH]; intros i4 i6 H4 H6.
  - unfold primary, count_dns. simpl. rewrite !andb_false_r. reflexivity.
  - simpl for_each_with.
    rewrite queued_bind by auto using framed_dns_server, framed_for_each_with.
    rewrite dns_server_outcome, surplus_app, surplus_dns_server.
    unfold count_dns, dns_added_in in *. simpl filter.
    destruct (DNSServer.ipv6 ds), (block_ipv6 pull); cbn [andb negb Bool.eqb];
      cbn [List.length]; rewrite IH by lia; unfold primary.
    + lia.
    + rewrite Nat2Z.inj_succ. cbn [Nat.eqb negb]. rewrite andb_true_r.
      destruct (Z.eqb_spec i6 0); destruct (Z.eqb_spec (i6 + 1) 0);
        cbn [andb]; lia.
    + rewrite Nat2Z.inj_succ. cbn [Nat.eqb negb]. rewrite andb_true_r.
      destruct (Z.eqb_spec i4 0); destruct (Z.eqb_spec (i4 + 1) 0);
        cbn [andb]; lia.
    + rewrite Nat2Z.inj_succ. cbn [Nat.eqb negb]. rewrite andb_true_r.
      destruct (Z.eqb_spec i4 0); destruct (Z.eqb_spec (i4 + 1) 0);
        cbn [andb]; lia.
Qed.

Lemma primary_pred (n : nat) : Z.of_nat n - primary 0 n = Z.of_nat (Nat.pred n).
Proof. unfold primary. destruct n; cbn [Z.eqb Nat.eqb negb andb Nat.pred]; lia. Qed.

Lemma surplus_process_dns_servers :
  surplus (queued (process_dns_servers env app tap pull)) = Z.of_nat (secondary_dns pull).
Proof.
  rewrite process_dns_servers_queued, !surplus_app.
  rewrite surplus_dns_loop by lia.
  fold (dns_count pull false) (dns_count pull true).
  rewrite !primary_pred.
  replace (surplus (queued (nrpt_rules env pull (dns_indices pull)))) with 0.
  2:{ unfold nrpt_rules.
      match goal with |- context [when ?b _] => destruct b end; reflexivity. }
  replace (surplus (queued (wfp_block env app tap (dns_indices pull)))) with 0.
  2:{ unfold wfp_block.
      match goal with |- context [when ?b _] => destruct b end; reflexivity. }
  unfold secondary_dns. lia.
Qed.

Lemma wins_loop (l : list WINSServer.t) (i : Z) :
  0 <= i ->
  fst (run (for_each_with (wins_server env tap) l i)) = Ret (i + Z.of_nat (List.length l))
  /\ surplus (queued (for_each_with (wins_server env tap) l i))
     = Z.of_nat (List.length l) - primary i (List.length l).
Proof.
  revert i. induction l as [| ws l IH]; intros i Hi.
  - unfold primary. simpl. rewrite andb_false_r, Z.add_0_r. auto.
  - simpl for_each_with.
    rewrite run_bind, queued_bind by auto using framed_wins_server, framed_for_each_with.
    assert (Hw : fst (run (wins_server env tap i ws)) = Ret (i + 1))
      by (unfold wins_server; destruct (i =? 0); reflexivity).
    assert (Hs : surplus (queued (wins_server env tap i ws)) = if i =? 0 then 0 else 1)
      by (unfold wins_server; destruct (i =? 0); reflexivity).
    rewrite Hw, surplus_app, Hs. cbn [fst].
    destruct (IH (i + 1)) as [IH1 IH2]; [lia |].
    rewrite IH1, IH2. cbn [List.length]. rewrite Nat2Z.inj_succ. unfold primary.
    cbn [Nat.eqb negb]. rewrite andb_true_r.
    split; [f_equal; lia |].
    destruct (Z.eqb_spec i 0); destruct (Z.eqb_spec (i + 1) 0); cbn [andb]; lia.
Qed.

Lemma surplus_process_wins_servers :
  surplus (queued (process_wins_servers env tap pull)) = Z.of_nat (secondary_wins pull).
Proof.
  unfold process_wins_servers.
  rewrite queued_bind by auto using framed_wins_server, framed_for_each_with, framed_ret.
  destruct (wins_loop (wins_servers pull) 0) as [H1 H2]; [lia |].
  rewrite H1, surplus_app, H2, primary_pred. unfold secondary_wins.
  replace (surplus (queued (ret tt))) with 0 by reflexivity. lia.
Qed.

Lemma surplus_rest :
  surplus (queued_rest env app tap pull)
  = Z.of_nat (secondary_dns pull) + Z.of_nat (secondary_wins pull).
Proof.
  unfold queued_rest. rewrite !surplus_app.
  rewrite surplus_process_dns_servers, surplus_process_wins_servers.
  replace (surplus (queued flush_dns)) with 0 by reflexivity.
  replace (surplus (queued (redirect_gateway_ipv6 env tap pull))) with 0; [lia |].
  unfold redirect_gateway_ipv6.
  destruct (RerouteGW.ipv6 (reroute_gw pull) && negb (block_ipv6 pull)); reflexivity.
Qed.

End Surplus.

(** ** Create actions and their destroy actions *)

(** A create action that is reversed is none of those queued without a
    destroy action. *)
Lemma reverses_not_unreversed (c d : Action) : reverses d c -> unreversed c -> False.
Proof.
  intros Hr Hu. destruct Hr; inversion Hu; subst.
  all: try (destruct v6; destruct vista; discriminate).
  all: try (destruct v6, vista; destruct v0, vista0; discriminate).
  all: try discriminate.
Qed.

Lemma paired_lists_app a b a' b' :
  paired_lists a b -> paired_lists a' b' -> paired_lists (a ++ a') (b ++ b').
Proof.
  intros H H'. induction H; simpl; auto.
  - now apply paired_both.
  - now apply paired_single.
Qed.

Lemma paired_app (a b : Lists.t) : paired a -> paired b -> paired (a +++ b).
Proof.
  unfold paired. rewrite create_app, destroy_app. apply paired_lists_app.
Qed.

Lemma pairing_ret {A : Type} (a : A) : pairing (ret a).
Proof. split; [apply framed_ret | apply paired_nil]. Qed.

Lemma pairing_throw {A : Type} (e : exn) : pairing (@throw A e).
Proof. split; [apply framed_throw | apply paired_nil]. Qed.

Lemma pairing_deref {A : Type} (o : option A) : pairing (deref o).
Proof. split; [apply framed_deref | destruct o; apply paired_nil]. Qed.

Lemma pairing_os_line (line : string) : pairing (os_line line).
Proof. split; [apply framed_os_line | apply paired_nil]. Qed.

Lemma pairing_ioctl (c : TapIoctl) : pairing (ioctl c).
Proof. split; [apply framed_ioctl | apply paired_nil]. Qed.

Lemma pairing_single (c : Action) : unreversed c -> pairing (create_add c).
Proof.
  intros H. split; [apply framed_create_add |].
  apply paired_single; [assumption | apply paired_nil].
Qed.

Lemma pairing_bind {A B : Type} (m : M A) (f : A -> M B) :
  pairing m -> (forall a, pairing (f a)) -> pairing (bind m f).
Proof.
  intros [Fm Qm] Hf. split.
  - apply framed_bind; [assumption | intros a; apply Hf].
  - rewrite queued_bind; [| assumption | intros a; apply Hf].
    destruct (fst (run m)) as [a | e |]; auto.
    apply paired_app; [assumption | apply Hf].
Qed.

Lemma pairing_pair (c d : Action) :
  reverses d c -> pairing (create_add c ;; destroy_add d).
Proof.
  intros H. split.
  - apply framed_bind; [apply framed_create_add | intros; apply framed_destroy_add].
  - apply paired_both; [assumption | apply paired_nil].
Qed.

Lemma pairing_pair_then {B : Type} (c d : Action) (k : M B) :
  reverses d c -> pairing k -> pairing (create_add c ;; destroy_add d ;; k).
Proof.
  intros H [Fk Qk]. split.
  - apply framed_bind; [apply framed_create_add | intros _].
    apply framed_bind; [apply framed_destroy_add | intros _; assumption].
  - unfold paired, queued, run.
    unfold bind, create_add, destroy_add, lists_nil.
    cbn [Lists.create Lists.destroy Lists.os Lists.tap_io List.app].
    rewrite (Fk (Lists.mk [c] [d] [] [])). cbn [snd].
    rewrite create_app, destroy_app.
    apply paired_both; assumption.
Qed.

Lemma pairing_when (b : bool) (m : M unit) : pairing m -> pairing (when b m).
Proof. destruct b; simpl; auto using pairing_ret. Qed.

Lemma pairing_for_each {A : Type} (body : A -> M unit) (l : list A) :
  (forall x, pairing (body x)) -> pairing (for_each body l).
Proof.
  intros Hb. induction l as [| x l IH]; simpl.
  - apply pairing_ret.
  - apply pairing_bind; auto.
Qed.

Lemma pairing_for_each_with {A S : Type} (body : S -> A -> M S) (l : list A) (s : S) :
  (forall s x, pairing (body s x)) -> pairing (for_each_with body l s).
Proof.
  intros Hb. revert s. induction l as [| x l IH]; intros s; simpl.
  - apply pairing_ret.
  - apply pairing_bind; auto.
Qed.

(** Splits a [pairing] goal along the structure of the program. *)
Ltac pairing_tac :=
  repeat
    (intros;
     match goal with
     | |- pairing (if ?b then _ else _) => destruct b
     | |- pairing (match ?x with _ => _ end) => destruct x
     | |- pairing _ => first
         [ apply pairing_ret | apply pairing_throw | apply pairing_deref
         | apply pairing_os_line | apply pairing_ioctl
         | apply pairing_pair_then | apply pairing_pair | apply pairing_single
         | apply pairing_bind | apply pairing_when
         | apply pairing_for_each | apply pairing_for_each_with ]
     | |- reverses _ _ => constructor
     | |- unreversed _ => constructor
     end).

Section Pairing.

Variable env : Env.
Variable th : HANDLE.
Variable app : string.
Variable tap : TapNameGuidPair.t.
Variable pull : TunBuilderCapture.t.

Lemma pairing_set_ipv4_interface : pairing (set_ipv4_interface env th tap pull).
Proof. unfold set_ipv4_interface. pairing_tac. Qed.

Lemma pairing_block_ipv6_routes : pairing (block_ipv6_routes pull).
Proof. unfold block_ipv6_routes. pairing_tac. Qed.

Lemma pairing_set_ipv6_interface : pairing (set_ipv6_interface env tap pull).
Proof. unfold set_ipv6_interface. pairing_tac. Qed.

Lemma pairing_process_routes : pairing (process_routes env tap pull).
Proof. unfold process_routes, add_route. pairing_tac. Qed.

Lemma pairing_process_exclude_routes : pairing (process_exclude_routes env pull).
Proof. unfold process_exclude_routes, exclude_route. pairing_tac. Qed.

Lemma pairing_redirect_gateway_ipv4 : pairing (redirect_gateway_ipv4 env tap pull).
Proof.
  split; [apply framed_redirect_gateway_ipv4 |].
  unfold paired, redirect_gateway_ipv4.
  destruct (RerouteGW.ipv4 (reroute_gw pull)), (gw env),
    (RemoteAddress.ipv6 (remote_address pull)), (vpn_ipv4 pull);
    cbv [queued run bind ret when negb create_add destroy_add deref throw
         Lists.create Lists.destroy lists_nil fst snd List.app];
    repeat first [apply paired_nil | apply paired_both; [constructor |]].
Qed.

Lemma pairing_redirect_gateway_ipv6 : pairing (redirect_gateway_ipv6 env tap pull).
Proof.
  split; [apply framed_redirect_gateway_ipv6 |].
  unfold paired, redirect_gateway_ipv6.
  destruct (RerouteGW.ipv6 (reroute_gw pull) && negb (block_ipv6 pull));
    cbv [queued run bind ret when create_add destroy_add
         Lists.create Lists.destroy lists_nil fst snd List.app];
    repeat first [apply paired_nil | apply paired_both; [constructor |]].
Qed.

Lemma pairing_dns_server indices ds : pairing (dns_server env tap pull indices ds).
Proof.
  unfold dns_server.
  destruct (DNSServer.ipv6 ds && block_ipv6 pull); [apply pairing_ret |].
  apply pairing_bind; [| intros; apply pairing_ret].
  apply pairing_when.
  match goal with |- pairing (if ?b then _ else _) => destruct b end.
  - apply pairing_single.
    apply (unreversed_dns (DNSServer.ipv6 ds) (vista_only env)).
  - apply pairing_pair.
    apply (reverses_dns (DNSServer.ipv6 ds) (vista_only env)).
Qed.

Lemma pairing_process_dns_servers : pairing (process_dns_servers env app tap pull).
Proof.
  unfold process_dns_servers.
  apply pairing_bind; [apply pairing_for_each_with, pairing_dns_server |].
  intros indices. unfold nrpt_rules, wfp_block. pairing_tac.
Qed.

Lemma pairing_process_wins_servers : pairing (process_wins_servers env tap pull).
Proof. unfold process_wins_servers, wins_server. pairing_tac. Qed.

Lemma pairing_adapter_config : pairing (adapter_config env th app tap pull).
Proof.
  unfold adapter_config.
  apply pairing_bind; [apply pairing_ioctl | intros _].
  apply pairing_bind; [apply pairing_single; constructor | intros _].
  apply pairing_bind; [apply pairing_set_ipv4_interface | intros _].
  apply pairing_bind; [apply pairing_block_ipv6_routes | intros _].
  apply pairing_bind; [apply pairing_set_ipv6_interface | intros _].
  apply pairing_bind; [apply pairing_process_routes | intros _].
  apply pairing_bind; [apply pairing_process_exclude_routes | intros _].
  apply pairing_bind; [apply pairing_redirect_gateway_ipv4 | intros _].
  apply pairing_bind; [apply pairing_redirect_gateway_ipv6 | intros _].
  apply pairing_bind; [apply pairing_process_dns_servers | intros _].
  apply pairing_bind; [apply pairing_process_wins_servers | intros _].
  apply pairing_pair. constructor.
Qed.

End Pairing.

(** C1, as the code has it.  Whatever the outcome of [adapter_config], the
    destroy list holds, in the order of the create list, exactly one action
    for every create action but the stale-route cleanup and the DNS and WINS
    servers that are added by index after the first one, and that action
    reverses its create action: it deletes the address or the route that was
    set or added, deletes all DNS or WINS servers of the adapter for the
    command that set the first one, deletes the NRPT rule, switches the
    filter off, flushes the DNS cache again.  The create list begins with the
    stale-route cleanup.  When [adapter_config] runs to its end, the create
    list holds as many actions as the destroy list plus the cleanup, the DNS
    servers added after the first one of their family and the WINS servers
    after the first one: those have no destroy action of their own, the
    single deletion queued with the first server removes them. *)
Theorem create_destroy_count (env : Env) (th : HANDLE) (app : string)
    (tap : TapNameGuidPair.t) (pull : TunBuilderCapture.t) :
  let all := queued (adapter_config env th app tap pull) in
  paired_lists (Lists.create all) (Lists.destroy all)
  /\ hd_error (Lists.create all)
     = Some (ActionDeleteAllRoutesOnInterface (TapNameGuidPair.index tap))
  /\ (fst (run (adapter_config env th app tap pull)) = Ret tt ->
      List.length (Lists.create all)
      = (1 + List.length (Lists.destroy all) + secondary_dns pull + secondary_wins pull)%nat).
Proof.
  intros all. subst all. split; [| split].
  - apply pairing_adapter_config.
  - unfold queued. rewrite adapter_config_run.
    destruct (routes_outcome pull) as [[] | e |];
      [destruct (redirect_outcome env pull) as [[] | e |] |..]; reflexivity.
  - intros Hret.
    pose proof (surplus_to_routes env th tap pull) as S1.
    pose proof (surplus_redirect env tap pull) as S2.
    pose proof (surplus_rest env app tap pull) as S3.
    revert Hret. unfold queued. rewrite adapter_config_run.
    destruct (routes_outcome pull) as [[] | e |]; try discriminate.
    destruct (redirect_outcome env pull) as [[] | e |]; try discriminate.
    intros _. cbn [fst snd].
    assert (S : surplus (queued_to_routes env th tap pull
                         +++ queued_redirect env tap pull
                         +++ queued_rest env app tap pull)
                = 1 + Z.of_nat (secondary_dns pull) + Z.of_nat (secondary_wins pull))
      by (rewrite !surplus_app; lia).
    unfold surplus in S. lia.
Qed.

Lemma create_destroy_count_witness :
  fst (run (adapter_config example_env 7 "C:\openvpn.exe" example_tap pull_many_servers))
  = Ret tt
  /\ List.length
       (Lists.create (queued (adapter_config example_env 7 "C:\openvpn.exe" example_tap
                                pull_many_servers)))
     = (1 + List.length
              (Lists.destroy (queued (adapter_config example_env 7%Z "C:\openvpn.exe"
                                        example_tap pull_many_servers)))
        + 2 + 2)%nat.
Proof.
  split; [reflexivity |].
  exact (proj2 (proj2 (create_destroy_count example_env 7 "C:\openvpn.exe" example_tap
                         pull_many_servers)) eq_refl).
Defined.

(** With two WINS servers the create list holds four actions besides the
    stale-route cleanup and the destroy list three: the second server is
    added without a destroy action of its own. *)
Lemma second_wins_server_has_no_destroy :
  adapter_config example_env 7 "C:\openvpn.exe" example_tap pull_wins2 lists_nil
  = (Ret tt,
     Lists.mk
       [ ActionDeleteAllRoutesOnInterface 12;
         WinCmd "netsh interface ip set address 12 static 10.8.0.2 255.255.255.0 gateway=10.8.0.1 store=active";
         WinCmd "netsh interface ip set winsservers 12 static 10.8.0.60";
         WinCmd "netsh interface ip add winsservers 12 10.8.0.61 2";
         WinCmd "ipconfig /flushdns" ]
       [ WinCmd "netsh interface ip delete address 12 10.8.0.2 gateway=all store=active";
         WinCmd "netsh interface ip delete winsservers 12 all";
         WinCmd "ipconfig /flushdns" ]
       []
       [ tap_set_media_status 7 true;
         tap_configure_topology_subnet 7 "10.8.0.2" 24 ])
  /\ List.length
       (tl (Lists.create (queued (adapter_config example_env 7 "C:\openvpn.exe"
                                    example_tap pull_wins2))))
     <> List.length
          (Lists.destroy (queued (adapter_config example_env 7 "C:\openvpn.exe"
                                    example_tap pull_wins2))).
Proof. split; [reflexivity | vm_compute; discriminate]. Qed.

(** * Further properties of [adapter_config] *)

(** X1.  [adapter_config] only appends: started on any lists, stream and
    device log, it has the outcome it has on empty ones, and it leaves what
    was there in place, followed by what it queues on its own.  It never
    removes, reorders or depends on an earlier entry. *)
Theorem adapter_config_appends (env : Env) (th : HANDLE) (app : string)
    (tap : TapNameGuidPair.t) (pull : TunBuilderCapture.t) (st : Lists.t) :
  let r := adapter_config env th app tap pull st in
  let q := queued (adapter_config env th app tap pull) in
  fst r = fst (run (adapter_config env th app tap pull))
  /\ Lists.create (snd r) = Lists.create st ++ Lists.create q
  /\ Lists.destroy (snd r) = Lists.destroy st ++ Lists.destroy q
  /\ Lists.os (snd r) = Lists.os st ++ Lists.os q
  /\ Lists.tap_io (snd r) = Lists.tap_io st ++ Lists.tap_io q.
Proof.
  intros r q. subst r q.
  rewrite (framed_adapter_config env th app tap pull st).
  repeat split.
Qed.

(** X2.  The outcomes of [adapter_config].  It returns exactly when no IPv4
    route is pushed without an IPv4 route configuration and redirect-gateway
    for IPv4 comes with both a default gateway and an IPv4 route
    configuration.  The only exceptions it throws are the two
    [tun_win_setup] errors, and the missing ifconfig is reported before the
    missing gateway when both apply. *)
Theorem adapter_config_outcomes (env : Env) (th : HANDLE) (app : string)
    (tap : TapNameGuidPair.t) (pull : TunBuilderCapture.t) :
  let o := fst (run (adapter_config env th app tap pull)) in
  (o = Ret tt <->
     (vpn_ipv4 pull = None ->
        has_ipv4_route (add_routes pull) = false
        /\ RerouteGW.ipv4 (reroute_gw pull) = false)
     /\ (RerouteGW.ipv4 (reroute_gw pull) = true -> gw env <> None))
  /\ (o = Throw missing_ifconfig <->
        vpn_ipv4 pull = None /\ has_ipv4_route (add_routes pull) = true)
  /\ (o = Throw gateway_detection <->
        RerouteGW.ipv4 (reroute_gw pull) = true /\ gw env = None
        /\ (vpn_ipv4 pull = None -> has_ipv4_route (add_routes pull) = false))
  /\ (forall e, o = Throw e -> e = missing_ifconfig \/ e = gateway_detection).
Proof.
  intros o. subst o. rewrite adapter_config_run.
  unfold routes_outcome, redirect_outcome.
  assert (Hne : missing_ifconfig <> gateway_detection) by discriminate.
  destruct (vpn_ipv4 pull) as [l4 |], (has_ipv4_route (add_routes pull)),
    (RerouteGW.ipv4 (reroute_gw pull)), (gw env) as [g |]; cbn [fst];
    repeat split; intros;
    try match goal with
        | H : Throw _ = Throw ?e |- ?e = _ \/ _ => injection H as <-
        end;
    solve [ intuition (try congruence; try discriminate)
          | left; reflexivity | right; reflexivity ].
Qed.

(** ** Exclude routes *)

Lemma exclude_route_run (g : DefaultGateway.t) (ipv6_error : bool) (route : Route.t) :
  run (exclude_route g ipv6_error route) =
    if Route.ipv6 route then (Ret true, lists_nil)
    else (Ret ipv6_error,
          Lists.mk [exclude_cmd g "add" route] [exclude_cmd g "delete" route] [] []).
Proof. unfold exclude_route. destruct (Route.ipv6 route); reflexivity. Qed.

Lemma exclude_loop (g : DefaultGateway.t) (l : list Route.t) (ipv6_error : bool) :
  let r := run (for_each_with (exclude_route g) l ipv6_error) in
  fst r = Ret (ipv6_error || existsb Route.ipv6 l)
  /\ Lists.create (snd r)
     = map (exclude_cmd g "add") (filter (fun route => negb (Route.ipv6 route)) l)
  /\ Lists.destroy (snd r)
     = map (exclude_cmd g "delete") (filter (fun route => negb (Route.ipv6 route)) l)
  /\ Lists.os (snd r) = [].
Proof.
  revert ipv6_error. induction l as [| route l IH]; intros ipv6_error.
  - simpl. rewrite orb_false_r. auto.
  - cbn zeta. simpl for_each_with.
    rewrite run_bind by auto using framed_exclude_route, framed_for_each_with.
    rewrite exclude_route_run. simpl existsb. simpl filter.
    destruct (Route.ipv6 route); cbn [negb fst snd].
    + destruct (IH true) as [I1 [I2 [I3 I4]]].
      rewrite lists_app_nil_l, I1, I2, I3, I4, orb_true_r. auto.
    + destruct (IH ipv6_error) as [I1 [I2 [I3 I4]]].
      rewrite I1, create_app, destroy_app, I2, I3.
      change (Lists.os (?a +++ ?b)) with (Lists.os a ++ Lists.os b).
      rewrite I4. repeat split.
Qed.

(** X3.  The exclude-routes block never fails.  With a default gateway it
    queues, for each IPv4 route to exclude and in their order, one route
    through the interface and address of the default gateway and its
    deletion; IPv6 routes to exclude are skipped, and a single note is
    written when there is any.  Without a default gateway it queues nothing
    and writes a note, provided there is a route to exclude at all. *)
Theorem exclude_routes_queued (env : Env) (pull : TunBuilderCapture.t) :
  let q := queued (process_exclude_routes env pull) in
  let ipv4_excludes :=
    filter (fun route => negb (Route.ipv6 route)) (exclude_routes pull) in
  fst (run (process_exclude_routes env pull)) = Ret tt
  /\ Lists.create q
     = match gw env with
       | Some g => map (exclude_cmd g "add") ipv4_excludes
       | None => []
       end
  /\ Lists.destroy q
     = match gw env with
       | Some g => map (exclude_cmd g "delete") ipv4_excludes
       | None => []
       end
  /\ Lists.os q = exclude_notes env pull.
Proof.
  intros q ipv4_excludes. subst q ipv4_excludes.
  split; [apply process_exclude_routes_ret |].
  unfold queued, process_exclude_routes, exclude_notes.
  destruct (exclude_routes pull) as [| route l] eqn:E.
  - destruct (gw env); repeat split.
  - destruct (gw env) as [g |]; [| repeat split].
    rewrite run_bind.
    2:{ apply framed_for_each_with, framed_exclude_route. }
    2:{ intros; apply framed_when, framed_os_line. }
    destruct (exclude_loop g (route :: l) false) as [I1 [I2 [I3 I4]]].
    rewrite I1. cbn [fst snd orb].
    rewrite create_app, destroy_app.
    change (Lists.os (?a +++ ?b)) with (Lists.os a ++ Lists.os b).
    rewrite I2, I3, I4.
    destruct (existsb Route.ipv6 (route :: l)); cbn [when];
      cbn [run os_line ret Lists.create Lists.destroy Lists.os fst snd lists_nil];
      rewrite ?app_nil_r; repeat split.
Qed.

(** ** Components of the lists that a block leaves alone *)

Section Mute.

Context {X : Type}.
Variable proj : Lists.t -> list X.
Hypothesis proj_nil : proj lists_nil = [].
Hypothesis proj_app : forall a b, proj (a +++ b) = proj a ++ proj b.

Lemma mute_ret {A : Type} (a : A) : mute proj (ret a).
Proof. split; [apply framed_ret | exact proj_nil]. Qed.

Lemma mute_throw {A : Type} (e : exn) : mute proj (@throw A e).
Proof. split; [apply framed_throw | exact proj_nil]. Qed.

Lemma mute_deref {A : Type} (o : option A) : mute proj (deref o).
Proof. split; [apply framed_deref | destruct o; exact proj_nil]. Qed.

Lemma mute_bind {A B : Type} (m : M A) (f : A -> M B) :
  mute proj m -> (forall a, mute proj (f a)) -> mute proj (bind m f).
Proof.
  intros [Fm Qm] Hf. split.
  - apply framed_bind; [assumption | intros a; apply Hf].
  - rewrite queued_bind; [| assumption | intros a; apply Hf].
    destruct (fst (run m)) as [a | e |]; auto.
    rewrite proj_app, Qm. apply (Hf a).
Qed.

Lemma mute_when (b : bool) (m : M unit) : mute proj m -> mute proj (when b m).
Proof. destruct b; simpl; auto using mute_ret. Qed.

Lemma mute_for_each {A : Type} (body : A -> M unit) (l : list A) :
  (forall x, mute proj (body x)) -> mute proj (for_each body l).
Proof.
  intros Hb. induction l as [| x l IH]; simpl.
  - apply mute_ret.
  - apply mute_bind; auto.
Qed.

Lemma mute_for_each_with {A S : Type} (body : S -> A -> M S) (l : list A) (s : S) :
  (forall s x, mute proj (body s x)) -> mute proj (for_each_with body l s).
Proof.
  intros Hb. revert s. induction l as [| x l IH]; intros s; simpl.
  - apply mute_ret.
  - apply mute_bind; auto.
Qed.

End Mute.

Lemma tap_io_app (a b : Lists.t) :
  Lists.tap_io (a +++ b) = Lists.tap_io a ++ Lists.tap_io b.
Proof. reflexivity. Qed.

Lemma os_app (a b : Lists.t) : Lists.os (a +++ b) = Lists.os a ++ Lists.os b.
Proof. reflexivity. Qed.

(** Splits a [mute] goal along the structure of the program; the statements
    that write to another component are closed by computation. *)
Ltac mute_tac :=
  repeat
    (intros;
     match goal with
     | |- mute _ (if ?b then _ else _) => destruct b
     | |- mute _ (match ?x with _ => _ end) => destruct x
     | |- mute _ (bind _ _) => apply mute_bind
     | |- mute _ (when _ _) => apply mute_when
     | |- mute _ (for_each _ _) => apply mute_for_each
     | |- mute _ (for_each_with _ _ _) => apply mute_for_each_with
     | |- mute _ (ret _) => apply mute_ret
     | |- mute _ (throw _) => apply mute_throw
     | |- mute _ (deref _) => apply mute_deref
     | |- mute _ (create_add _) => split; [apply framed_create_add |]
     | |- mute _ (destroy_add _) => split; [apply framed_destroy_add |]
     | |- mute _ (os_line _) => split; [apply framed_os_line |]
     | |- mute _ (ioctl _) => split; [apply framed_ioctl |]
     | |- _ = _ => reflexivity
     | |- forall _, _ = _ => reflexivity
     end).

Section MuteBlocks.

Variable env : Env.
Variable th : HANDLE.
Variable app : string.
Variable tap : TapNameGuidPair.t.
Variable pull : TunBuilderCapture.t.

Lemma tap_io_to_routes :
  Lists.tap_io (queued_to_routes env th tap pull)
  = tap_set_media_status th true
    :: match vpn_ipv4 pull with
       | Some local4 => [topology_ioctl th local4]
       | None => []
       end.
Proof.
  assert (H4 : mute Lists.tap_io (block_ipv6_routes pull))
    by (unfold block_ipv6_routes; mute_tac).
  assert (H5 : mute Lists.tap_io (set_ipv6_interface env tap pull))
    by (unfold set_ipv6_interface; mute_tac).
  assert (H6 : mute Lists.tap_io (process_routes env tap pull))
    by (unfold process_routes, add_route; mute_tac).
  unfold queued_to_routes. rewrite !tap_io_app.
  rewrite (proj2 H4), (proj2 H5), (proj2 H6).
  unfold set_ipv4_interface, topology_ioctl.
  destruct (vpn_ipv4 pull) as [l4 |]; [| reflexivity].
  destruct (RouteAddress.net30 l4); reflexivity.
Qed.

Lemma tap_io_redirect : Lists.tap_io (queued_redirect env tap pull) = [].
Proof.
  assert (H1 : mute Lists.tap_io (process_exclude_routes env pull))
    by (unfold process_exclude_routes, exclude_route; mute_tac).
  assert (H2 : mute Lists.tap_io (redirect_gateway_ipv4 env tap pull))
    by (unfold redirect_gateway_ipv4; mute_tac).
  unfold queued_redirect. rewrite tap_io_app, (proj2 H1), (proj2 H2). reflexivity.
Qed.

Lemma mute_rest (X : Type) (proj : Lists.t -> list X) :
  proj lists_nil = [] ->
  (forall a b, proj (a +++ b) = proj a ++ proj b) ->
  (forall a, proj (queued (create_add a)) = []) ->
  (forall a, proj (queued (destroy_add a)) = []) ->
  proj (queued_rest env app tap pull) = [].
Proof.
  intros Hnil Happ Hc Hd.
  assert (C : forall a, mute proj (create_add a))
    by (intros a; split; [apply framed_create_add | apply Hc]).
  assert (D : forall a, mute proj (destroy_add a))
    by (intros a; split; [apply framed_destroy_add | apply Hd]).
  assert (B : forall (A B : Type) (m : M A) (f : A -> M B),
             mute proj m -> (forall a, mute proj (f a)) -> mute proj (bind m f))
    by (intros; now apply mute_bind).
  assert (R : forall (A : Type) (a : A), mute proj (ret a))
    by (intros; now apply mute_ret).
  assert (W : forall b m, mute proj m -> mute proj (when b m))
    by (intros; now apply mute_when).
  assert (H1 : mute proj (redirect_gateway_ipv6 env tap pull)).
  { unfold redirect_gateway_ipv6. apply W. repeat (apply B; intros); auto. }
  assert (H2 : mute proj (process_dns_servers env app tap pull)).
  { unfold process_dns_servers. apply B.
    - apply mute_for_each_with; auto. intros s x. unfold dns_server.
      destruct (DNSServer.ipv6 x && block_ipv6 pull); auto.
      apply B; intros; auto. apply W.
      match goal with |- mute _ (if ?b then _ else _) => destruct b end; auto.
    - intros indices. apply B; intros.
      + unfold nrpt_rules. apply W. auto.
      + unfold wfp_block. apply W. auto. }
  assert (H3 : mute proj (process_wins_servers env tap pull)).
  { unfold process_wins_servers. apply B; intros; auto.
    apply mute_for_each_with; auto. intros s x. unfold wins_server.
    apply B; intros; auto. destruct (negb (s =? 0)); auto. }
  assert (H4 : mute proj flush_dns) by (unfold flush_dns; auto).
  unfold queued_rest. rewrite !Happ.
  rewrite (proj2 H1), (proj2 H2), (proj2 H3), (proj2 H4). reflexivity.
Qed.

Lemma os_to_routes : Lists.os (queued_to_routes env th tap pull) = [].
Proof.
  assert (H3 : mute Lists.os (set_ipv4_interface env th tap pull))
    by (unfold set_ipv4_interface; mute_tac).
  assert (H4 : mute Lists.os (block_ipv6_routes pull))
    by (unfold block_ipv6_routes; mute_tac).
  assert (H5 : mute Lists.os (set_ipv6_interface env tap pull))
    by (unfold set_ipv6_interface; mute_tac).
  assert (H6 : mute Lists.os (process_routes env tap pull))
    by (unfold process_routes, add_route; mute_tac).
  unfold queued_to_routes. rewrite !os_app.
  rewrite (proj2 H3), (proj2 H4), (proj2 H5), (proj2 H6). reflexivity.
Qed.

Lemma os_redirect_gateway_ipv4 :
  Lists.os (queued (redirect_gateway_ipv4 env tap pull)) = [].
Proof.
  assert (H : mute Lists.os (redirect_gateway_ipv4 env tap pull))
    by (unfold redirect_gateway_ipv4; mute_tac).
  exact (proj2 H).
Qed.

End MuteBlocks.

Lemma os_process_exclude_routes (env : Env) (pull : TunBuilderCapture.t) :
  Lists.os (queued (process_exclude_routes env pull)) = exclude_notes env pull.
Proof.
  unfold queued, process_exclude_routes, exclude_notes.
  destruct (exclude_routes pull) as [| route l]; [reflexivity |].
  destruct (gw env) as [g |]; [| reflexivity].
  rewrite run_bind.
  2:{ apply framed_for_each_with, framed_exclude_route. }
  2:{ intros; apply framed_when, framed_os_line. }
  destruct (exclude_loop g (route :: l) false) as [I1 [_ [_ I4]]].
  rewrite I1. cbn [fst snd orb]. rewrite os_app, I4.
  destruct (existsb Route.ipv6 (route :: l)); reflexivity.
Qed.

(** X4.  The device controls of [adapter_config].  Whatever its outcome, it
    sets the media status of the TAP adapter to connected first and then, when
    an IPv4 route configuration was pulled, configures the topology once --
    net30 or subnet as the configuration says, with its address and prefix
    length; it issues no other device control. *)
Theorem adapter_config_device_controls (env : Env) (th : HANDLE) (app : string)
    (tap : TapNameGuidPair.t) (pull : TunBuilderCapture.t) :
  Lists.tap_io (queued (adapter_config env th app tap pull))
  = tap_set_media_status th true
    :: match vpn_ipv4 pull with
       | Some local4 =>
           [ if RouteAddress.net30 local4
             then tap_configure_topology_net30 th (RouteAddress.address local4)
                    (RouteAddress.prefix_length local4)
             else tap_configure_topology_subnet th (RouteAddress.address local4)
                    (RouteAddress.prefix_length local4) ]
       | None => []
       end.
Proof.
  pose proof (tap_io_to_routes env th tap pull) as H1.
  pose proof (tap_io_redirect env tap pull) as H2.
  assert (H3 : Lists.tap_io (queued_rest env app tap pull) = [])
    by (apply mute_rest; reflexivity).
  unfold topology_ioctl in H1.
  unfold queued. rewrite adapter_config_run.
  destruct (routes_outcome pull) as [[] | e |]; cbn [fst snd];
    [destruct (redirect_outcome env pull) as [[] | e |]; cbn [fst snd] |..];
    rewrite ?tap_io_app, ?H1, ?H2, ?H3, ?app_nil_r; reflexivity.
Qed.

(** X5.  What [adapter_config] writes to the stream.  Its only output are
    the notes of the exclude-routes block: that IPv6 routes to exclude are not
    supported, or that the routes to exclude are dropped for lack of a default
    gateway.  Nothing is written when the loop over the routes to add has
    thrown before, and nothing announces the actions that are queued. *)
Theorem adapter_config_stream (env : Env) (th : HANDLE) (app : string)
    (tap : TapNameGuidPair.t) (pull : TunBuilderCapture.t) :
  Lists.os (queued (adapter_config env th app tap pull))
  = match vpn_ipv4 pull, has_ipv4_route (add_routes pull) with
    | None, true => []
    | _, _ =>
        match exclude_routes pull with
        | [] => []
        | _ :: _ =>
            match gw env with
            | Some _ =>
                if existsb Route.ipv6 (exclude_routes pull)
                then ["NOTE: exclude IPv6 routes not currently supported"]
                else []
            | None => ["NOTE: exclude routes error: cannot detect default gateway"]
            end
        end
    end.
Proof.
  pose proof (os_to_routes env th tap pull) as H1.
  pose proof (os_process_exclude_routes env pull) as H2.
  pose proof (os_redirect_gateway_ipv4 env tap pull) as H3.
  assert (H4 : Lists.os (queued_rest env app tap pull) = [])
    by (apply mute_rest; reflexivity).
  unfold exclude_notes in H2.
  unfold queued at 1. rewrite adapter_config_run.
  unfold routes_outcome, queued_redirect.
  destruct (vpn_ipv4 pull) as [l4 |];
    [| destruct (has_ipv4_route (add_routes pull))]; cbn [fst snd];
    try (destruct (redirect_outcome env pull) as [[] | e |]; cbn [fst snd]);
    rewrite ?os_app, ?H1, ?H2, ?H3, ?H4, ?app_nil_r;
    try reflexivity;
    destruct (has_ipv4_route (add_routes pull)); reflexivity.
Qed.

(** ** DNS and WINS servers *)

Section Servers.

Variable env : Env.
Variable th : HANDLE.
Variable app : string.
Variable tap : TapNameGuidPair.t.
Variable pull : TunBuilderCapture.t.

Lemma dns_server_lengths (i4 i6 : Z) (ds : DNSServer.t) :
  let q := queued (dns_server env tap pull (i4, i6) ds) in
  let idx := if DNSServer.ipv6 ds then i6 else i4 in
  List.length (Lists.create q)
  = (if DNSServer.ipv6 ds && block_ipv6 pull then 0 else 1)%nat
  /\ List.length (Lists.destroy q)
     = (if DNSServer.ipv6 ds && block_ipv6 pull then 0
        else if (idx =? 0)%Z then 1 else 0)%nat.
Proof.
  unfold dns_server.
  destruct (DNSServer.ipv6 ds && block_ipv6 pull); [split; reflexivity |].
  destruct (DNSServer.ipv6 ds); cbn [fst snd];
    match goal with |- context [negb (?i =? 0)] => destruct (i =? 0) end;
    split; reflexivity.
Qed.

Lemma dns_loop_lengths (l : list DNSServer.t) (i4 i6 : Z) :
  0 <= i4 -> 0 <= i6 ->
  let q := queued (for_each_with (dns_server env tap pull) l (i4, i6)) in
  let n4 := count_dns (block_ipv6 pull) false l in
  let n6 := count_dns (block_ipv6 pull) true l in
  List.length (Lists.create q) = (n4 + n6)%nat
  /\ Z.of_nat (List.length (Lists.destroy q)) = primary i4 n4 + primary i6 n6.
Proof.
  revert i4 i6. induction l as [| ds l IH]; intros i4 i6 H4 H6.
  - unfold primary, count_dns. simpl. rewrite !andb_false_r. auto.
  - cbn zeta. simpl for_each_with.
    rewrite queued_bind by auto using framed_dns_server, framed_for_each_with.
    rewrite dns_server_outcome.
    destruct (dns_server_lengths i4 i6 ds) as [Lc Ld].
    rewrite create_app, destroy_app, !length_app, Lc, Ld.
    unfold count_dns, dns_added_in in *. simpl filter.
    destruct (DNSServer.ipv6 ds), (block_ipv6 pull); cbn [andb negb Bool.eqb];
      cbn [List.length];
      match goal with
      | |- context [for_each_with _ _ ?s] =>
          match s with
          | (?a, ?b) => destruct (IH a b) as [IHc IHd]; try lia
          end
      end;
      cbn zeta in IHc, IHd; rewrite IHc;
      (split; [lia |]); rewrite Nat2Z.inj_add, IHd;
      unfold primary; cbn [Nat.eqb negb]; rewrite ?andb_true_r;
      repeat match goal with
             | |- context [?x =? 0] => destruct (Z.eqb_spec x 0)
             end;
      cbn [andb]; lia.
Qed.

Lemma wins_server_run (i : Z) (ws : WINSServer.t) :
  run (wins_server env tap i ws) =
    (Ret (i + 1),
     if i =? 0
     then Lists.mk
            [WinCmd ("netsh interface ip set winsservers " ^^ index_or_name env tap
                     ^^ " static " ^^ WINSServer.address ws)]
            [WinCmd ("netsh interface ip delete winsservers " ^^ index_or_name env tap
                     ^^ " all")] [] []
     else Lists.mk
            [WinCmd ("netsh interface ip add winsservers " ^^ index_or_name env tap
                     ^^ " " ^^ WINSServer.address ws ^^ " " ^^ to_string (i + 1))]
            [] [] []).
Proof. unfold wins_server. destruct (i =? 0); reflexivity. Qed.

Lemma wins_server_queued (i : Z) (ws : WINSServer.t) :
  fst (run (wins_server env tap i ws)) = Ret (i + 1)
  /\ queued (wins_server env tap i ws) = snd (run (wins_server env tap i ws)).
Proof. unfold queued. rewrite wins_server_run. split; reflexivity. Qed.

Lemma wins_loop_secondary (l : list WINSServer.t) (i : Z) :
  0 < i ->
  let q := queued (for_each_with (wins_server env tap) l i) in
  List.length (Lists.create q) = List.length l /\ Lists.destroy q = [].
Proof.
  revert i. induction l as [| ws l IH]; intros i Hi.
  - split; reflexivity.
  - cbn zeta. simpl for_each_with.
    rewrite queued_bind by auto using framed_wins_server, framed_for_each_with.
    destruct (wins_server_queued i ws) as [W1 W2]. rewrite W1, W2.
    rewrite wins_server_run. cbn [snd].
    destruct (Z.eqb_spec i 0) as [E | _]; [lia |].
    destruct (IH (i + 1)) as [IHc IHd]; [lia |].
    rewrite create_app, destroy_app, length_app, IHc, IHd. split; reflexivity.
Qed.

End Servers.

(** X6.  The loop over the pushed DNS servers.  It counts, per family, the
    servers it does not skip (an IPv6 server is skipped under [block_ipv6]),
    queues one create command for each of them, and one destroy command for
    each family that has at least one: however many servers are pushed,
    teardown deletes them with a single command per family. *)
Theorem dns_servers_commands (env : Env) (tap : TapNameGuidPair.t)
    (pull : TunBuilderCapture.t) :
  let loop := for_each_with (dns_server env tap pull) (dns_servers pull) (0, 0) in
  let n4 := dns_count pull false in
  let n6 := dns_count pull true in
  fst (run loop) = Ret (Z.of_nat n4, Z.of_nat n6)
  /\ List.length (Lists.create (queued loop)) = (n4 + n6)%nat
  /\ List.length (Lists.destroy (queued loop)) = (Nat.min 1 n4 + Nat.min 1 n6)%nat.
Proof.
  intros loop n4 n6. subst loop n4 n6.
  split; [| split].
  - rewrite dns_loop_indices. reflexivity.
  - apply (dns_loop_lengths env tap pull (dns_servers pull) 0 0); lia.
  - destruct (dns_loop_lengths env tap pull (dns_servers pull) 0 0) as [_ H]; try lia.
    cbn zeta in H. fold (dns_count pull false) (dns_count pull true) in H.
    unfold primary in H. cbn [Z.eqb andb] in H.
    destruct (dns_count pull false), (dns_count pull true);
      cbn [Nat.eqb negb Nat.min] in *; lia.
Qed.

(** X7.  WINS servers.  The block never fails and queues one create command
    per pushed WINS server, the first of which sets the first server as the
    static one; the destroy list receives the single command that deletes all
    WINS servers of the adapter when at least one was pushed, and nothing
    otherwise. *)
Theorem wins_servers_commands (env : Env) (tap : TapNameGuidPair.t)
    (pull : TunBuilderCapture.t) :
  let q := queued (process_wins_servers env tap pull) in
  fst (run (process_wins_servers env tap pull)) = Ret tt
  /\ List.length (Lists.create q) = List.length (wins_servers pull)
  /\ hd_error (Lists.create q)
     = option_map
         (fun ws => WinCmd ("netsh interface ip set winsservers " ^^ index_or_name env tap
                            ^^ " static " ^^ WINSServer.address ws))
         (hd_error (wins_servers pull))
  /\ Lists.destroy q
     = match wins_servers pull with
       | [] => []
       | _ :: _ =>
           [WinCmd ("netsh interface ip delete winsservers " ^^ index_or_name env tap ^^ " all")]
       end.
Proof.
  intros q. subst q.
  split; [apply process_wins_servers_ret |].
  unfold process_wins_servers.
  rewrite queued_bind by auto using framed_wins_server, framed_for_each_with, framed_ret.
  destruct (wins_loop env tap (wins_servers pull) 0) as [H1 _]; [lia |].
  rewrite H1. rewrite create_app, destroy_app.
  change (Lists.create (queued (ret tt))) with (@nil Action).
  change (Lists.destroy (queued (ret tt))) with (@nil Action).
  rewrite !app_nil_r.
  destruct (wins_servers pull) as [| ws l]; [repeat split |].
  simpl for_each_with.
  rewrite queued_bind by auto using framed_wins_server, framed_for_each_with.
  destruct (wins_server_queued env tap 0 ws) as [W1 W2]. rewrite W1, W2.
  rewrite wins_server_run. cbn [snd Z.eqb].
  destruct (wins_loop_secondary env tap l (0 + 1)) as [Lc Ld]; [lia |].
  rewrite create_app, destroy_app, length_app, Lc, Ld.
  repeat split.
Qed.

(** ** The NRPT rule *)

(** X8.  The NRPT rule and its deletion are queued together and at most
    once: the destroy list holds one [NRPT::ActionDelete] exactly when the
    create list holds the [NRPT::ActionCreate], neither list holds the
    other's action, and the rule lists the addresses of all pushed DNS
    servers in their order -- also of the IPv6 servers that the loop skipped
    because of [block_ipv6]. *)
Theorem nrpt_rule_pairing (env : Env) (th : HANDLE) (app : string)
    (tap : TapNameGuidPair.t) (pull : TunBuilderCapture.t) :
  let all := queued (adapter_config env th app tap pull) in
  filter is_nrpt_delete (Lists.destroy all)
  = (if is_ret (fst (run (adapter_config env th app tap pull)))
        && (IsWindows8OrGreater env && dns_added pull)
     then [NRPT_ActionDelete] else [])
  /\ List.length (filter is_nrpt_create (Lists.create all))
     = List.length (filter is_nrpt_delete (Lists.destroy all))
  /\ filter is_nrpt_delete (Lists.create all) = []
  /\ filter is_nrpt_create (Lists.destroy all) = []
  /\ (forall dsfx dserv,
        In (NRPT_ActionCreate dsfx dserv) (Lists.create all) ->
        dserv = map DNSServer.address (dns_servers pull)).
Proof.
  intros all. subst all.
  destruct (nocmd_adapter_config is_nrpt_create (fun _ => eq_refl) (fun _ => eq_refl)
              env th app tap pull) as [Cc Cd].
  destruct (nocmd_adapter_config is_nrpt_delete (fun _ => eq_refl) (fun _ => eq_refl)
              env th app tap pull) as [Dc Dd].
  assert (In_create : forall dsfx dserv,
             In (NRPT_ActionCreate dsfx dserv)
                (filter is_nrpt_create
                   (Lists.create (queued (adapter_config env th app tap pull)))) ->
             dserv = map DNSServer.address (dns_servers pull)).
  { intros dsfx dserv. rewrite Cc.
    destruct (is_ret (fst (run (adapter_config env th app tap pull)))); [| intros []].
    unfold nrpt_rules, wfp_block.
    destruct (use_nrpt env && _); destruct (IsWindows8OrGreater env && _ && _);
      cbn; intros H; repeat (destruct H as [H | H]; try congruence); contradiction. }
  revert Cc Cd Dc Dd.
  unfold nrpt_rules, wfp_block, use_nrpt. rewrite !dns_indices_added.
  destruct (is_ret (fst (run (adapter_config env th app tap pull))));
    destruct (IsWindows8OrGreater env && dns_added pull);
    destruct (IsWindows8OrGreater env && negb (empty app) && dns_added pull);
    cbn; intros Cc Cd Dc Dd; rewrite ?Cc, ?Cd, ?Dc, ?Dd;
    (repeat split; try reflexivity);
    intros dsfx dserv Hin; apply (In_create dsfx dserv);
    apply filter_In; split; auto.
Qed.

(** X9.  Every suffix handed to the NRPT rule begins with a dot, and the
    suffix list is never empty. *)
Theorem dns_suffix_list_dotted (redir_dns4 redir_dns6 : bool)
    (search_domains : list SearchDomain.t) :
  dns_suffix_list redir_dns4 redir_dns6 search_domains <> []
  /\ forall dom, In dom (dns_suffix_list redir_dns4 redir_dns6 search_domains) ->
                 begins_with_dot dom = true.
Proof.
  rewrite dns_suffix_list_eq.
  assert (Hn : forall dom, In dom (normalized_search_domains search_domains) ->
                           begins_with_dot dom = true).
  { unfold normalized_search_domains. intros dom Hin.
    apply in_map_iff in Hin. destruct Hin as [d [Hd _]]. subst dom.
    unfold normalize_suffix. destruct (begins_with_dot d) eqn:E; [exact E | reflexivity]. }
  destruct (redir_dns4 || redir_dns6).
  - split; [discriminate |]. intros dom [<- | []]. reflexivity.
  - destruct (normalized_search_domains search_domains) as [| s l] eqn:E.
    + split; [discriminate |]. intros dom [<- | []]. reflexivity.
    + split; [discriminate | exact Hn].
Qed.

(** * Further properties of [establish] and [destroy] *)

Lemma execute_host ok (l host : list Action) (host' : list Action) :
  ActionList.execute ok l host = (None, host') -> host' = host ++ l.
Proof.
  revert host. induction l as [| a l IH]; intros host H; simpl in H.
  - inversion H. now rewrite app_nil_r.
  - destruct (ok host a); [| discriminate H].
    rewrite (IH _ H). now rewrite <- app_assoc.
Qed.

Lemma execute_attempts ok (l host : list Action) :
  exists attempted,
    snd (ActionList.execute ok l host) = host ++ attempted.
Proof.
  revert host. induction l as [| a l IH]; intros host; simpl.
  - exists []. now rewrite app_nil_r.
  - destruct (ok host a).
    + destruct (IH (host ++ [a])) as [t Ht]. exists (a :: t).
      rewrite Ht. now rewrite <- app_assoc.
    + exists [a]. reflexivity.
Qed.

Lemma destroy_keeps_world env self w :
  out (snd (Setup.destroy env self w)) = out w
  /\ tap_dev (snd (Setup.destroy env self w)) = tap_dev w.
Proof.
  unfold Setup.destroy. destruct (Setup.remove_cmds self) as [al |]; [| auto].
  destruct (ActionList.destroy (action_ok env) al (executed w)) as [[al' failed] host'].
  auto.
Qed.

(** X10.  A successful [establish].  When the TAP adapter opens,
    [adapter_config] returns and every create action succeeds, [establish]
    returns the handle of the adapter; the host has executed the create list
    in order after the teardown of the previous session; the object holds
    the destroy list, enabled; the device has received the controls of
    [adapter_config].  A [destroy] that follows executes the destroy list,
    in order, and drops it. *)
Theorem establish_success (env : Env) (pull : TunBuilderCapture.t) (app : string)
    (self : Setup.t) (w : World) (th : HANDLE) (q : Lists.t) (host' : list Action) :
  let host := executed (snd (Setup.destroy env self w)) in
  let r := Setup.establish env pull app self w in
  tap_open_th env = Some th ->
  run (adapter_config env th app (tap_open_tap env) pull) = (Ret tt, q) ->
  ActionList.execute (action_ok env) (Lists.create q) host = (None, host') ->
  fst (fst r) = Ret th
  /\ executed (snd r) = host ++ Lists.create q
  /\ Setup.remove_cmds (snd (fst r)) = Some (ActionList.mk (Lists.destroy q) true)
  /\ tap_dev (snd r) = tap_dev w ++ Lists.tap_io q
  /\ executed (snd (Setup.destroy env (snd (fst r)) (snd r)))
     = host ++ Lists.create q ++ Lists.destroy q
  /\ Setup.remove_cmds (fst (Setup.destroy env (snd (fst r)) (snd r))) = None.
Proof.
  intros host r Hth Hrun Hexec. subst host r.
  pose proof (execute_host _ _ _ _ Hexec) as Hhost. subst host'.
  destruct (destroy_keeps_world env self w) as [Ho Ht].
  assert (He : Setup.establish env pull app self w
               = (Ret th,
                  Setup.mk (Some (ActionList.mk (Lists.destroy q) true)),
                  mkWorld (executed (snd (Setup.destroy env self w)) ++ Lists.create q)
                          (((out w ++ ["TAP ADAPTERS:"; guids_to_string env])
                            ++ [open_tap_msg env ^^ " SUCCEEDED"; version_to_string env])
                           ++ Lists.os q)
                          (tap_dev w ++ Lists.tap_io q))).
  { unfold Setup.establish, open_tap_msg.
    destruct (Setup.destroy env self w) as [self1 w1]. rewrite Hth.
    rewrite (framed_adapter_config env th app (tap_open_tap env) pull).
    rewrite Hrun. cbn [fst snd] in *. cbv iota beta.
    cbn [Lists.create Lists.destroy Lists.os Lists.tap_io lists_app List.app].
    rewrite Hexec, Ho, Ht. reflexivity. }
  rewrite He. cbn [fst snd executed out tap_dev Setup.remove_cmds].
  repeat split.
  - rewrite destroy_executed. cbn. now rewrite <- app_assoc.
  - apply destroy_resets.
Qed.

Lemma establish_success_witness :
  fst (fst (Setup.establish example_env (pull_end_to_end example_remote)
              "C:\openvpn.exe" example_armed (mkWorld [] [] [])))
  = Ret 7
  /\ executed (snd (Setup.establish example_env (pull_end_to_end example_remote)
                      "C:\openvpn.exe" example_armed (mkWorld [] [] [])))
     = [ WinCmd "netsh interface ip delete address 12 10.8.0.2 gateway=all store=active";
         WinCmd "ipconfig /flushdns";
         ActionDeleteAllRoutesOnInterface 12;
         WinCmd "netsh interface ip set address 12 static 10.8.0.2 255.255.255.0 gateway=10.8.0.1 store=active";
         WinCmd "netsh interface ip add route 192.168.50.0/24 12 10.8.0.1 store=active";
         WinCmd "ipconfig /flushdns" ].
Proof.
  destruct (establish_success example_env (pull_end_to_end example_remote)
              "C:\openvpn.exe" example_armed (mkWorld [] [] []) 7
              (snd (run (adapter_config example_env 7 "C:\openvpn.exe" example_tap
                          (pull_end_to_end example_remote))))
              _ eq_refl eq_refl eq_refl) as [H1 [H2 _]].
  split; [exact H1 | exact H2].
Defined.

(** X11.  [establish] closes out the previous session first.  Whatever its
    outcome, the host first executes the actions of an enabled remove list
    that the object still holds, in order; everything else that is executed
    comes after them, and the previous remove list is not kept: the object
    then holds no remove list or the one of the new session. *)
Theorem establish_closes_previous_session (env : Env) (pull : TunBuilderCapture.t)
    (app : string) (self : Setup.t) (w : World) :
  let r := Setup.establish env pull app self w in
  let previous :=
    match Setup.remove_cmds self with
    | Some al => if ActionList.enable_destroy_ al then ActionList.actions al else []
    | None => []
    end in
  (exists attempted, executed (snd r) = executed w ++ previous ++ attempted)
  /\ (Setup.remove_cmds (snd (fst r)) = None
      \/ exists th enabled,
           tap_open_th env = Some th
           /\ Setup.remove_cmds (snd (fst r))
              = Some (ActionList.mk
                        (Lists.destroy
                           (queued (adapter_config env th app (tap_open_tap env) pull)))
                        enabled)).
Proof.
  intros r previous. subst r previous.
  pose proof (destroy_executed env self w) as Hd.
  pose proof (destroy_resets env self w) as Hr.
  unfold Setup.establish.
  destruct (Setup.destroy env self w) as [self1 w1]. cbn [fst snd] in Hd, Hr.
  destruct (tap_open_th env) as [th |].
  - match goal with
    | |- context [adapter_config _ _ _ _ _ (Lists.mk [] [] ?o ?d)] =>
        rewrite (framed_adapter_config env th app (tap_open_tap env) pull
                   (Lists.mk [] [] o d))
    end.
    fold (queued (adapter_config env th app (tap_open_tap env) pull)).
    set (q := queued (adapter_config env th app (tap_open_tap env) pull)).
    destruct (fst (run (adapter_config env th app (tap_open_tap env) pull))) as [[] | e |].
    + cbn [Lists.create Lists.destroy lists_app List.app].
      destruct (execute_attempts (action_ok env) (Lists.create q) (executed w1))
        as [t Ht].
      destruct (ActionList.execute (action_ok env) (Lists.create q) (executed w1))
        as [[a |] host'] eqn:E; cbn [fst snd executed Setup.remove_cmds] in *;
        (split; [exists t; rewrite Ht, Hd; now rewrite <- app_assoc
                | right; eexists; eexists; split; reflexivity]).
    + cbn [fst snd executed Setup.remove_cmds].
      split; [exists []; now rewrite Hd, !app_nil_r
             | right; eexists; eexists; split; reflexivity].
    + cbn [fst snd executed Setup.remove_cmds].
      split; [exists []; now rewrite Hd, !app_nil_r
             | right; eexists; eexists; split; reflexivity].
  - cbn [fst snd executed Setup.remove_cmds].
    split; [exists []; now rewrite Hd, !app_nil_r | left; exact Hr].
Qed.

(** X12.  No TAP adapter.  When no TAP device can be opened, [establish]
    throws the fatal [TUN_IFACE_CREATE] error "cannot acquire TAP handle"
    after the teardown of the previous session; to what the stream holds
    after that teardown it has added the two lines about the adapters and a
    last line that reports the failure; no device control is issued, no
    action of a new session is executed, and the object holds no remove
    list. *)
Theorem establish_no_adapter (env : Env) (pull : TunBuilderCapture.t)
    (app : string) (self : Setup.t) (w : World) :
  let r := Setup.establish env pull app self w in
  tap_open_th env = None ->
  fst (fst r) = Throw (ErrorCode_TUN_IFACE_CREATE true "cannot acquire TAP handle")
  /\ executed (snd r) = executed (snd (Setup.destroy env self w))
  /\ Setup.remove_cmds (snd (fst r)) = None
  /\ out (snd r)
     = out (snd (Setup.destroy env self w))
       ++ ["TAP ADAPTERS:"; guids_to_string env; open_tap_msg env ^^ " FAILED"]
  /\ tap_dev (snd r) = tap_dev w.
Proof.
  intros r Hth. subst r.
  pose proof (destroy_resets env self w) as Hr.
  destruct (destroy_keeps_world env self w) as [_ Ht].
  unfold Setup.establish, open_tap_msg.
  destruct (Setup.destroy env self w) as [self1 w1]. rewrite Hth.
  cbn [fst snd executed out tap_dev Setup.remove_cmds] in *.
  rewrite Ht, <- app_assoc. repeat split. exact Hr.
Qed.

Lemma establish_no_adapter_witness :
  fst (fst (Setup.establish example_env_no_tap (pull_end_to_end example_remote)
              "C:\openvpn.exe" Setup.init (mkWorld [] [] [])))
  = Throw (ErrorCode_TUN_IFACE_CREATE true "cannot acquire TAP handle")
  /\ executed (snd (Setup.establish example_env_no_tap (pull_end_to_end example_remote)
                      "C:\openvpn.exe" Setup.init (mkWorld [] [] [])))
     = [].
Proof.
  destruct (establish_no_adapter example_env_no_tap (pull_end_to_end example_remote)
              "C:\openvpn.exe" Setup.init (mkWorld [] [] []) eq_refl) as [H1 [H2 _]].
  split; [exact H1 | exact H2].
Defined.

(** X13.  Nothing to tear down after a failed [establish].  Whenever
    [establish] does not return -- no adapter, an exception of
    [adapter_config], a failing create action -- the remove actions are not
    enabled: a [destroy] that follows executes no action at all, so that the
    create actions that were already executed stay in effect. *)
Theorem destroy_after_failed_establish (env : Env) (pull : TunBuilderCapture.t)
    (app : string) (self : Setup.t) (w : World) :
  let r := Setup.establish env pull app self w in
  is_ret (fst (fst r)) = false ->
  executed (snd (Setup.destroy env (snd (fst r)) (snd r))) = executed (snd r)
  /\ Setup.remove_cmds (fst (Setup.destroy env (snd (fst r)) (snd r))) = None.
Proof.
  intros r Hfail. subst r.
  split; [| apply destroy_resets].
  rewrite destroy_executed.
  revert Hfail. unfold Setup.establish.
  pose proof (destroy_resets env self w) as Hr.
  destruct (Setup.destroy env self w) as [self1 w1]. cbn [fst] in Hr.
  destruct (tap_open_th env) as [th |].
  - destruct (adapter_config env th app (tap_open_tap env) pull _) as [[[] | e |] l].
    + destruct (ActionList.execute (action_ok env) (Lists.create l) (executed w1))
        as [[a |] host'].
      * intros _. cbn. apply app_nil_r.
      * discriminate.
    + intros _. cbn. apply app_nil_r.
    + intros _. cbn. apply app_nil_r.
  - intros _. cbn [fst snd]. rewrite Hr. apply app_nil_r.
Qed.

Lemma destroy_after_failed_establish_witness :
  executed
    (snd (Setup.destroy example_env_failing
            (snd (fst (Setup.establish example_env_failing (pull_end_to_end example_remote)
                         "C:\openvpn.exe" Setup.init (mkWorld [] [] []))))
            (snd (Setup.establish example_env_failing (pull_end_to_end example_remote)
                    "C:\openvpn.exe" Setup.init (mkWorld [] [] [])))))
  = [ ActionDeleteAllRoutesOnInterface 12;
      WinCmd "netsh interface ip set address 12 static 10.8.0.2 255.255.255.0 gateway=10.8.0.1 store=active";
      WinCmd "netsh interface ip add route 192.168.50.0/24 12 10.8.0.1 store=active" ].
Proof.
  exact (proj1 (destroy_after_failed_establish example_env_failing
                  (pull_end_to_end example_remote) "C:\openvpn.exe" Setup.init
                  (mkWorld [] [] []) eq_refl)).
Defined.

(** * The pre-Vista variant of [adapter_config] *)

(** ** The wait loop *)

Lemma iterations_cons (first : Z) (count : nat) :
  iterations first (S count) = first :: iterations (first + 1) count.
Proof.
  unfold iterations. simpl seq. simpl map. rewrite Z.add_0_r. f_equal.
  rewrite <- seq_shift, map_map. apply map_ext. intros k. lia.
Qed.

Lemma wait_for_dhcp_down (host : Legacy.Host) (attempts : nat) (first : Z) :
  (forall k, (k < attempts)%nat -> Legacy.is_up host (first + Z.of_nat k) = false) ->
  Legacy.wait_for_dhcp host attempts first
  = (false, map wait_line (iterations first attempts),
     flat_map wait_down (iterations first attempts)).
Proof.
  revert first. induction attempts as [| n IH]; intros first Hdown.
  - reflexivity.
  - simpl Legacy.wait_for_dhcp.
    pose proof (Hdown 0%nat ltac:(lia)) as H0. rewrite Z.add_0_r in H0. rewrite H0.
    rewrite IH.
    + rewrite iterations_cons. reflexivity.
    + intros k Hk. replace (first + 1 + Z.of_nat k) with (first + Z.of_nat (S k)) by lia.
      apply Hdown. lia.
Qed.

Lemma wait_for_dhcp_up (host : Legacy.Host) (attempts : nat) (first : Z) (k : nat) :
  (k < attempts)%nat ->
  Legacy.is_up host (first + Z.of_nat k) = true ->
  (forall j, (j < k)%nat -> Legacy.is_up host (first + Z.of_nat j) = false) ->
  Legacy.wait_for_dhcp host attempts first
  = (true, map wait_line (iterations first (S k)),
     flat_map wait_down (iterations first k)
     ++ [Legacy.poll_adapter (first + Z.of_nat k)]).
Proof.
  revert first k. induction attempts as [| n IH]; intros first k Hk Hup Hdown.
  - lia.
  - simpl Legacy.wait_for_dhcp. destruct k as [| k].
    + rewrite Z.add_0_r in Hup. rewrite Hup. unfold iterations. simpl.
      now rewrite Z.add_0_r.
    + pose proof (Hdown 0%nat ltac:(lia)) as H0. rewrite Z.add_0_r in H0. rewrite H0.
      rewrite (IH (first + 1) k).
      * rewrite (iterations_cons first (S k)), (iterations_cons first k).
        replace (first + Z.of_nat (S k)) with (first + 1 + Z.of_nat k) by lia.
        reflexivity.
      * lia.
      * rewrite <- Hup. f_equal. lia.
      * intros j Hj. replace (first + 1 + Z.of_nat j) with (first + Z.of_nat (S j)) by lia.
        apply Hdown. lia.
Qed.

(** ** The route commands *)

Section LegacyRoutes.

Variable env : Env.
Variable pull : TunBuilderCapture.t.

Lemma framed_legacy_add_route route : framed (Legacy.add_route env pull route).
Proof. unfold Legacy.add_route. framed_tac. Qed.

Lemma framed_legacy_process_routes : framed (Legacy.process_routes env pull).
Proof. apply framed_for_each, framed_legacy_add_route. Qed.

Lemma framed_legacy_exclude_route g route : framed (Legacy.exclude_route env g route).
Proof. unfold Legacy.exclude_route. framed_tac. Qed.

Lemma framed_legacy_process_exclude_routes :
  framed (Legacy.process_exclude_routes env pull).
Proof.
  unfold Legacy.process_exclude_routes.
  destruct (exclude_routes pull); [apply framed_ret |].
  destruct (gw env); [| apply framed_os_line].
  apply framed_for_each, framed_legacy_exclude_route.
Qed.

Lemma framed_legacy_redirect_gateway_ipv4 :
  framed (Legacy.redirect_gateway_ipv4 env pull).
Proof. unfold Legacy.redirect_gateway_ipv4. framed_tac. Qed.

Lemma framed_legacy_flush_dns : framed Legacy.flush_dns.
Proof. unfold Legacy.flush_dns. framed_tac. Qed.

Lemma framed_legacy_queue_routes : framed (Legacy.queue_routes env pull).
Proof.
  unfold Legacy.queue_routes.
  apply framed_bind; [apply framed_legacy_process_routes | intros _].
  apply framed_bind; [apply framed_legacy_process_exclude_routes | intros _].
  apply framed_bind; [apply framed_legacy_redirect_gateway_ipv4 | intros _].
  apply framed_legacy_flush_dns.
Qed.

Lemma legacy_for_each_add_route_outcome (routes : list Route.t) :
  fst (run (for_each (Legacy.add_route env pull) routes)) =
    match vpn_ipv4 pull with
    | Some _ => Ret tt
    | None => if has_ipv4_route routes then Throw missing_ifconfig else Ret tt
    end.
Proof.
  induction routes as [| route routes IH]; simpl for_each.
  - destruct (vpn_ipv4 pull); reflexivity.
  - rewrite run_bind by auto using framed_legacy_add_route, framed_for_each.
    unfold Legacy.add_route at 1. simpl has_ipv4_route.
    destruct (Route.ipv6 route); cbn [negb orb].
    + apply IH.
    + destruct (vpn_ipv4 pull); [apply IH | reflexivity].
Qed.

Lemma legacy_process_exclude_routes_ret :
  fst (run (Legacy.process_exclude_routes env pull)) = Ret tt.
Proof.
  unfold Legacy.process_exclude_routes.
  destruct (exclude_routes pull) as [| r l]; [reflexivity |].
  destruct (gw env) as [g |]; [| reflexivity].
  generalize (r :: l). intros routes.
  induction routes as [| route routes IH]; [reflexivity |].
  simpl for_each.
  rewrite run_bind by auto using framed_legacy_exclude_route, framed_for_each.
  unfold Legacy.exclude_route at 1.
  destruct (Route.ipv6 route); cbn [negb]; apply IH.
Qed.

Lemma legacy_redirect_gateway_ipv4_outcome :
  fst (run (Legacy.redirect_gateway_ipv4 env pull)) = redirect_outcome env pull.
Proof.
  unfold Legacy.redirect_gateway_ipv4, redirect_outcome.
  destruct (RerouteGW.ipv4 (reroute_gw pull)); [| reflexivity].
  destruct (gw env); [| reflexivity].
  destruct (RemoteAddress.ipv6 (remote_address pull));
    destruct (vpn_ipv4 pull); reflexivity.
Qed.

(** *** Mirrored lists *)

Lemma mirrored_nil : mirrored lists_nil.
Proof. exists []. split; reflexivity. Qed.

Lemma mirrored_app (a b : Lists.t) : mirrored a -> mirrored b -> mirrored (a +++ b).
Proof.
  intros [xs [Ha1 Ha2]] [ys [Hb1 Hb2]]. exists (xs ++ ys).
  rewrite create_app, destroy_app, !map_app, Ha1, Ha2, Hb1, Hb2. auto.
Qed.

Lemma mirroring_ret {A : Type} (a : A) : mirroring (ret a).
Proof. split; [apply framed_ret | apply mirrored_nil]. Qed.

Lemma mirroring_bind {A B : Type} (m : M A) (f : A -> M B) :
  mirroring m -> (forall a, mirroring (f a)) -> mirroring (bind m f).
Proof.
  intros [Fm Qm] Hf. split.
  - apply framed_bind; [assumption | intros a; apply Hf].
  - rewrite queued_bind; [| assumption | intros a; apply Hf].
    destruct (fst (run m)) as [a | e |]; auto.
    apply mirrored_app; [assumption | apply Hf].
Qed.

Lemma mirroring_for_each {A : Type} (body : A -> M unit) (l : list A) :
  (forall x, mirroring (body x)) -> mirroring (for_each body l).
Proof.
  intros Hb. induction l as [| x l IH]; simpl.
  - apply mirroring_ret.
  - apply mirroring_bind; auto.
Qed.

Lemma mirroring_pair (arg : string) :
  mirroring (create_add (WinCmd ("route ADD " ^^ arg)) ;;
             destroy_add (WinCmd ("route DELETE " ^^ arg))).
Proof.
  split; [framed_tac |]. exists [arg]. split; reflexivity.
Qed.

Lemma mirroring_legacy_add_route route : mirroring (Legacy.add_route env pull route).
Proof.
  unfold Legacy.add_route.
  destruct (Route.ipv6 route); cbn [negb]; [apply mirroring_ret |].
  destruct (vpn_ipv4 pull) as [l4 |].
  - apply mirroring_pair.
  - split; [apply framed_throw | apply mirrored_nil].
Qed.

Lemma mirroring_legacy_exclude_route g route :
  mirroring (Legacy.exclude_route env g route).
Proof.
  unfold Legacy.exclude_route.
  destruct (Route.ipv6 route); cbn [negb]; [apply mirroring_ret |].
  apply mirroring_pair.
Qed.

Lemma mirrored_legacy_redirect_gateway_ipv4 :
  mirrored (queued (Legacy.redirect_gateway_ipv4 env pull)).
Proof.
  unfold Legacy.redirect_gateway_ipv4.
  destruct (RerouteGW.ipv4 (reroute_gw pull)); [| apply mirrored_nil].
  destruct (gw env) as [g |]; [| apply mirrored_nil].
  destruct (RemoteAddress.ipv6 (remote_address pull)), (vpn_ipv4 pull) as [l4 |].
  - exists ["0.0.0.0 MASK 128.0.0.0 " ^^ RouteAddress.gateway l4;
            "128.0.0.0 MASK 128.0.0.0 " ^^ RouteAddress.gateway l4].
    split; reflexivity.
  - apply mirrored_nil.
  - exists [RemoteAddress.address (remote_address pull) ^^ " MASK 255.255.255.255 "
            ^^ DefaultGateway.gateway_address g;
            "0.0.0.0 MASK 128.0.0.0 " ^^ RouteAddress.gateway l4;
            "128.0.0.0 MASK 128.0.0.0 " ^^ RouteAddress.gateway l4].
    split; reflexivity.
  - exists [RemoteAddress.address (remote_address pull) ^^ " MASK 255.255.255.255 "
            ^^ DefaultGateway.gateway_address g].
    split; reflexivity.
Qed.

Lemma mirrored_legacy_process_exclude_routes :
  mirrored (queued (Legacy.process_exclude_routes env pull)).
Proof.
  unfold Legacy.process_exclude_routes.
  destruct (exclude_routes pull) as [| r l]; [apply mirrored_nil |].
  destruct (gw env) as [g |]; [| apply mirrored_nil].
  apply mirroring_for_each, mirroring_legacy_exclude_route.
Qed.

Lemma legacy_queue_routes_decomp :
  run (Legacy.queue_routes env pull) =
    match routes_outcome pull with
    | Ret _ =>
        match redirect_outcome env pull with
        | Ret _ =>
            (Ret tt,
             queued (Legacy.process_routes env pull)
             +++ queued (Legacy.process_exclude_routes env pull)
             +++ queued (Legacy.redirect_gateway_ipv4 env pull)
             +++ queued Legacy.flush_dns)
        | Throw e =>
            (Throw e,
             queued (Legacy.process_routes env pull)
             +++ queued (Legacy.process_exclude_routes env pull)
             +++ queued (Legacy.redirect_gateway_ipv4 env pull))
        | NullDeref =>
            (NullDeref,
             queued (Legacy.process_routes env pull)
             +++ queued (Legacy.process_exclude_routes env pull)
             +++ queued (Legacy.redirect_gateway_ipv4 env pull))
        end
    | Throw e => (Throw e, queued (Legacy.process_routes env pull))
    | NullDeref => (NullDeref, queued (Legacy.process_routes env pull))
    end.
Proof.
  assert (T4 : run Legacy.flush_dns = (Ret tt, queued Legacy.flush_dns))
    by reflexivity.
  pose proof (seq_split (Legacy.redirect_gateway_ipv4 env pull) _ _ _ T4
                framed_legacy_redirect_gateway_ipv4 framed_legacy_flush_dns) as T3.
  rewrite legacy_redirect_gateway_ipv4_outcome in T3.
  assert (F3 : framed (Legacy.redirect_gateway_ipv4 env pull ;; Legacy.flush_dns)).
  { apply framed_bind; [apply framed_legacy_redirect_gateway_ipv4 | intros _].
    apply framed_legacy_flush_dns. }
  assert (F2 : framed (Legacy.process_exclude_routes env pull ;;
                       Legacy.redirect_gateway_ipv4 env pull ;; Legacy.flush_dns)).
  { apply framed_bind; [apply framed_legacy_process_exclude_routes | intros _].
    exact F3. }
  assert (R1 : fst (run (Legacy.process_routes env pull)) = routes_outcome pull)
    by apply legacy_for_each_add_route_outcome.
  unfold Legacy.queue_routes.
  destruct (routes_outcome pull) as [[] | e |].
  - destruct (redirect_outcome env pull) as [[] | e |];
      (apply seq_ret_split;
       [ apply framed_legacy_process_routes | exact F2 | exact R1 |]);
      (apply seq_ret_split;
       [ apply framed_legacy_process_exclude_routes | exact F3
       | apply legacy_process_exclude_routes_ret |]);
      exact T3.
  - rewrite run_seq by auto using framed_legacy_process_routes. now rewrite R1.
  - rewrite run_seq by auto using framed_legacy_process_routes. now rewrite R1.
Qed.

(** What the route statements queue, and their outcome. *)
Lemma legacy_queue_routes_run :
  let o := match routes_outcome pull with
           | Ret _ => redirect_outcome env pull
           | o => o
           end in
  fst (run (Legacy.queue_routes env pull)) = o
  /\ exists args,
       Lists.create (queued (Legacy.queue_routes env pull))
       = map (fun arg => WinCmd ("route ADD " ^^ arg)) args
         ++ (if is_ret o then [WinCmd "ipconfig /flushdns"] else [])
       /\ Lists.destroy (queued (Legacy.queue_routes env pull))
          = map (fun arg => WinCmd ("route DELETE " ^^ arg)) args
            ++ (if is_ret o then [WinCmd "ipconfig /flushdns"] else []).
Proof.
  cbn zeta.
  pose proof (proj2 (mirroring_for_each _ (add_routes pull) mirroring_legacy_add_route))
    as [a1 [C1 D1]].
  destruct mirrored_legacy_process_exclude_routes as [a2 [C2 D2]].
  destruct mirrored_legacy_redirect_gateway_ipv4 as [a3 [C3 D3]].
  fold (Legacy.process_routes env pull) in C1, D1.
  unfold queued at 1 2. rewrite legacy_queue_routes_decomp.
  destruct (routes_outcome pull) as [[] | e |]; cbn [fst snd is_ret].
  - destruct (redirect_outcome env pull) as [[] | e |]; cbn [fst snd is_ret];
      (split; [reflexivity |]); exists (a1 ++ a2 ++ a3);
      rewrite !create_app, !destroy_app, C1, C2, C3, D1, D2, D3, !map_app;
      rewrite <- ?app_assoc, ?app_nil_r; split; reflexivity.
  - split; [reflexivity |]. exists a1. rewrite C1, D1, !app_nil_r. auto.
  - split; [reflexivity |]. exists a1. rewrite C1, D1, !app_nil_r. auto.
Qed.

End LegacyRoutes.

(** ** The whole function *)

Lemma filter_wait_down (l : list Z) :
  filter is_wait_event (flat_map wait_down l) = flat_map wait_down l.
Proof. induction l as [| i l IH]; simpl; [reflexivity | now rewrite IH]. Qed.

Section LegacyConfig.

Variable env : Env.
Variable host : Legacy.Host.
Variable th : HANDLE.
Variable tap : TapNameGuidPair.t.
Variable pull : TunBuilderCapture.t.

(** The events before the wait loop are no wait events. *)
Lemma filter_bring_up (wait : list Legacy.Event) :
  filter is_wait_event
    ((if Legacy.is_dhcp_enabled host then [] else [Legacy.exec_enable_dhcp tap])
     ++ match vpn_ipv4 pull with
        | Some local4 =>
            [Legacy.tap_ioctl
               (if RouteAddress.net30 local4
                then tap_configure_topology_net30 th (RouteAddress.address local4)
                       (RouteAddress.prefix_length local4)
                else tap_configure_topology_subnet th (RouteAddress.address local4)
                       (RouteAddress.prefix_length local4))]
        | None => []
        end
     ++ [Legacy.dhcp_masquerade_ioctl th;
         Legacy.tap_ioctl (tap_set_media_status th true);
         Legacy.flush_arp (TapNameGuidPair.index tap);
         Legacy.dhcp_release (TapNameGuidPair.index tap);
         Legacy.dhcp_renew (TapNameGuidPair.index tap)]
     ++ wait)
  = filter is_wait_event wait.
Proof.
  destruct (Legacy.is_dhcp_enabled host), (vpn_ipv4 pull); reflexivity.
Qed.

End LegacyConfig.

(** X14.  The DHCP handshake times out.  When DHCP is enabled on the TAP
    adapter, or can be enabled, and the adapter is not up at any of the 30
    looks, the pre-Vista [adapter_config] throws "TAP adapter DHCP handshake
    failed": it has looked exactly 30 times, sleeping one second after each
    look, and has queued no action; the settle delay before the routes is
    never reached. *)
Theorem legacy_handshake_timeout (env : Env) (host : Legacy.Host) (th : HANDLE)
    (tap : TapNameGuidPair.t) (pull : TunBuilderCapture.t) (st : Lists.t) :
  let r := Legacy.adapter_config env host th tap pull st in
  (Legacy.is_dhcp_enabled host = false -> Legacy.enable_dhcp_ok host = true) ->
  (forall i, 1 <= i <= 30 -> Legacy.is_up host i = false) ->
  fst (fst r) = Legacy.Done (Throw handshake_failed)
  /\ Lists.create (snd (fst r)) = Lists.create st
  /\ Lists.destroy (snd (fst r)) = Lists.destroy st
  /\ filter is_wait_event (snd r) = flat_map wait_down (iterations 1 30).
Proof.
  intros r Hdhcp Hdown. subst r. unfold Legacy.adapter_config.
  assert (Hc : negb (Legacy.is_dhcp_enabled host) && negb (Legacy.enable_dhcp_ok host)
               = false).
  { destruct (Legacy.is_dhcp_enabled host); [reflexivity |].
    now rewrite Hdhcp. }
  rewrite Hc.
  rewrite (wait_for_dhcp_down host 30 1) by (intros k Hk; apply Hdown; lia).
  cbn [negb fst snd]. cbv iota beta.
  cbn [fst snd Legacy.write_lines Lists.create Lists.destroy Lists.os].
  repeat split.
  rewrite filter_bring_up. apply filter_wait_down.
Qed.

Lemma legacy_handshake_timeout_witness :
  fst (fst (Legacy.adapter_config example_env example_host_down 7 example_tap
              (pull_end_to_end example_remote) lists_nil))
  = Legacy.Done (Throw handshake_failed)
  /\ Lists.create (snd (fst (Legacy.adapter_config example_env example_host_down 7
                               example_tap (pull_end_to_end example_remote) lists_nil)))
     = [].
Proof.
  destruct (legacy_handshake_timeout example_env example_host_down 7 example_tap
              (pull_end_to_end example_remote) lists_nil)
    as [H1 [H2 _]].
  - intros H; discriminate H.
  - intros i _. reflexivity.
  - split; [exact H1 | exact H2].
Defined.

(** X15.  The DHCP handshake succeeds.  When the adapter is first up at
    look number [k + 1] of the 30, the pre-Vista [adapter_config] has looked
    [k + 1] times and slept one second after each of the first [k] looks;
    the five seconds of settle delay are its last wait, and it ends as the
    route statements end: with the missing-ifconfig error, the missing-gateway
    error, the dereference of the null IPv4 route configuration, or by
    returning. *)
Theorem legacy_handshake_success (env : Env) (host : Legacy.Host) (th : HANDLE)
    (tap : TapNameGuidPair.t) (pull : TunBuilderCapture.t) (st : Lists.t) (k : nat) :
  let r := Legacy.adapter_config env host th tap pull st in
  (Legacy.is_dhcp_enabled host = false -> Legacy.enable_dhcp_ok host = true) ->
  (k < 30)%nat ->
  Legacy.is_up host (1 + Z.of_nat k) = true ->
  (forall j, (j < k)%nat -> Legacy.is_up host (1 + Z.of_nat j) = false) ->
  filter is_wait_event (snd r)
  = flat_map wait_down (iterations 1 k)
    ++ [Legacy.poll_adapter (1 + Z.of_nat k); Legacy.Sleep 5000]
  /\ fst (fst r)
     = Legacy.Done (match routes_outcome pull with
                    | Ret _ => redirect_outcome env pull
                    | o => o
                    end).
Proof.
  intros r Hdhcp Hk Hup Hdown. subst r. unfold Legacy.adapter_config.
  assert (Hc : negb (Legacy.is_dhcp_enabled host) && negb (Legacy.enable_dhcp_ok host)
               = false).
  { destruct (Legacy.is_dhcp_enabled host); [reflexivity |].
    now rewrite Hdhcp. }
  rewrite Hc.
  rewrite (wait_for_dhcp_up host 30 1 k Hk Hup Hdown).
  cbn [negb]. cbv iota beta.
  rewrite (framed_legacy_queue_routes env pull).
  destruct (legacy_queue_routes_run env pull) as [Ho _]. cbn zeta in Ho.
  cbn [fst snd]. rewrite Ho. split; [| reflexivity].
  rewrite <- !app_assoc.
  rewrite filter_bring_up, !filter_app, filter_wait_down. reflexivity.
Qed.

Lemma legacy_handshake_success_witness :
  filter is_wait_event
    (snd (Legacy.adapter_config example_env example_host_up3 7 example_tap
            (pull_end_to_end example_remote) lists_nil))
  = [ Legacy.poll_adapter 1; Legacy.Sleep 1000;
      Legacy.poll_adapter 2; Legacy.Sleep 1000;
      Legacy.poll_adapter 3; Legacy.Sleep 5000 ].
Proof.
  refine (proj1 (legacy_handshake_success example_env example_host_up3 7 example_tap
                   (pull_end_to_end example_remote) lists_nil 2 _ _ _ _)).
  - reflexivity.
  - lia.
  - reflexivity.
  - intros j Hj. destruct j as [| [| j]]; [reflexivity | reflexivity | lia].
Defined.

(** X16.  The lists of the pre-Vista variant mirror each other.  Whatever
    the host and the outcome, the create list consists of [route ADD]
    commands and the destroy list of the [route DELETE] commands with the
    same arguments in the same order, each followed by the DNS cache flush
    exactly when the function returns.  In particular the two lists always
    have the same length, and no [netsh] command is queued. *)
Theorem legacy_lists_mirrored (env : Env) (host : Legacy.Host) (th : HANDLE)
    (tap : TapNameGuidPair.t) (pull : TunBuilderCapture.t) :
  let r := Legacy.adapter_config env host th tap pull lists_nil in
  let flush :=
    match fst (fst r) with
    | Legacy.Done (Ret _) => [WinCmd "ipconfig /flushdns"]
    | _ => []
    end in
  exists args,
    Lists.create (snd (fst r))
    = map (fun arg => WinCmd ("route ADD " ^^ arg)) args ++ flush
    /\ Lists.destroy (snd (fst r))
       = map (fun arg => WinCmd ("route DELETE " ^^ arg)) args ++ flush.
Proof.
  cbn zeta. unfold Legacy.adapter_config.
  destruct (negb (Legacy.is_dhcp_enabled host) && negb (Legacy.enable_dhcp_ok host)).
  - exists []. split; reflexivity.
  - destruct (Legacy.wait_for_dhcp host 30 1) as [[succeed lines] events].
    destruct succeed; cbn [negb]; [| exists []; split; reflexivity].
    rewrite (framed_legacy_queue_routes env pull).
    destruct (legacy_queue_routes_run env pull) as [Ho [args [Hc Hd]]].
    cbn zeta in Ho. cbn [fst snd].
    exists args. rewrite create_app, destroy_app.
    fold (queued (Legacy.queue_routes env pull)). rewrite Hc, Hd, Ho.
    cbn [Legacy.write_lines Lists.create Lists.destroy List.app].
    destruct (match routes_outcome pull with
              | Ret _ => redirect_outcome env pull
              | o => o
              end) as [[] | e |]; split; reflexivity.
Qed.

(** ** The loops over the routes to add *)

Section RouteLoops.

Variable env : Env.
Variable tap : TapNameGuidPair.t.
Variable pull : TunBuilderCapture.t.

Lemma legacy_add_route_run (route : Route.t) :
  run (Legacy.add_route env pull route)
  = if Route.ipv6 route then (Ret tt, lists_nil)
    else match vpn_ipv4 pull with
         | Some local4 =>
             (Ret tt,
              Lists.mk [legacy_route_cmd env local4 "ADD" route]
                       [legacy_route_cmd env local4 "DELETE" route] [] [])
         | None => (Throw missing_ifconfig, lists_nil)
         end.
Proof.
  unfold Legacy.add_route.
  destruct (Route.ipv6 route), (vpn_ipv4 pull); reflexivity.
Qed.

Lemma legacy_routes_with_ifconfig (local4 : RouteAddress.t) (routes : list Route.t) :
  vpn_ipv4 pull = Some local4 ->
  run (for_each (Legacy.add_route env pull) routes)
  = (Ret tt,
     Lists.mk
       (map (legacy_route_cmd env local4 "ADD")
            (filter (fun route => negb (Route.ipv6 route)) routes))
       (map (legacy_route_cmd env local4 "DELETE")
            (filter (fun route => negb (Route.ipv6 route)) routes))
       [] []).
Proof.
  intros H4. induction routes as [| route routes IH]; [reflexivity |].
  simpl for_each.
  rewrite run_bind by auto using framed_legacy_add_route, framed_for_each.
  rewrite legacy_add_route_run, H4, IH. simpl filter.
  destruct (Route.ipv6 route); reflexivity.
Qed.

Lemma legacy_routes_without_ifconfig (routes : list Route.t) :
  vpn_ipv4 pull = None ->
  run (for_each (Legacy.add_route env pull) routes)
  = (if has_ipv4_route routes then Throw missing_ifconfig else Ret tt, lists_nil).
Proof.
  intros H4. induction routes as [| route routes IH]; [reflexivity |].
  simpl for_each.
  rewrite run_bind by auto using framed_legacy_add_route, framed_for_each.
  rewrite legacy_add_route_run, H4, IH. simpl has_ipv4_route.
  destruct (Route.ipv6 route); reflexivity.
Qed.

Lemma add_route_run (local4 : RouteAddress.t) (route : Route.t) :
  vpn_ipv4 pull = Some local4 ->
  run (add_route env tap pull route)
  = (Ret tt,
     if route_kept pull route
     then Lists.mk [route_cmd env tap local4 "add" route]
                   [route_cmd env tap local4 "delete" route] [] []
     else lists_nil).
Proof.
  intros H4. unfold add_route, route_kept, route_cmd. rewrite H4.
  destruct (Route.ipv6 route), (block_ipv6 pull); reflexivity.
Qed.

Lemma routes_with_ifconfig (local4 : RouteAddress.t) (routes : list Route.t) :
  vpn_ipv4 pull = Some local4 ->
  run (for_each (add_route env tap pull) routes)
  = (Ret tt,
     Lists.mk
       (map (route_cmd env tap local4 "add") (filter (route_kept pull) routes))
       (map (route_cmd env tap local4 "delete") (filter (route_kept pull) routes))
       [] []).
Proof.
  intros H4. induction routes as [| route routes IH]; [reflexivity |].
  simpl for_each.
  rewrite run_bind by auto using framed_add_route, framed_for_each.
  rewrite (add_route_run local4 route H4), IH. simpl filter.
  destruct (route_kept pull route); reflexivity.
Qed.

End RouteLoops.

(** X17.  The routes to add, pre-Vista.  With an IPv4 route configuration
    the loop returns and queues, for each IPv4 entry and in their order, one
    [route ADD] with the netmask of its prefix length through the gateway of
    the configuration, and the [route DELETE] with the same arguments; IPv6
    entries are skipped without any notice.  Without an IPv4 route
    configuration the loop queues nothing and throws exactly when there is an
    IPv4 entry. *)
Theorem legacy_routes_queued (env : Env) (pull : TunBuilderCapture.t) :
  let ipv4_routes := filter (fun route => negb (Route.ipv6 route)) (add_routes pull) in
  run (Legacy.process_routes env pull)
  = match vpn_ipv4 pull with
    | Some local4 =>
        (Ret tt,
         Lists.mk (map (legacy_route_cmd env local4 "ADD") ipv4_routes)
                  (map (legacy_route_cmd env local4 "DELETE") ipv4_routes) [] [])
    | None =>
        (if has_ipv4_route (add_routes pull) then Throw missing_ifconfig else Ret tt,
         lists_nil)
    end.
Proof.
  cbn zeta. unfold Legacy.process_routes.
  destruct (vpn_ipv4 pull) as [local4 |] eqn:E.
  - now apply legacy_routes_with_ifconfig.
  - now apply legacy_routes_without_ifconfig.
Qed.

(** X18.  The routes to add, Vista and higher.  With an IPv4 route
    configuration the loop returns and queues one add command and its delete
    command per entry, in the order of the entries and by family -- an IPv4
    entry through the gateway of the configuration, an IPv6 entry through the
    next hop fe80::8 of the TAP driver; under [block_ipv6] the IPv6 entries
    are skipped without any notice. *)
Theorem routes_queued (env : Env) (tap : TapNameGuidPair.t)
    (pull : TunBuilderCapture.t) (local4 : RouteAddress.t) :
  vpn_ipv4 pull = Some local4 ->
  run (process_routes env tap pull)
  = (Ret tt,
     Lists.mk
       (map (route_cmd env tap local4 "add") (filter (route_kept pull) (add_routes pull)))
       (map (route_cmd env tap local4 "delete")
            (filter (route_kept pull) (add_routes pull)))
       [] []).
Proof. intros H4. unfold process_routes. now apply routes_with_ifconfig. Qed.

Lemma routes_queued_witness :
  Lists.create (snd (run (process_routes example_env example_tap pull_blocked)))
  = [ WinCmd "netsh interface ip add route 192.168.50.0/24 12 10.8.0.1 store=active" ].
Proof.
  exact (f_equal (fun r => Lists.create (snd r))
           (routes_queued example_env example_tap pull_blocked example_local4 eq_refl)).
Defined.
